(** * Bilibili comment manager: ledger, detector and action executor

    A shallow embedding of [BilibiliCommentManager] (src/app.py): the
    violation ledger kept in [self.violation_users], the pattern matcher,
    the detector that consumes the check queue, the harvester of comments
    and nested replies and the two action executors, followed by the
    properties the specification states about them.

    Python objects are modelled as follows.
    - A ledger record is a Python [dict] with string keys: a
      [gmap string value].  Subscripting a missing key raises [KeyError].
    - Python integers are unbounded: [Z].
    - Methods mutate [self] in place and may raise; a mutation made before
      an exception is raised stays visible afterwards.  Methods are
      therefore functions [manager -> outcome A * manager].
    - The logger, the platform client, the regular-expression engine and
      the record store file are outside the repository.  Their observable
      effects are kept in the state (the log stream, the list of action
      calls issued, the file content); their answers are taken as
      parameters.
    - The pages of a comment list or of a reply thread are a finite list
      of answers, one per page request.
    - Within a pass the asyncio tasks are run one after the other: the
      top-level pages, the nested-reply sequences in the order of their
      comments, then the detector over the check queue in FIFO order.
      Rate-limiting delays are not modelled. *)

From stdpp Require Import gmap strings list.
From Stdlib Require Import ZArith Lia.

Open Scope Z_scope.

(** ** Python values and exceptions *)

(** The JSON values a ledger record can hold.  Booleans and floats are
    left out: the program never writes them. *)
#[warnings="-register-all"]
Inductive value : Type :=
| VNone
| VInt (n : Z)
| VStr (s : string)
| VList (l : list value).

(** A Python [dict] with string keys. *)
Abbreviation dict := (gmap string value).

Inductive exn : Type :=
| KeyError (k : string)
| TypeError
| AttributeError
| IndexError
| ReError
| ApiError
| OSError
| JSONDecodeError.

Inductive outcome (A : Type) : Type :=
| Ret (a : A)
| Raise (e : exn).
Arguments Ret {A} a.
Arguments Raise {A} e.

(** [v == n] for an integer [n]: values of another type compare unequal
    without raising. *)
Definition eq_int (v : value) (n : Z) : bool :=
  match v with
  | VInt c => c =? n
  | _ => false
  end.

(** ** State and exceptions *)

Definition St (S A : Type) : Type := S -> outcome A * S.

#[global] Instance St_ret {S} : MRet (St S) := fun A a s => (Ret a, s).

#[global] Instance St_bind {S} : MBind (St S) := fun A B k c s =>
  match c s with
  | (Ret a, s') => k a s'
  | (Raise e, s') => (Raise e, s')
  end.

Definition raise {S A} (e : exn) : St S A := fun s => (Raise e, s).

(** [try: body except Exception as e: handler e] *)
Definition try_except {S A} (body : St S A) (handler : exn -> St S A) : St S A :=
  fun s =>
    match body s with
    | (Ret a, s') => (Ret a, s')
    | (Raise e, s') => handler e s'
    end.

Definition get_state {S} : St S S := fun s => (Ret s, s).
Definition modify {S} (f : S -> S) : St S unit := fun s => (Ret tt, f s).

(** Run a computation on a component of the state. *)
Definition zoom {S T A} (get : S -> T) (set : T -> S -> S) (c : St T A) : St S A :=
  fun s => let '(r, t) := c (get s) in (r, set t s).

(** ** Operations on one record *)

(** [d[k]] *)
Definition getitem (k : string) : St dict value := fun d =>
  match d !! k with
  | Some v => (Ret v, d)
  | None => (Raise (KeyError k), d)
  end.

(** [d[k] = v] *)
Definition setitem (k : string) (v : value) : St dict unit :=
  modify (insert k v).

(** [d[k] += n] *)
Definition iadd_item (k : string) (n : Z) : St dict unit :=
  v ← getitem k;
  match v with
  | VInt c => setitem k (VInt (c + n))
  | _ => raise TypeError
  end.

(** [d[k].append(x)]: the list object is mutated, the key keeps pointing
    to it. *)
Definition append_item (k : string) (x : value) : St dict unit :=
  v ← getitem k;
  match v with
  | VList l => setitem k (VList (l ++ [x]))
  | _ => raise AttributeError
  end.

(** ** Log stream, check-queue items, platform calls *)

Inductive level : Type := INFO | ERROR | DEBUG.

Inductive item_type : Type := comment | sub_comment.

(** The messages of the methods modelled below, one constructor per
    format string, with the interpolated values as arguments. *)
Inductive message : Type :=
| MsgLoaded
| MsgLoadFailed (e : exn)
| MsgFileCreated
| MsgInitFileFailed (e : exn)
| MsgSaved
| MsgSaveFailed (e : exn)
| MsgCheckFailed (e : exn)
| MsgUpdateFailed (e : exn)
| MsgDeleting (rpid : Z)
| MsgDeleted (rpid : Z)
| MsgDeleteFailed (rpid : Z) (e : exn)
| MsgBlocking (uid : Z)
| MsgBlocked (uid : Z)
| MsgBlockFailed (uid : Z) (e : exn)
| MsgSubFetched (rpid : Z) (n : nat)
| MsgSubFailed (rpid : Z) (e : exn)
| MsgFetchingPage (page : Z)
| MsgPageEmpty (page : Z)
| MsgPagesFetched (pages : Z)
| MsgFetchFailed (e : exn)
| MsgViolation (t : item_type) (username : string) (uid : Z) (content : string)
| MsgQueueFailed (e : exn)
| MsgCommentsTotal (n : nat)
| MsgSubTotal (n : nat)
| MsgPassFailed (e : exn)
| Traceback.

(** A reply as the platform returns it: [reply['rpid']], [reply['mid']],
    [reply['member']['uname']], [reply['content']['message']], and whether
    [reply['replies']] is a non-empty list. *)
Record reply : Type := {
  rpid : Z;
  mid : Z;
  uname : string;
  msg : string;
  replies : bool
}.

(** The dictionary [_get_single_sub_comment] builds for a nested reply. *)
Record sub_reply : Type := {
  sub_rpid : Z;
  sub_mid : Z;
  sub_user : string;
  sub_content : string;
  parent_rpid : Z
}.

(** An entry of [violation_check_queue]: [{'type': ..., 'data': ...}].
    [ItemOther] is an entry whose type is neither of the two the detector
    knows. *)
Inductive item : Type :=
| ItemComment (data : reply)
| ItemSub (data : sub_reply)
| ItemOther.

(** Action calls issued to the platform. *)
Inductive call : Type :=
| CallDelete (rpid : Z)
| CallBlock (uid : Z).

(** ** The manager object *)

Record manager : Type := {
  violation_words : list string;
  violation_users : list dict;
  comment_queue : list Z;
  blacklist_queue : list Z;
  violation_check_queue : list item;
  (** content of [violation_users_file], [None] when the file is absent *)
  violation_users_file : option string;
  (** what [self.logger] has received, oldest first *)
  logger : list (level * message);
  (** action calls issued to the platform, oldest first *)
  calls : list call
}.

Definition set_violation_users (l : list dict) (m : manager) : manager :=
  {| violation_words := violation_words m; violation_users := l;
     comment_queue := comment_queue m; blacklist_queue := blacklist_queue m;
     violation_check_queue := violation_check_queue m;
     violation_users_file := violation_users_file m;
     logger := logger m; calls := calls m |}.

Definition set_comment_queue (q : list Z) (m : manager) : manager :=
  {| violation_words := violation_words m; violation_users := violation_users m;
     comment_queue := q; blacklist_queue := blacklist_queue m;
     violation_check_queue := violation_check_queue m;
     violation_users_file := violation_users_file m;
     logger := logger m; calls := calls m |}.

Definition set_blacklist_queue (q : list Z) (m : manager) : manager :=
  {| violation_words := violation_words m; violation_users := violation_users m;
     comment_queue := comment_queue m; blacklist_queue := q;
     violation_check_queue := violation_check_queue m;
     violation_users_file := violation_users_file m;
     logger := logger m; calls := calls m |}.

Definition set_violation_check_queue (q : list item) (m : manager) : manager :=
  {| violation_words := violation_words m; violation_users := violation_users m;
     comment_queue := comment_queue m; blacklist_queue := blacklist_queue m;
     violation_check_queue := q;
     violation_users_file := violation_users_file m;
     logger := logger m; calls := calls m |}.

Definition set_violation_users_file (f : option string) (m : manager) : manager :=
  {| violation_words := violation_words m; violation_users := violation_users m;
     comment_queue := comment_queue m; blacklist_queue := blacklist_queue m;
     violation_check_queue := violation_check_queue m;
     violation_users_file := f;
     logger := logger m; calls := calls m |}.

Definition set_logger (l : list (level * message)) (m : manager) : manager :=
  {| violation_words := violation_words m; violation_users := violation_users m;
     comment_queue := comment_queue m; blacklist_queue := blacklist_queue m;
     violation_check_queue := violation_check_queue m;
     violation_users_file := violation_users_file m;
     logger := l; calls := calls m |}.

Definition set_calls (c : list call) (m : manager) : manager :=
  {| violation_words := violation_words m; violation_users := violation_users m;
     comment_queue := comment_queue m; blacklist_queue := blacklist_queue m;
     violation_check_queue := violation_check_queue m;
     violation_users_file := violation_users_file m;
     logger := logger m; calls := c |}.

Definition M (A : Type) : Type := St manager A.

Definition log (lv : level) (m : message) : M unit :=
  modify (fun s => set_logger (logger s ++ [(lv, m)]) s).

(** [except Exception as e: self.logger.error(...); self.logger.debug(traceback.format_exc())] *)
Definition log_exception (m : message) : M unit :=
  log ERROR m ;; log DEBUG Traceback.

(** ** The violation ledger *)

(** The body of the [if user_info["uid"] == uid:] branch. *)
Definition bump_record (rpid : Z) (content : string) : St dict unit :=
  iadd_item "violation_count" 1 ;;
  append_item "comment_rpids" (VInt rpid) ;;
  append_item "comment_contents" (VStr content).

(** [for i, user_info in enumerate(self.violation_users)]: the index of the
    first record of [uid], after updating it, or [None] (the loop ran to
    its end). *)
Fixpoint find_user (uid rpid : Z) (content : string) (i : nat)
    (l : list dict) : outcome (option nat) * list dict :=
  match l with
  | [] => (Ret None, [])
  | u :: rest =>
      match u !! "uid" with
      | None => (Raise (KeyError "uid"), u :: rest)
      | Some v =>
          if eq_int v uid then
            match bump_record rpid content u with
            | (Ret _, u') => (Ret (Some i), u' :: rest)
            | (Raise e, u') => (Raise e, u' :: rest)
            end
          else
            let '(r, rest') := find_user uid rpid content (S i) rest in
            (r, u :: rest')
      end
  end.

Definition new_record (username : string) (uid rpid : Z) (content : string) : dict :=
  <["username" := VStr username]>
  (<["uid" := VInt uid]>
  (<["violation_count" := VInt 1]>
  (<["comment_rpids" := VList [VInt rpid]]>
  (<["comment_contents" := VList [VStr content]]> ∅)))).

(** [self.violation_users[i][k]] *)
Definition users_item (i : nat) (k : string) : M value := fun s =>
  match violation_users s !! i with
  | None => (Raise IndexError, s)
  | Some u =>
      match u !! k with
      | None => (Raise (KeyError k), s)
      | Some v => (Ret v, s)
      end
  end.

Definition _update_violation_user (username : string) (uid rpid : Z)
    (content : string) : M unit :=
  try_except
    (found ← zoom violation_users set_violation_users
               (find_user uid rpid content 0);
     match found with
     | None =>
         modify (fun s => set_violation_users
           (violation_users s ++ [new_record username uid rpid content]) s)
     | Some _ => mret tt
     end ;;
     s ← get_state;
     let check_index :=
       match found with
       | None => (length (violation_users s) - 1)%nat
       | Some user_index => user_index
       end in
     c ← users_item check_index "violation_count";
     if eq_int c 3
     then modify (fun s => set_blacklist_queue (blacklist_queue s ++ [uid]) s)
     else mret tt)
    (fun e => log_exception (MsgUpdateFailed e)).

(** [for user_info in self.violation_users: if user_info["uid"] == uid:
    user_info["violation_count"] = 999; break] *)
Fixpoint mark_blocked (uid : Z) (l : list dict) : outcome unit * list dict :=
  match l with
  | [] => (Ret tt, [])
  | u :: rest =>
      match u !! "uid" with
      | None => (Raise (KeyError "uid"), u :: rest)
      | Some v =>
          if eq_int v uid then
            (Ret tt, <["violation_count" := VInt 999]> u :: rest)
          else
            let '(r, rest') := mark_blocked uid rest in
            (r, u :: rest')
      end
  end.

Definition lift_outcome {S A} (r : outcome A) : St S A := fun s => (r, s).

(** An action call: it is issued, then the platform answers. *)
Definition issue (c : call) (answer : outcome unit) : M unit :=
  modify (fun s => set_calls (calls s ++ [c]) s) ;; lift_outcome answer.

(** [await self.violation_check_queue.put(x)] for each [x] of [xs]. *)
Definition put_all (xs : list item) : M unit :=
  modify (fun s => set_violation_check_queue (violation_check_queue s ++ xs) s).

Definition mk_sub (parent : Z) (r : reply) : sub_reply :=
  {| sub_rpid := rpid r; sub_mid := mid r; sub_user := uname r;
     sub_content := msg r; parent_rpid := parent |}.

(** The answer to the next page request: a thread or comment list is
    finite, a page past its end has no replies. *)
Definition next_page (pages : list (outcome (list reply))) : outcome (list reply) :=
  match pages with
  | [] => Ret []
  | p :: _ => p
  end.

Section Manager.

(** ** External collaborators *)

(** [re.search(word, content)]: whether a match object is returned, or
    the exception raised ([re.error] on a malformed pattern). *)
Variable re_search : string -> string -> outcome bool.

(** [Comment(..., rpid).delete()] and
    [User(uid).modify_relation(RelationType.BLOCK)]. *)
Variable delete : Z -> outcome unit.
Variable modify_relation : Z -> outcome unit.

(** The platform's answers to [get_comments(page_index=1, 2, ...)] and,
    for a top-level comment, to [get_sub_comments(page_index=1, 2, ...,
    page_size=20)], in the order the pages are requested. *)
Variable get_comments_pages : list (outcome (list reply)).
Variable get_sub_comments_pages : Z -> list (outcome (list reply)).

(** [json.dump] and [json.load] on a ledger; the outcome of
    [open(file, 'r')] and of [open(file, 'w')]; and the outcome of
    writing a text to the opened file, with what the file holds
    afterwards. *)
Variable json_dump : list dict -> string.
Variable json_load : string -> outcome (list dict).
Variable open_r : outcome unit.
Variable open_w : outcome unit.
Variable write_text : string -> outcome unit * string.

(** ** Persistence *)

(** [open(self.violation_users_file, 'w')] creates or truncates the file. *)
Definition open_for_writing : M unit :=
  lift_outcome open_w ;;
  modify (set_violation_users_file (Some "")).

(** [json.dump(l, f, ensure_ascii=False, indent=4)] *)
Definition dump (l : list dict) : M unit := fun s =>
  let '(r, written) := write_text (json_dump l) in
  (r, set_violation_users_file (Some written) s).

Definition _load_violation_users : M (list dict) :=
  s ← get_state;
  match violation_users_file s with
  | Some text =>
      try_except
        (lift_outcome open_r ;;
         log INFO MsgLoaded ;;
         lift_outcome (json_load text))
        (fun e => log_exception (MsgLoadFailed e) ;; mret [])
  | None =>
      try_except
        (open_for_writing ;;
         log INFO MsgFileCreated ;;
         dump [] ;;
         mret [])
        (fun e => log_exception (MsgInitFileFailed e) ;; mret [])
  end.

Definition _save_violation_users : M unit :=
  try_except
    (open_for_writing ;;
     (s ← get_state; dump (violation_users s)) ;;
     log INFO MsgSaved)
    (fun e => log_exception (MsgSaveFailed e)).

(** ** Pattern matcher *)

(** [for word in self.violation_words: if re.search(word, content):
    return True] followed by [return False]. *)
Fixpoint search_words (content : string) (words : list string) : outcome bool :=
  match words with
  | [] => Ret false
  | word :: rest =>
      match re_search word content with
      | Raise e => Raise e
      | Ret true => Ret true
      | Ret false => search_words content rest
      end
  end.

Definition _check_violation (content : string) : M bool :=
  try_except
    (s ← get_state; lift_outcome (search_words content (violation_words s)))
    (fun e => log_exception (MsgCheckFailed e) ;; mret false).

(** ** Action executor *)

Definition delete_comment (rpid : Z) : M unit :=
  log INFO (MsgDeleting rpid) ;;
  try_except
    (issue (CallDelete rpid) (delete rpid) ;;
     log INFO (MsgDeleted rpid))
    (fun e => log_exception (MsgDeleteFailed rpid e)).

Definition blacklist_user (uid : Z) : M unit :=
  log INFO (MsgBlocking uid) ;;
  try_except
    (if negb (bool_decide (uid ∈ [621240130]))
     then
       issue (CallBlock uid) (modify_relation uid) ;;
       log INFO (MsgBlocked uid) ;;
       zoom violation_users set_violation_users (mark_blocked uid)
     else mret tt)
    (fun e => log_exception (MsgBlockFailed uid e)).

(** [while self.comment_queue: rpid = self.comment_queue.popleft();
    await self.delete_comment(rpid)] *)
Fixpoint delete_all (q : list Z) : M unit :=
  match q with
  | [] => mret tt
  | rpid :: rest =>
      modify (set_comment_queue rest) ;; delete_comment rpid ;; delete_all rest
  end.

(** [while self.blacklist_queue: uid = self.blacklist_queue.popleft();
    await self.blacklist_user(uid)] *)
Fixpoint blacklist_all (q : list Z) : M unit :=
  match q with
  | [] => mret tt
  | uid :: rest =>
      modify (set_blacklist_queue rest) ;; blacklist_user uid ;; blacklist_all rest
  end.

(** ** Harvester *)

(** The [while True] loop of [_get_single_sub_comment]; [pages] are the
    platform's answers from the current page on. *)
Fixpoint sub_loop (rpid : Z) (pages : list (outcome (list reply)))
    (all_sub_comments : list sub_reply) : M (list sub_reply) :=
  data ← lift_outcome (next_page pages);
  match data with
  | [] => mret all_sub_comments
  | _ :: _ =>
      let all_sub_comments := all_sub_comments ++ map (mk_sub rpid) data in
      put_all (map (fun r => ItemSub (mk_sub rpid r)) data) ;;
      if (length data =? 20)%nat then
        match pages with
        | [] => mret all_sub_comments
        | _ :: rest => sub_loop rpid rest all_sub_comments
        end
      else mret all_sub_comments
  end.

Definition _get_single_sub_comment (rpid : Z) : M (list sub_reply) :=
  try_except
    (all_sub_comments ← sub_loop rpid (get_sub_comments_pages rpid) [];
     log INFO (MsgSubFetched rpid (length all_sub_comments)) ;;
     mret all_sub_comments)
    (fun e => log_exception (MsgSubFailed rpid e) ;; raise e).

(** The [while True] loop of [get_comments]. *)
Fixpoint comments_loop (max_pages : Z) (pages : list (outcome (list reply)))
    (page : Z) (comments : list reply) : M (list reply) :=
  log INFO (MsgFetchingPage page) ;;
  c ← lift_outcome (next_page pages);
  match c with
  | [] =>
      log INFO (MsgPageEmpty page) ;;
      log INFO (MsgPagesFetched (page - 1)) ;;
      mret comments
  | _ :: _ =>
      let comments := comments ++ c in
      put_all (map ItemComment c) ;;
      let page := page + 1 in
      if page >? max_pages then mret comments
      else
        match pages with
        | [] => mret comments
        | _ :: rest => comments_loop max_pages rest page comments
        end
  end.

Definition get_comments (max_pages : Z) : M (list reply) :=
  try_except
    (comments_loop max_pages get_comments_pages 1 [])
    (fun e => log_exception (MsgFetchFailed e) ;; raise e).

(** ** Detector *)

(** The body of the detector loop after the fields have been read. *)
Definition check_item (t : item_type) (content username : string)
    (uid rpid : Z) : M unit :=
  violating ← _check_violation content;
  if violating : bool then
    log INFO (MsgViolation t username uid content) ;;
    _update_violation_user username uid rpid content ;;
    modify (fun s => set_comment_queue (comment_queue s ++ [rpid]) s)
  else mret tt.

Definition process_item (it : item) : M unit :=
  match it with
  | ItemComment data => check_item comment (msg data) (uname data) (mid data) (rpid data)
  | ItemSub data =>
      check_item sub_comment (sub_content data) (sub_user data) (sub_mid data) (sub_rpid data)
  | ItemOther => mret tt
  end.

(** The detector takes the entries of the check queue in FIFO order
    until the queue is empty. *)
Fixpoint process_items (q : list item) : M unit :=
  match q with
  | [] => mret tt
  | it :: rest =>
      modify (set_violation_check_queue rest) ;;
      process_item it ;;
      process_items rest
  end.

Definition _process_violations : M unit :=
  try_except
    (s ← get_state; process_items (violation_check_queue s))
    (fun e => log_exception (MsgQueueFailed e)).

(** ** One pass *)

(** The nested-reply sequences of the comments that have replies.  A
    sequence that raises is logged and adds nothing to [sub_comments]. *)
Fixpoint gather_sub_comments (comments : list reply)
    (sub_comments : list sub_reply) : M (list sub_reply) :=
  match comments with
  | [] => mret sub_comments
  | cmt :: rest =>
      if replies cmt then
        sub_list ← try_except
                     (_get_single_sub_comment (rpid cmt))
                     (fun e => log_exception (MsgSubFailed (rpid cmt) e) ;; mret []);
        gather_sub_comments rest (sub_comments ++ sub_list)
      else gather_sub_comments rest sub_comments
  end.

(** The harvesting part of a pass, with the asyncio tasks run one after
    the other: the top-level pages, then one nested-reply sequence per
    comment that has replies. *)
Definition harvest (max_pages : Z) : M unit :=
  comments ← get_comments max_pages;
  log INFO (MsgCommentsTotal (length comments)) ;;
  sub_comments ← gather_sub_comments comments [];
  log INFO (MsgSubTotal (length sub_comments)).

(** One pass: the harvest, then the detector until the check queue is
    empty ([violation_check_queue.join()]), then persistence and the two
    executors. *)
Definition process_all_comments (max_pages : Z) : M unit :=
  try_except
    (harvest max_pages ;;
     _process_violations ;;
     _save_violation_users ;;
     (s ← get_state; delete_all (comment_queue s)) ;;
     (s ← get_state; blacklist_all (blacklist_queue s)))
    (fun e => log_exception (MsgPassFailed e)).

End Manager.

(** * Notions used to state the properties *)

(** ** Reading the ledger *)

(** The final state of a method call. *)
Definition exec {A} (c : M A) (s : manager) : manager := (c s).2.

Definition has_uid (uid : Z) (u : dict) : bool :=
  match u !! "uid" with
  | Some v => eq_int v uid
  | None => false
  end.

(** The record of a user: the first one the loops over
    [self.violation_users] stop at, with its index. *)
Definition user_record (uid : Z) (l : list dict) : option (nat * dict) :=
  list_find (fun u => Is_true (has_uid uid u)) l.

Definition int_field (k : string) (u : dict) : option Z :=
  match u !! k with
  | Some (VInt c) => Some c
  | _ => None
  end.

(** The [violationCount] of a user, when the user has a record. *)
Definition violation_count_of (uid : Z) (l : list dict) : option Z :=
  match user_record uid l with
  | Some (_, u) => int_field "violation_count" u
  | None => None
  end.

(** The [username] a user's record holds. *)
Definition username_of (uid : Z) (l : list dict) : option value :=
  match user_record uid l with
  | Some (_, u) => u !! "username"
  | None => None
  end.

(** A record of the shape [_update_violation_user] writes; the
    [username] key is not needed. *)
Definition wf_record (u : dict) : bool :=
  match u !! "uid", u !! "violation_count",
        u !! "comment_rpids", u !! "comment_contents" with
  | Some (VInt _), Some (VInt _), Some (VList _), Some (VList _) => true
  | _, _, _, _ => false
  end.

Definition wf_ledger (l : list dict) : bool := forallb wf_record l.

(** The user identifiers of a ledger, in order. *)
Definition uids (l : list dict) : list value := omap (fun u : dict => u !! "uid") l.

(** At most one record per userId. *)
Definition unique_by_uid (l : list dict) : Prop := NoDup (uids l).

(** The record after the [if user_info["uid"] == uid:] branch has run. *)
Definition bumped (rpid : Z) (content : string) (u : dict) : dict :=
  (bump_record rpid content u).2.

(** The ledger once a violation has been recorded on it: the user's
    record updated in place, or a new record at the end. *)
Definition recorded (username : string) (uid rpid : Z) (content : string)
    (l : list dict) : list dict :=
  match user_record uid l with
  | Some (j, u) => <[j := bumped rpid content u]> l
  | None => l ++ [new_record username uid rpid content]
  end.

(** The ledger once the user's record carries the sentinel. *)
Definition marked (uid : Z) (l : list dict) : list dict :=
  match user_record uid l with
  | Some (j, u) => <[j := <["violation_count" := VInt 999]> u]> l
  | None => l
  end.


(** A sequence of violations of one user, recorded one after the other:
    each entry gives the username, the reply id and the body. *)
Fixpoint record_all (uid : Z) (vs : list (string * Z * string)) : M unit :=
  match vs with
  | [] => mret tt
  | (username, rpid, content) :: rest =>
      _update_violation_user username uid rpid content ;;
      record_all uid rest
  end.

(** ** Pattern lists *)

(** The pattern at position [i] is the first whose search does not come
    back empty-handed, and its search gives [r]: every pattern before it
    was searched without error and without a match. *)
Definition first_hit (re_search : string -> string -> outcome bool)
    (content : string) (words : list string) (r : outcome bool) (i : nat) : Prop :=
  exists word,
    words !! i = Some word /\
    re_search word content = r /\
    forall j word', (j < i)%nat -> words !! j = Some word' ->
                    re_search word' content = Ret false.

(** ** Check-queue entries and nested-reply sequences *)

(** The body and the reply id the detector reads from an entry. *)
Definition item_content (it : item) : option string :=
  match it with
  | ItemComment data => Some (msg data)
  | ItemSub data => Some (sub_content data)
  | ItemOther => None
  end.

Definition item_rpid (it : item) : option Z :=
  match it with
  | ItemComment data => Some (rpid data)
  | ItemSub data => Some (sub_rpid data)
  | ItemOther => None
  end.

(** What a nested-reply sequence gets from the platform before it ends or
    fails: the replies of the pages read, in order, and the error that
    ended it, if any. *)
Fixpoint fetched (pages : list (outcome (list reply))) : list reply * option exn :=
  match pages with
  | [] => ([], None)
  | Raise e :: _ => ([], Some e)
  | Ret [] :: _ => ([], None)
  | Ret data :: rest =>
      if (length data =? 20)%nat then
        let '(more, err) := fetched rest in (data ++ more, err)
      else (data, None)
  end.

(** The check-queue entries for the replies of one top-level comment. *)
Definition sub_items (rpid : Z) (rs : list reply) : list item :=
  map (fun r => ItemSub (mk_sub rpid r)) rs.

(** The body of a pass after the harvest. *)
Definition after_harvest (re_search : string -> string -> outcome bool)
    (delete modify_relation : Z -> outcome unit)
    (json_dump : list dict -> string) (open_w : outcome unit)
    (write_text : string -> outcome unit * string) : M unit :=
  _process_violations re_search ;;
  _save_violation_users json_dump open_w write_text ;;
  (s ← get_state; delete_all delete (comment_queue s)) ;;
  (s ← get_state; blacklist_all modify_relation (blacklist_queue s)).

(** ** Relations between the state before and after a method call *)

(** [c] relates every state to the state it leaves, whether it returns or
    raises. *)
Definition preserves {A} (P : relation manager) (c : M A) : Prop :=
  forall s, P s (exec c s).

(** [c] returns normally from every state. *)
Definition returns {A} (c : M A) : Prop :=
  forall s, exists a, (c s).1 = Ret a.

(** Only the ledger, the block queue and the log may differ. *)
Definition ledger_frame (s s' : manager) : Prop :=
  violation_words s' = violation_words s /\
  comment_queue s' = comment_queue s /\
  violation_check_queue s' = violation_check_queue s /\
  violation_users_file s' = violation_users_file s /\
  calls s' = calls s.

(** The pattern list is the same and the removal queue has only grown
    at its end. *)
Definition removals_grow (s s' : manager) : Prop :=
  violation_words s' = violation_words s /\
  exists new, comment_queue s' = comment_queue s ++ new.

(** The check queue has only grown at its end. *)
Definition check_queue_grows (s s' : manager) : Prop :=
  exists new, violation_check_queue s' = violation_check_queue s ++ new.

(** The log has only grown at its end. *)
Definition log_grows (s s' : manager) : Prop :=
  exists new, logger s' = logger s ++ new.

(** The action calls issued in between do not block [uid]. *)
Definition never_blocks (uid : Z) (s s' : manager) : Prop :=
  exists new, calls s' = calls s ++ new /\ CallBlock uid ∉ new.

(** * Concrete inputs used in the examples *)

(** ** Collaborators *)

(** The platform accepts every action call. *)
Definition always_ok : Z -> outcome unit := fun _ => Ret tt.

(** The platform refuses every action call. *)
Definition always_fails : Z -> outcome unit := fun _ => Raise ApiError.

(** A regular-expression engine cut down to literal patterns: a pattern
    matches when it occurs in the content.  The pattern ["("] is
    malformed and raises, as [re.search("(", ...)] does. *)
Definition literal_search (word content : string) : outcome bool :=
  if String.eqb word "(" then Raise ReError
  else match String.index 0 word content with
       | Some _ => Ret true
       | None => Ret false
       end.

(** A store that keeps one text: the empty ledger. *)
Definition dump_empty : list dict -> string := fun _ => "[]".
Definition load_empty : string -> outcome (list dict) := fun _ => Ret [].
Definition write_all : string -> outcome unit * string := fun text => (Ret tt, text).

(** ** Ledgers *)

(** A record with the keys [_update_violation_user] writes. *)
Definition mk_record (username : string) (uid count : Z) (rpids : list Z)
    (contents : list string) : dict :=
  <["username" := VStr username]>
  (<["uid" := VInt uid]>
  (<["violation_count" := VInt count]>
  (<["comment_rpids" := VList (VInt <$> rpids)]>
  (<["comment_contents" := VList (VStr <$> contents)]> ∅)))).

(** A manager between two passes: empty queues, nothing logged, no call
    issued, no store file. *)
Definition idle_manager (words : list string) (users : list dict) : manager :=
  {| violation_words := words; violation_users := users;
     comment_queue := []; blacklist_queue := [];
     violation_check_queue := []; violation_users_file := None;
     logger := []; calls := [] |}.

(** A user with two recorded violations. *)
Definition two_strikes : manager :=
  idle_manager ["spam"] [mk_record "bob" 7 2 [101; 102] ["spam a"; "spam b"]].


Definition three_violations : list (string * Z * string) :=
  [("bob", 101, "spam a"); ("bob", 102, "spam b"); ("bob", 103, "spam c")].

(** A ledger as new.py writes it: the reply ids are under the key
    [comment_ids], which [_update_violation_user] of app.py does not
    read. *)
Definition other_shape : manager :=
  idle_manager ["spam"]
    [<["username" := VStr "bob"]>
     (<["uid" := VInt 7]>
     (<["violation_count" := VInt 1]>
     (<["comment_ids" := VList [VInt 101]]>
     (<["comment_contents" := VList [VStr "spam a"]]> ∅))))].

Definition spam_reply : reply :=
  {| rpid := 102; mid := 7; uname := "bob"; msg := "more spam"; replies := false |}.

(** ** A pass in which one nested-reply sequence fails *)

(** Twenty replies to comment 100: a full page.  The second one is spam. *)
Definition full_page : list reply :=
  map (fun i : nat =>
         {| rpid := 1000 + Z.of_nat i; mid := 50 + Z.of_nat i; uname := "user";
            msg := if (i =? 2)%nat then "cheap spam here" else "nice video";
            replies := false |})
      (seq 1 20).

(** Two top-level comments with replies. *)
Definition two_threads : list (outcome (list reply)) :=
  [Ret [ {| rpid := 100; mid := 11; uname := "ann"; msg := "first"; replies := true |};
         {| rpid := 200; mid := 12; uname := "ben"; msg := "second"; replies := true |} ]].

(** The thread of comment 100 fails on its second page; the thread of
    comment 200 has one reply, spam as well. *)
Definition failing_thread (rpid : Z) : list (outcome (list reply)) :=
  if rpid =? 100 then [Ret full_page; Raise ApiError]
  else if rpid =? 200 then
    [Ret [ {| rpid := 2001; mid := 60; uname := "cat"; msg := "spam again"; replies := false |} ]]
  else [].

Definition failing_pass : M unit :=
  process_all_comments literal_search always_ok always_ok two_threads failing_thread
    dump_empty (Ret tt) write_all 5.

(** * Further notions *)

(** Only the log and the list of issued calls may differ. *)
Definition executor_frame (s s' : manager) : Prop :=
  violation_words s' = violation_words s /\
  violation_users s' = violation_users s /\
  comment_queue s' = comment_queue s /\
  blacklist_queue s' = blacklist_queue s /\
  violation_check_queue s' = violation_check_queue s /\
  violation_users_file s' = violation_users_file s.

(** Only the ledger, the log and the list of issued calls may differ. *)
Definition block_frame (s s' : manager) : Prop :=
  violation_words s' = violation_words s /\
  comment_queue s' = comment_queue s /\
  blacklist_queue s' = blacklist_queue s /\
  violation_check_queue s' = violation_check_queue s /\
  violation_users_file s' = violation_users_file s.

(** Only the check queue and the log may differ. *)
Definition harvest_frame (s s' : manager) : Prop :=
  violation_words s' = violation_words s /\
  violation_users s' = violation_users s /\
  comment_queue s' = comment_queue s /\
  blacklist_queue s' = blacklist_queue s /\
  violation_users_file s' = violation_users_file s /\
  calls s' = calls s.

(** The reply id to remove when the detector meets the entry [it] with the
    pattern list [words]: the entry's id when its body matches, nothing
    when it does not match, when the search raises or when the entry is of
    an unknown type. *)
Definition violating (re_search : string -> string -> outcome bool)
    (words : list string) (it : item) : option Z :=
  match item_content it, item_rpid it with
  | Some content, Some id =>
      match search_words re_search content words with
      | Ret true => Some id
      | _ => None
      end
  | _, _ => None
  end.

(** A thread whose first page is short and whose second page would
    raise. *)
Definition short_then_error (rpid : Z) : list (outcome (list reply)) :=
  [Ret [ {| rpid := 3001; mid := 70; uname := "dan"; msg := "hello"; replies := false |} ];
   Raise ApiError].

(** The user id the detector reads from an entry. *)
Definition item_uid (it : item) : option Z :=
  match it with
  | ItemComment data => Some (mid data)
  | ItemSub data => Some (sub_mid data)
  | ItemOther => None
  end.

(** Only the store file and the log may differ. *)
Definition save_frame (s s' : manager) : Prop :=
  violation_words s' = violation_words s /\
  violation_users s' = violation_users s /\
  comment_queue s' = comment_queue s /\
  blacklist_queue s' = blacklist_queue s /\
  violation_check_queue s' = violation_check_queue s /\
  calls s' = calls s.

(** The stages of a pass after the harvest, one state after the other:
    detection, persistence, removals, blocks. *)
Definition after_detection (re_search : string -> string -> outcome bool)
    (s : manager) : manager :=
  exec (_process_violations re_search) s.

Definition after_save (json_dump : list dict -> string) (open_w : outcome unit)
    (write_text : string -> outcome unit * string) (s : manager) : manager :=
  exec (_save_violation_users json_dump open_w write_text) s.

Definition after_removals (delete : Z -> outcome unit) (s : manager) : manager :=
  exec (delete_all delete (comment_queue s)) s.

Definition after_blocks (modify_relation : Z -> outcome unit) (s : manager) : manager :=
  exec (blacklist_all modify_relation (blacklist_queue s)) s.

(** A check queue without a matching entry, on the ledger of
    [two_strikes]. *)
Definition quiet_queue : manager :=
  set_violation_check_queue
    [ItemComment {| rpid := 301; mid := 7; uname := "bob"; msg := "nice video";
                    replies := false |};
     ItemOther]
    two_strikes.

(** One page with one comment, from the user of [two_strikes]; no nested
    replies. *)
Definition one_spam_page : list (outcome (list reply)) := [Ret [spam_reply]].
Definition no_threads (rpid : Z) : list (outcome (list reply)) := [].

(** Two records that differ at most in their violation count. *)
Definition same_but_count (r r' : dict) : Prop :=
  forall k, k <> "violation_count" -> r' !! k = r !! k.

(** Two ledgers with the same records in the same order, up to the
    violation counts. *)
Definition evidence_kept (l l' : list dict) : Prop := Forall2 same_but_count l l'.

(** A record at two violations whose reply ids are under the key
    [comment_ids] (the key new.py uses), and a ledger that holds it. *)
Definition no_reply_ids : dict :=
  <["username" := VStr "bob"]>
  (<["uid" := VInt 7]>
  (<["violation_count" := VInt 2]>
  (<["comment_ids" := VList [VInt 101; VInt 102]]>
  (<["comment_contents" := VList [VStr "spam a"; VStr "spam b"]]> ∅)))).

Definition no_reply_ids_ledger : manager := idle_manager ["spam"] [no_reply_ids].

(** What [get_comments] gets from the platform before it ends or fails:
    the comments of the pages read, in order, and the error that ended
    it, if any.  [page] is the number of the first page of [pages]. *)
Fixpoint fetched_pages (max_pages : Z) (pages : list (outcome (list reply)))
    (page : Z) : list reply * option exn :=
  match pages with
  | [] => ([], None)
  | Raise e :: _ => ([], Some e)
  | Ret [] :: _ => ([], None)
  | Ret c :: rest =>
      if page + 1 >? max_pages then (c, None)
      else let '(more, err) := fetched_pages max_pages rest (page + 1) in
           (c ++ more, err)
  end.

(** ** A small JSON codec for the examples *)



















(** * Properties *)
(** ** Monad laws used below *)

Lemma bind_run {S A B} (c : St S A) (k : A -> St S B) (s : S) :
  (c ≫= k) s =
  match c s with
  | (Ret a, s') => k a s'
  | (Raise e, s') => (Raise e, s')
  end.
Proof. reflexivity. Qed.

(** Unfold the monad operations in the goal. *)
Ltac run_monad :=
  cbv [mbind St_bind mret St_ret try_except zoom get_state modify raise
       lift_outcome exec];
  cbn.

(** ** Records *)

Lemma wf_record_fields (u : dict) :
  wf_record u = true ->
  exists k c ids bodies,
    u !! "uid" = Some (VInt k) /\
    u !! "violation_count" = Some (VInt c) /\
    u !! "comment_rpids" = Some (VList ids) /\
    u !! "comment_contents" = Some (VList bodies).
Proof.
  unfold wf_record. intros H.
  destruct (u !! "uid") as [[]|]; try discriminate.
  destruct (u !! "violation_count") as [[]|]; try discriminate.
  destruct (u !! "comment_rpids") as [[]|]; try discriminate.
  destruct (u !! "comment_contents") as [[]|]; try discriminate.
  eauto 10.
Qed.

Lemma bump_record_wf (rpid : Z) (content : string) (u : dict) c ids bodies :
  u !! "violation_count" = Some (VInt c) ->
  u !! "comment_rpids" = Some (VList ids) ->
  u !! "comment_contents" = Some (VList bodies) ->
  bump_record rpid content u =
    (Ret tt,
     <["comment_contents" := VList (bodies ++ [VStr content])]>
       (<["comment_rpids" := VList (ids ++ [VInt rpid])]>
          (<["violation_count" := VInt (c + 1)]> u))).
Proof.
  intros Hc Hi Hb. unfold bump_record, iadd_item, append_item, getitem, setitem, modify.
  rewrite !bind_run, Hc. cbn.
  rewrite !bind_run. rewrite lookup_insert_ne by done. rewrite Hi. cbn.
  rewrite !bind_run. rewrite !lookup_insert_ne by done. rewrite Hb. reflexivity.
Qed.

Lemma bumped_wf (rpid : Z) (content : string) (u : dict) c ids bodies :
  u !! "violation_count" = Some (VInt c) ->
  u !! "comment_rpids" = Some (VList ids) ->
  u !! "comment_contents" = Some (VList bodies) ->
  bumped rpid content u =
    <["comment_contents" := VList (bodies ++ [VStr content])]>
      (<["comment_rpids" := VList (ids ++ [VInt rpid])]>
         (<["violation_count" := VInt (c + 1)]> u)).
Proof.
  intros Hc Hi Hb. unfold bumped.
  rewrite (bump_record_wf rpid content u c ids bodies) by assumption.
  reflexivity.
Qed.

(** The keys the update does not write keep their value. *)
Lemma bump_record_other (rpid : Z) (content : string) (u : dict) (k : string) :
  k <> "violation_count" -> k <> "comment_rpids" -> k <> "comment_contents" ->
  (bump_record rpid content u).2 !! k = u !! k.
Proof.
  intros H1 H2 H3.
  unfold bump_record, iadd_item, append_item, getitem, setitem, modify.
  rewrite !bind_run.
  destruct (u !! "violation_count") as [[]|] eqn:Hc; cbn; try reflexivity.
  rewrite !bind_run, lookup_insert_ne by done.
  destruct (u !! "comment_rpids") as [[]|] eqn:Hi; cbn;
    try (rewrite lookup_insert_ne by done; reflexivity).
  rewrite !bind_run, !lookup_insert_ne by done.
  destruct (u !! "comment_contents") as [[]|] eqn:Hb; cbn;
    rewrite ?lookup_insert_ne by done; reflexivity.
Qed.

Lemma has_uid_bumped (uid rpid : Z) (content : string) (u : dict) :
  has_uid uid (bumped rpid content u) = has_uid uid u.
Proof.
  unfold has_uid, bumped. rewrite bump_record_other by done. reflexivity.
Qed.

Lemma wf_record_bumped (rpid : Z) (content : string) (u : dict) :
  wf_record u = true -> wf_record (bumped rpid content u) = true.
Proof.
  intros H. destruct (wf_record_fields u H) as (k & c & ids & bodies & Hu & Hc & Hi & Hb).
  rewrite (bumped_wf rpid content u c ids bodies) by assumption.
  unfold wf_record.
  rewrite lookup_insert_ne, lookup_insert_ne, lookup_insert_ne, Hu by done.
  rewrite lookup_insert_ne, lookup_insert_ne, lookup_insert_eq by done.
  rewrite lookup_insert_ne, lookup_insert_eq by done.
  rewrite lookup_insert_eq. reflexivity.
Qed.

Lemma count_bumped (rpid : Z) (content : string) (u : dict) (c : Z) :
  wf_record u = true ->
  int_field "violation_count" u = Some c ->
  int_field "violation_count" (bumped rpid content u) = Some (c + 1).
Proof.
  intros H Hc0. destruct (wf_record_fields u H) as (k & c' & ids & bodies & Hu & Hc & Hi & Hb).
  unfold int_field in *. rewrite Hc in Hc0. injection Hc0 as ->.
  rewrite (bumped_wf rpid content u c ids bodies) by assumption.
  rewrite lookup_insert_ne, lookup_insert_ne, lookup_insert_eq by done.
  reflexivity.
Qed.

Lemma wf_record_new (username : string) (uid rpid : Z) (content : string) :
  wf_record (new_record username uid rpid content) = true.
Proof.
  unfold wf_record, new_record.
  rewrite (lookup_insert_ne _ "username" "uid"), lookup_insert_eq by done.
  rewrite (lookup_insert_ne _ "username"), (lookup_insert_ne _ "uid"),
    lookup_insert_eq by done.
  rewrite (lookup_insert_ne _ "username"), (lookup_insert_ne _ "uid"),
    (lookup_insert_ne _ "violation_count"), lookup_insert_eq by done.
  rewrite (lookup_insert_ne _ "username"), (lookup_insert_ne _ "uid"),
    (lookup_insert_ne _ "violation_count"), (lookup_insert_ne _ "comment_rpids"),
    lookup_insert_eq by done.
  reflexivity.
Qed.

Lemma has_uid_new (username : string) (uid rpid : Z) (content : string) :
  has_uid uid (new_record username uid rpid content) = true.
Proof.
  unfold has_uid, new_record.
  rewrite (lookup_insert_ne _ "username" "uid"), lookup_insert_eq by done.
  cbn. apply Z.eqb_refl.
Qed.

Lemma count_new (username : string) (uid rpid : Z) (content : string) :
  int_field "violation_count" (new_record username uid rpid content) = Some 1.
Proof.
  unfold int_field, new_record.
  rewrite (lookup_insert_ne _ "username"), (lookup_insert_ne _ "uid"),
    lookup_insert_eq by done.
  reflexivity.
Qed.

Lemma new_record_fields (username : string) (uid rpid : Z) (content : string) :
  let r := new_record username uid rpid content in
  r !! "username" = Some (VStr username) /\
  r !! "uid" = Some (VInt uid) /\
  r !! "violation_count" = Some (VInt 1) /\
  r !! "comment_rpids" = Some (VList [VInt rpid]) /\
  r !! "comment_contents" = Some (VList [VStr content]).
Proof.
  unfold new_record. split_and!.
  - apply lookup_insert_eq.
  - by rewrite lookup_insert_ne, lookup_insert_eq.
  - by rewrite lookup_insert_ne, lookup_insert_ne, lookup_insert_eq.
  - by rewrite lookup_insert_ne, lookup_insert_ne, lookup_insert_ne, lookup_insert_eq.
  - by rewrite lookup_insert_ne, lookup_insert_ne, lookup_insert_ne, lookup_insert_ne,
      lookup_insert_eq.
Qed.

(** ** The lookup loop on a well-formed ledger *)

Lemma user_record_cons (uid : Z) (u : dict) (l : list dict) :
  user_record uid (u :: l) =
  if has_uid uid u then Some (0%nat, u)
  else prod_map S id <$> user_record uid l.
Proof.
  unfold user_record. cbn.
  destruct (has_uid uid u); cbn; reflexivity.
Qed.

Lemma find_user_wf (uid rpid : Z) (content : string) (l : list dict) (i : nat) :
  wf_ledger l = true ->
  find_user uid rpid content i l =
  match user_record uid l with
  | None => (Ret None, l)
  | Some (j, u) => (Ret (Some (i + j)%nat), <[j := bumped rpid content u]> l)
  end.
Proof.
  revert i. induction l as [|u l IH]; intros i Hwf.
  - reflexivity.
  - cbn in Hwf. apply andb_prop in Hwf as [Hu Hl].
    destruct (wf_record_fields u Hu) as (k & c & ids & bodies & Hk & Hc & Hi & Hb).
    rewrite user_record_cons. cbn [find_user]. unfold has_uid. rewrite Hk.
    destruct (eq_int (VInt k) uid) eqn:Heq.
    + rewrite (bumped_wf rpid content u c ids bodies) by assumption.
      rewrite (bump_record_wf rpid content u c ids bodies) by assumption.
      rewrite Nat.add_0_r. reflexivity.
    + rewrite (IH (S i) Hl).
      destruct (user_record uid l) as [[j v]|]; cbn; [|reflexivity].
      rewrite Nat.add_succ_r. reflexivity.
Qed.

Lemma user_record_insert (uid : Z) (l : list dict) (j : nat) (u u' : dict) :
  user_record uid l = Some (j, u) ->
  has_uid uid u' = true ->
  user_record uid (<[j := u']> l) = Some (j, u').
Proof.
  unfold user_record. intros Hf Hu'.
  apply list_find_Some in Hf as (Hj & _ & Hleast).
  apply list_find_insert_Some. right. left.
  split_and!; [done | done | by eapply lookup_lt_Some | by rewrite Hu' | done].
Qed.

Lemma user_record_snoc (uid : Z) (l : list dict) (u : dict) :
  user_record uid l = None ->
  has_uid uid u = true ->
  user_record uid (l ++ [u]) = Some (length l, u).
Proof.
  unfold user_record. intros Hf Hu.
  rewrite list_find_app_r by done. cbn. rewrite Hu. cbn. reflexivity.
Qed.

Lemma user_record_lookup (uid : Z) (l : list dict) (j : nat) (u : dict) :
  user_record uid l = Some (j, u) -> l !! j = Some u /\ has_uid uid u = true.
Proof.
  unfold user_record. intros (Hj & Hu & _)%list_find_Some.
  split; [done|]. by apply Is_true_true.
Qed.

Lemma wf_ledger_lookup (l : list dict) (j : nat) (u : dict) :
  wf_ledger l = true -> l !! j = Some u -> wf_record u = true.
Proof.
  unfold wf_ledger. rewrite forallb_forall. intros H Hj.
  apply H, list_elem_of_In, list_elem_of_lookup. eauto.
Qed.

Lemma wf_ledger_insert (l : list dict) (j : nat) (u : dict) :
  wf_ledger l = true -> wf_record u = true -> wf_ledger (<[j := u]> l) = true.
Proof.
  unfold wf_ledger. rewrite !forallb_forall. intros H Hu x Hx.
  apply list_elem_of_In, list_elem_of_lookup in Hx as [i Hi].
  apply list_lookup_insert_Some in Hi as [(-> & -> & _)|[_ Hi]]; [done|].
  apply H, list_elem_of_In, list_elem_of_lookup. eauto.
Qed.

Lemma wf_ledger_snoc (l : list dict) (u : dict) :
  wf_ledger l = true -> wf_record u = true -> wf_ledger (l ++ [u]) = true.
Proof.
  unfold wf_ledger. rewrite forallb_app. cbn. intros -> ->. reflexivity.
Qed.

Lemma recorded_wf (username : string) (uid rpid : Z) (content : string) (l : list dict) :
  wf_ledger l = true -> wf_ledger (recorded username uid rpid content l) = true.
Proof.
  intros Hwf. unfold recorded.
  destruct (user_record uid l) as [[j u]|] eqn:Hf.
  - apply user_record_lookup in Hf as [Hj _].
    apply wf_ledger_insert; [done|].
    apply wf_record_bumped. by eapply wf_ledger_lookup.
  - apply wf_ledger_snoc; [done|]. apply wf_record_new.
Qed.

(** On a well-formed ledger the count of the user after the update is
    one more than before, or 1 when the user had no record. *)
Lemma recorded_count (username : string) (uid rpid : Z) (content : string) (l : list dict) :
  wf_ledger l = true ->
  violation_count_of uid (recorded username uid rpid content l) =
  match violation_count_of uid l with
  | Some c => Some (c + 1)
  | None => Some 1
  end.
Proof.
  intros Hwf. unfold recorded, violation_count_of.
  destruct (user_record uid l) as [[j u]|] eqn:Hf.
  - destruct (user_record_lookup _ _ _ _ Hf) as [Hj Hu].
    pose proof (wf_ledger_lookup _ _ _ Hwf Hj) as Hwu.
    rewrite (user_record_insert uid l j u (bumped rpid content u) Hf)
      by (by rewrite has_uid_bumped).
    destruct (wf_record_fields u Hwu) as (k & c & ids & bodies & _ & Hc & _ & _).
    assert (int_field "violation_count" u = Some c) as Hc'
      by (unfold int_field; by rewrite Hc).
    rewrite Hc'. by apply count_bumped.
  - rewrite (user_record_snoc uid l _ Hf) by apply has_uid_new.
    apply count_new.
Qed.

(** ** [_update_violation_user] on a well-formed ledger *)

Lemma update_wf (username : string) (uid rpid : Z) (content : string) (m : manager) :
  wf_ledger (violation_users m) = true ->
  exists m',
    _update_violation_user username uid rpid content m = (Ret tt, m') /\
    violation_users m' = recorded username uid rpid content (violation_users m) /\
    blacklist_queue m' =
      (if decide (violation_count_of uid (violation_users m) = Some 2)
       then blacklist_queue m ++ [uid] else blacklist_queue m) /\
    comment_queue m' = comment_queue m /\
    violation_words m' = violation_words m /\
    violation_check_queue m' = violation_check_queue m /\
    violation_users_file m' = violation_users_file m /\
    logger m' = logger m /\
    calls m' = calls m.
Proof.
  intros Hwf.
  destruct m as [words users cq bq vq file lg cs]. cbn in Hwf.
  cbn [violation_users blacklist_queue comment_queue violation_words
       violation_check_queue violation_users_file logger calls].
  destruct (user_record uid users) as [[j u]|] eqn:Hf.
  - destruct (user_record_lookup _ _ _ _ Hf) as [Hj Hu].
    pose proof (wf_ledger_lookup _ _ _ Hwf Hj) as Hwu.
    destruct (wf_record_fields u Hwu) as (k & c & ids & bodies & _ & Hc & Hi & Hb).
    assert (violation_count_of uid users = Some c) as ->.
    { unfold violation_count_of, int_field. by rewrite Hf, Hc. }
    assert (recorded username uid rpid content users
            = <[j := bumped rpid content u]> users) as ->.
    { unfold recorded. by rewrite Hf. }
    assert (bumped rpid content u !! "violation_count" = Some (VInt (c + 1))) as Hc'.
    { rewrite (bumped_wf rpid content u c ids bodies) by assumption.
      by rewrite lookup_insert_ne, lookup_insert_ne, lookup_insert_eq. }
    unfold _update_violation_user, users_item. run_monad.
    rewrite (find_user_wf uid rpid content users 0 Hwf), Hf. cbn.
    rewrite list_lookup_insert_eq by (by eapply lookup_lt_Some).
    rewrite Hc'. cbn.
    destruct (decide (Some c = Some 2)) as [[= ->]|Hne].
    + cbn. eexists. split; [reflexivity|]. cbn. split_and!; reflexivity.
    + assert ((c + 1 =? 3) = false) as -> by (apply Z.eqb_neq; intros ?; apply Hne; f_equal; lia).
      eexists. split; [reflexivity|]. cbn. split_and!; reflexivity.
  - assert (violation_count_of uid users = None) as ->.
    { unfold violation_count_of. by rewrite Hf. }
    assert (recorded username uid rpid content users
            = users ++ [new_record username uid rpid content]) as ->.
    { unfold recorded. by rewrite Hf. }
    pose proof (count_new username uid rpid content) as Hc.
    unfold int_field in Hc.
    unfold _update_violation_user, users_item. run_monad.
    rewrite (find_user_wf uid rpid content users 0 Hwf), Hf. cbn.
    rewrite length_app. cbn.
    replace (length users + 1 - 1)%nat with (length users) by lia.
    rewrite lookup_app_r by lia. rewrite Nat.sub_diag. cbn.
    destruct (new_record username uid rpid content !! "violation_count") as [[]|];
      try discriminate.
    injection Hc as ->. cbn.
    eexists. split; [reflexivity|]. cbn. split_and!; reflexivity.
Qed.


(** What the lookup loop leaves on any ledger: the ledger as it was, or
    the ledger with the user's record replaced by what the update branch
    made of it before it returned or raised.  When the loop runs to its
    end nothing has changed and the user has no record. *)
Lemma find_user_shape (uid rpid : Z) (content : string) (i : nat) (l : list dict) :
  ((find_user uid rpid content i l).2 = l \/
   exists j u, user_record uid l = Some (j, u) /\
               (find_user uid rpid content i l).2 = <[j := bumped rpid content u]> l) /\
  ((find_user uid rpid content i l).1 = Ret None ->
   (find_user uid rpid content i l).2 = l /\ user_record uid l = None).
Proof.
  revert i. induction l as [|x l IH]; intros i; [split; [by left|done]|].
  cbn [find_user]. rewrite user_record_cons. unfold has_uid.
  destruct (x !! "uid") as [v|]; [|split; [by left|done]].
  destruct (eq_int v uid).
  - destruct (bump_record rpid content x) as [[[]|e] x'] eqn:Hb; cbn [fst snd];
      (split; [right; exists 0%nat, x; split; [reflexivity|];
               unfold bumped; by rewrite Hb
              |done]).
  - destruct (IH (S i)) as [Hshape Hnone].
    destruct (find_user uid rpid content (S i) l) as [r l']. cbn [fst snd] in *.
    split.
    + destruct Hshape as [->|(j & u & Hrec & ->)]; [by left|].
      right. exists (S j), u. by rewrite Hrec.
    + intros Hr. destruct (Hnone Hr) as [-> ->]. done.
Qed.

(** ** Composing relations along a method body *)

Section Preserves.
Context (P : relation manager) `{!PreOrder P}.

Lemma preserves_ret {A} (a : A) : preserves P (mret a).
Proof. intros s. reflexivity. Qed.

Lemma preserves_raise {A} (e : exn) : preserves P (raise e : M A).
Proof. intros s. reflexivity. Qed.

Lemma preserves_lift {A} (r : outcome A) : preserves P (lift_outcome r).
Proof. intros s. reflexivity. Qed.

Lemma preserves_get : preserves P get_state.
Proof. intros s. reflexivity. Qed.

Lemma preserves_modify (f : manager -> manager) :
  (forall s, P s (f s)) -> preserves P (modify f).
Proof. intros H s. apply H. Qed.

Lemma preserves_bind {A B} (c : M A) (k : A -> M B) :
  preserves P c -> (forall a, preserves P (k a)) -> preserves P (c ≫= k).
Proof.
  intros Hc Hk s. specialize (Hc s). unfold exec in *. cbv [mbind St_bind].
  destruct (c s) as [[a|e] s1]; cbn in *; [|done].
  etrans; [exact Hc|]. apply Hk.
Qed.

Lemma preserves_try {A} (c : M A) (h : exn -> M A) :
  preserves P c -> (forall e, preserves P (h e)) -> preserves P (try_except c h).
Proof.
  intros Hc Hh s. unfold exec, try_except.
  specialize (Hc s). unfold exec in Hc.
  destruct (c s) as [[a|e] s1]; cbn in *; [done|].
  etrans; [exact Hc|]. apply Hh.
Qed.

Lemma preserves_zoom_users {A} (c : St (list dict) A) :
  (forall s l, P s (set_violation_users l s)) ->
  preserves P (zoom violation_users set_violation_users c).
Proof.
  intros H s. unfold exec, zoom.
  destruct (c (violation_users s)) as [r l]. apply H.
Qed.

Lemma preserves_users_item (i : nat) (k : string) : preserves P (users_item i k).
Proof.
  intros s. unfold exec, users_item.
  destruct (violation_users s !! i) as [u|]; [|reflexivity].
  destruct (u !! k); reflexivity.
Qed.
End Preserves.

#[local] Instance ledger_frame_preorder : PreOrder ledger_frame.
Proof.
  split.
  - intros s. unfold ledger_frame. done.
  - intros s1 s2 s3 (?&?&?&?&?) (?&?&?&?&?). unfold ledger_frame.
    split_and!; congruence.
Qed.

#[local] Instance removals_grow_preorder : PreOrder removals_grow.
Proof.
  split.
  - intros s. split; [done|]. exists []. by rewrite app_nil_r.
  - intros s1 s2 s3 [Hw1 [n1 H1]] [Hw2 [n2 H2]]. split; [congruence|].
    exists (n1 ++ n2). by rewrite H2, H1, app_assoc.
Qed.

#[local] Instance check_queue_grows_preorder : PreOrder check_queue_grows.
Proof.
  split.
  - intros s. exists []. by rewrite app_nil_r.
  - intros s1 s2 s3 [n1 H1] [n2 H2].
    exists (n1 ++ n2). by rewrite H2, H1, app_assoc.
Qed.

#[local] Instance log_grows_preorder : PreOrder log_grows.
Proof.
  split.
  - intros s. exists []. by rewrite app_nil_r.
  - intros s1 s2 s3 [n1 H1] [n2 H2].
    exists (n1 ++ n2). by rewrite H2, H1, app_assoc.
Qed.

#[local] Instance never_blocks_preorder (uid : Z) : PreOrder (never_blocks uid).
Proof.
  split.
  - intros s. exists []. split; [by rewrite app_nil_r|]. apply not_elem_of_nil.
  - intros s1 s2 s3 (n1 & H1 & Hn1) (n2 & H2 & Hn2).
    exists (n1 ++ n2). split; [by rewrite H2, H1, app_assoc|].
    rewrite elem_of_app. tauto.
Qed.

(** The composition lemmas, applied at the relation of the goal. *)
Ltac p_ret := match goal with |- preserves ?P _ => apply (preserves_ret P) end.
Ltac p_raise := match goal with |- preserves ?P _ => apply (preserves_raise P) end.
Ltac p_lift := match goal with |- preserves ?P _ => apply (preserves_lift P) end.
Ltac p_get := match goal with |- preserves ?P _ => apply (preserves_get P) end.
Ltac p_users_item :=
  match goal with |- preserves ?P _ => apply (preserves_users_item P) end.
Ltac p_bind := match goal with |- preserves ?P _ => apply (preserves_bind P) end.
Ltac p_try := match goal with |- preserves ?P _ => apply (preserves_try P) end.
Ltac p_modify := match goal with |- preserves ?P _ => apply (preserves_modify P) end.
Ltac p_zoom_users :=
  match goal with |- preserves ?P _ => apply (preserves_zoom_users P) end.

(** Walk through a method body; [leaf] proves the relation for the single
    state updates. *)
Ltac pres_with leaf :=
  repeat first
    [ p_ret | p_raise | p_lift | p_get | p_users_item
    | p_bind; [|intros ?]
    | p_try; [|intros ?]
    | p_modify; intros ?; leaf
    | p_zoom_users; intros ? ?; leaf
    | progress unfold log_exception, log, put_all, issue, open_for_writing
    | match goal with
      | |- preserves _ (match ?x with _ => _ end) => destruct x
      end ].

(** ** Which methods touch what *)

Section Footprint.
Context (P : relation manager) `{!PreOrder P}.

Variable re_search : string -> string -> outcome bool.
Variables delete modify_relation : Z -> outcome unit.
Variable get_comments_pages : list (outcome (list reply)).
Variable get_sub_comments_pages : Z -> list (outcome (list reply)).
Variable json_dump : list dict -> string.
Variable open_w : outcome unit.
Variable write_text : string -> outcome unit * string.

(** What the relation has to allow, update by update. *)
Hypothesis P_users : forall s l, P s (set_violation_users l s).
Hypothesis P_block_queue : forall s q, P s (set_blacklist_queue q s).
Hypothesis P_log : forall s x, P s (set_logger (logger s ++ [x]) s).
Hypothesis P_put :
  forall s xs, P s (set_violation_check_queue (violation_check_queue s ++ xs) s).
Hypothesis P_file : forall s f, P s (set_violation_users_file f s).
Hypothesis P_take : forall s q, P s (set_violation_check_queue q s).
Hypothesis P_enqueue : forall s x, P s (set_comment_queue (comment_queue s ++ [x]) s).
Hypothesis P_pop : forall s q, P s (set_comment_queue q s).
Hypothesis P_delete : forall s r, P s (set_calls (calls s ++ [CallDelete r]) s).
Hypothesis P_block :
  forall s u, u <> 621240130 -> P s (set_calls (calls s ++ [CallBlock u]) s).

Lemma fp_log lv msg : preserves P (log lv msg).
Proof. pres_with ltac:(apply P_log). Qed.

Lemma fp_log_exception msg : preserves P (log_exception msg).
Proof. unfold log_exception. p_bind; [|intros _]; apply fp_log. Qed.

(** [_update_violation_user] writes the ledger, the block queue and the
    log only. *)
Lemma fp_update username uid rpid content :
  preserves P (_update_violation_user username uid rpid content).
Proof.
  unfold _update_violation_user.
  p_try; [|intros e; apply fp_log_exception].
  p_bind; [p_zoom_users; intros; apply P_users|intros found].
  p_bind.
  { destruct found; [p_ret|]. p_modify. intros s. apply P_users. }
  intros _. p_bind; [p_get|intros s0].
  p_bind; [p_users_item|intros c].
  destruct (eq_int c 3); [|p_ret].
  p_modify. intros s. apply P_block_queue.
Qed.

Lemma fp_check content : preserves P (_check_violation re_search content).
Proof.
  unfold _check_violation. p_try; [pres_with idtac|intros e].
  p_bind; [apply fp_log_exception|intros _; p_ret].
Qed.

Lemma fp_sub_loop rpid pages all : preserves P (sub_loop rpid pages all).
Proof.
  revert all. induction pages as [|p pages IH]; intros all; cbn [sub_loop].
  - pres_with ltac:(apply P_put).
  - p_bind; [p_lift|intros data].
    destruct data; [p_ret|].
    p_bind; [pres_with ltac:(apply P_put)|intros _].
    destruct (_ =? _)%nat; [apply IH|p_ret].
Qed.

Lemma fp_get_single_sub_comment rpid :
  preserves P (_get_single_sub_comment get_sub_comments_pages rpid).
Proof.
  unfold _get_single_sub_comment.
  p_try; [|intros e; p_bind; [apply fp_log_exception|intros _; p_raise]].
  p_bind; [apply fp_sub_loop|intros ?].
  p_bind; [apply fp_log|intros _; p_ret].
Qed.

Lemma fp_comments_loop max_pages pages page comments :
  preserves P (comments_loop max_pages pages page comments).
Proof.
  revert page comments. induction pages as [|p pages IH]; intros page comments;
    cbn [comments_loop].
  - pres_with ltac:(first [apply P_log | apply P_put]).
  - p_bind; [apply fp_log|intros _].
    p_bind; [p_lift|intros c].
    destruct c; [pres_with ltac:(apply P_log)|].
    p_bind; [pres_with ltac:(apply P_put)|intros _].
    destruct (_ >? _); [p_ret|apply IH].
Qed.

Lemma fp_get_comments max_pages :
  preserves P (get_comments get_comments_pages max_pages).
Proof.
  unfold get_comments. p_try; [apply fp_comments_loop|intros e].
  p_bind; [apply fp_log_exception|intros _; p_raise].
Qed.

Lemma fp_gather comments sub_comments :
  preserves P (gather_sub_comments get_sub_comments_pages comments sub_comments).
Proof.
  revert sub_comments. induction comments as [|cmt comments IH]; intros sub_comments;
    cbn [gather_sub_comments]; [p_ret|].
  destruct (replies cmt); [|apply IH].
  p_bind; [|intros ?; apply IH].
  p_try; [apply fp_get_single_sub_comment|intros e].
  p_bind; [apply fp_log_exception|intros _; p_ret].
Qed.

Lemma fp_harvest max_pages :
  preserves P (harvest get_comments_pages get_sub_comments_pages max_pages).
Proof.
  unfold harvest.
  p_bind; [apply fp_get_comments|intros comments].
  p_bind; [apply fp_log|intros _].
  p_bind; [apply fp_gather|intros ?].
  apply fp_log.
Qed.

Lemma fp_check_item t content username uid rpid :
  preserves P (check_item re_search t content username uid rpid).
Proof.
  unfold check_item. p_bind; [apply fp_check|intros []]; [|p_ret].
  p_bind; [apply fp_log|intros _].
  p_bind; [apply fp_update|intros _].
  p_modify. intros s. apply P_enqueue.
Qed.

Lemma fp_process_item it : preserves P (process_item re_search it).
Proof. destruct it; cbn [process_item]; [apply fp_check_item..|p_ret]. Qed.

Lemma fp_process_items q : preserves P (process_items re_search q).
Proof.
  induction q as [|it q IH]; cbn [process_items]; [p_ret|].
  p_bind; [p_modify; intros s; apply P_take|intros _].
  p_bind; [apply fp_process_item|intros _; exact IH].
Qed.

Lemma fp_process_violations : preserves P (_process_violations re_search).
Proof.
  unfold _process_violations. p_try; [|intros e; apply fp_log_exception].
  p_bind; [p_get|intros s; apply fp_process_items].
Qed.

Lemma fp_dump l : preserves P (dump json_dump write_text l).
Proof.
  intros s. unfold exec, dump. destruct (write_text (json_dump l)) as [r w].
  apply P_file.
Qed.

Lemma fp_save : preserves P (_save_violation_users json_dump open_w write_text).
Proof.
  unfold _save_violation_users, open_for_writing.
  p_try; [|intros e; apply fp_log_exception].
  p_bind; [pres_with ltac:(apply P_file)|intros _].
  p_bind; [|intros _; apply fp_log].
  p_bind; [p_get|intros s; apply fp_dump].
Qed.

Lemma fp_delete_comment rpid : preserves P (delete_comment delete rpid).
Proof.
  unfold delete_comment. p_bind; [apply fp_log|intros _].
  p_try; [|intros e; apply fp_log_exception].
  p_bind; [|intros _; apply fp_log].
  unfold issue. p_bind; [|intros _; p_lift].
  p_modify. intros s. apply P_delete.
Qed.

Lemma fp_delete_all q : preserves P (delete_all delete q).
Proof.
  induction q as [|r q IH]; cbn [delete_all]; [p_ret|].
  p_bind; [p_modify; intros s; apply P_pop|intros _].
  p_bind; [apply fp_delete_comment|intros _; exact IH].
Qed.

(** The guard [uid not in [621240130]] keeps the block call from being
    issued for the allow-listed user. *)
Lemma fp_blacklist_user uid : preserves P (blacklist_user modify_relation uid).
Proof.
  unfold blacklist_user. p_bind; [apply fp_log|intros _].
  p_try; [|intros e; apply fp_log_exception].
  destruct (bool_decide (uid ∈ [621240130])) eqn:Hin; cbn [negb]; [p_ret|].
  apply bool_decide_eq_false in Hin. rewrite list_elem_of_singleton in Hin.
  p_bind.
  { unfold issue. p_bind; [|intros _; p_lift].
    p_modify. intros s. by apply P_block. }
  intros _. p_bind; [apply fp_log|intros _].
  p_zoom_users. intros s l. apply P_users.
Qed.

Lemma fp_blacklist_all q : preserves P (blacklist_all modify_relation q).
Proof.
  induction q as [|u q IH]; cbn [blacklist_all]; [p_ret|].
  p_bind; [p_modify; intros s; apply P_block_queue|intros _].
  p_bind; [apply fp_blacklist_user|intros _; exact IH].
Qed.

End Footprint.

(** [_update_violation_user] never raises: its handler only logs. *)
Lemma update_returns (username : string) (uid rpid : Z) (content : string) (s : manager) :
  (_update_violation_user username uid rpid content s).1 = Ret tt.
Proof.
  unfold _update_violation_user, try_except.
  match goal with |- context [match ?b s with _ => _ end] => destruct (b s) as [[[]|e] s1] end;
    reflexivity.
Qed.


Lemma update_ledger_frame (username : string) (uid rpid : Z) (content : string) :
  preserves ledger_frame (_update_violation_user username uid rpid content).
Proof. apply fp_update; [apply _|..]; intros [] ?; done. Qed.

(** ** Methods that return normally *)

Lemma returns_ret {A} (a : A) : returns (mret a).
Proof. intros s. by exists a. Qed.

Lemma returns_modify (f : manager -> manager) : returns (modify f).
Proof. intros s. by exists tt. Qed.

Lemma returns_bind {A B} (c : M A) (k : A -> M B) :
  returns c -> (forall a, returns (k a)) -> returns (c ≫= k).
Proof.
  intros Hc Hk s. destruct (Hc s) as [a Ha]. cbv [mbind St_bind].
  destruct (c s) as [r s1]. cbn in Ha. subst r. apply Hk.
Qed.

(** A [try] whose handler returns normally always returns normally. *)
Lemma returns_try {A} (c : M A) (h : exn -> M A) :
  (forall e, returns (h e)) -> returns (try_except c h).
Proof.
  intros Hh s. unfold try_except. destruct (c s) as [[a|e] s1]; [by exists a|apply Hh].
Qed.

Lemma returns_log lv msg : returns (log lv msg).
Proof. apply returns_modify. Qed.

Lemma returns_log_exception msg : returns (log_exception msg).
Proof. apply returns_bind; [|intros _]; apply returns_log. Qed.

Lemma returns_exec {A} (c : M A) (s : manager) :
  returns c -> exists a, c s = (Ret a, exec c s).
Proof.
  intros H. destruct (H s) as [a Ha]. exists a. unfold exec.
  destruct (c s) as [r s1]. cbn in *. by subst.
Qed.

(** Running past a step that returns. *)
Lemma exec_bind {A B} (c : M A) (k : A -> M B) (s s1 : manager) (a : A) :
  c s = (Ret a, s1) -> (c ≫= k) s = k a s1.
Proof. intros H. cbv [mbind St_bind]. by rewrite H. Qed.

Section Returns.
Variable re_search : string -> string -> outcome bool.
Variables delete modify_relation : Z -> outcome unit.
Variable json_dump : list dict -> string.
Variable open_w : outcome unit.
Variable write_text : string -> outcome unit * string.

Lemma returns_update username uid rpid content :
  returns (_update_violation_user username uid rpid content).
Proof. apply returns_try. intros e. apply returns_log_exception. Qed.

Lemma returns_check content : returns (_check_violation re_search content).
Proof.
  apply returns_try. intros e.
  apply returns_bind; [apply returns_log_exception|intros _; apply returns_ret].
Qed.

Lemma returns_process_item it : returns (process_item re_search it).
Proof.
  assert (forall t content username uid rpid,
            returns (check_item re_search t content username uid rpid)) as H.
  { intros. unfold check_item.
    apply returns_bind; [apply returns_check|intros []]; [|apply returns_ret].
    apply returns_bind; [apply returns_log|intros _].
    apply returns_bind; [apply returns_update|intros _]. apply returns_modify. }
  destruct it; cbn [process_item]; [apply H..|apply returns_ret].
Qed.

Lemma returns_process_items q : returns (process_items re_search q).
Proof.
  induction q as [|it q IH]; cbn [process_items]; [apply returns_ret|].
  apply returns_bind; [apply returns_modify|intros _].
  apply returns_bind; [apply returns_process_item|intros _; exact IH].
Qed.

Lemma returns_process_violations : returns (_process_violations re_search).
Proof. apply returns_try. intros e. apply returns_log_exception. Qed.

Lemma returns_save : returns (_save_violation_users json_dump open_w write_text).
Proof. apply returns_try. intros e. apply returns_log_exception. Qed.

Lemma returns_delete_comment rpid : returns (delete_comment delete rpid).
Proof.
  apply returns_bind; [apply returns_log|intros _].
  apply returns_try. intros e. apply returns_log_exception.
Qed.

Lemma returns_delete_all q : returns (delete_all delete q).
Proof.
  induction q as [|r q IH]; cbn [delete_all]; [apply returns_ret|].
  apply returns_bind; [apply returns_modify|intros _].
  apply returns_bind; [apply returns_delete_comment|intros _; exact IH].
Qed.
End Returns.

(** ** Pattern matcher *)

Section Matcher.
Variable re_search : string -> string -> outcome bool.

Lemma first_hit_here (content word : string) (rest : list string) (r : outcome bool) :
  re_search word content = r -> first_hit re_search content (word :: rest) r 0.
Proof. intros H. exists word. split_and!; [done..|]. intros j w Hj. lia. Qed.

Lemma first_hit_later (content word : string) (rest : list string)
    (r : outcome bool) (i : nat) :
  re_search word content = Ret false ->
  first_hit re_search content rest r i ->
  first_hit re_search content (word :: rest) r (S i).
Proof.
  intros Hw (w & Hi & Hr & Hbefore). exists w. split_and!; [done..|].
  intros [|j] w' Hj Hl; cbn in Hl; [by simplify_eq|].
  apply (Hbefore j); [lia|done].
Qed.

Lemma first_hit_inv (content word : string) (rest : list string)
    (r : outcome bool) (i : nat) :
  first_hit re_search content (word :: rest) r i ->
  (i = 0%nat /\ re_search word content = r) \/
  (exists i', i = S i' /\ re_search word content = Ret false /\
              first_hit re_search content rest r i').
Proof.
  intros (w & Hi & Hr & Hbefore). destruct i as [|i'].
  - left. cbn in Hi. by simplify_eq.
  - right. exists i'. split_and!; [done|apply (Hbefore 0%nat); [lia|done]|].
    exists w. split_and!; [done..|].
    intros j w' Hj Hl. apply (Hbefore (S j)); [lia|done].
Qed.

(** The loop returns [True] exactly at a first hit that is a match. *)
Lemma search_words_true (content : string) (words : list string) :
  search_words re_search content words = Ret true <->
  exists i, first_hit re_search content words (Ret true) i.
Proof.
  induction words as [|word rest IH]; cbn [search_words].
  - split; [discriminate|]. intros [i (w & Hi & _)]. by rewrite lookup_nil in Hi.
  - destruct (re_search word content) as [[]|e] eqn:Hw.
    + split; [|done]. intros _. exists 0%nat. by apply first_hit_here.
    + rewrite IH. split.
      * intros [i Hi]. exists (S i). by apply first_hit_later.
      * intros [i [[_ ?]|(i' & _ & _ & Hi')]%first_hit_inv]; [congruence|eauto].
    + split; [discriminate|].
      intros [i [[_ ?]|(i' & _ & ? & _)]%first_hit_inv]; congruence.
Qed.

(** The loop raises exactly at a first hit that is an error. *)
Lemma search_words_raise (content : string) (words : list string) (e : exn) :
  search_words re_search content words = Raise e <->
  exists i, first_hit re_search content words (Raise e) i.
Proof.
  induction words as [|word rest IH]; cbn [search_words].
  - split; [discriminate|]. intros [i (w & Hi & _)]. by rewrite lookup_nil in Hi.
  - destruct (re_search word content) as [[]|e'] eqn:Hw.
    + split; [discriminate|].
      intros [i [[_ ?]|(i' & _ & ? & _)]%first_hit_inv]; congruence.
    + rewrite IH. split.
      * intros [i Hi]. exists (S i). by apply first_hit_later.
      * intros [i [[_ ?]|(i' & _ & _ & Hi')]%first_hit_inv]; [congruence|eauto].
    + split.
      * intros [= ->]. exists 0%nat. by apply first_hit_here.
      * intros [i [[_ ?]|(i' & _ & ? & _)]%first_hit_inv]; congruence.
Qed.

(** The loop runs to its end exactly when no search matches or raises. *)
Lemma search_words_false (content : string) (words : list string) :
  search_words re_search content words = Ret false <->
  forall word, word ∈ words -> re_search word content = Ret false.
Proof.
  induction words as [|word rest IH]; cbn [search_words].
  - split; [|done]. intros _ w Hw. by apply elem_of_nil in Hw.
  - destruct (re_search word content) as [[]|e] eqn:Hw.
    + split; [discriminate|]. intros H.
      specialize (H word (list_elem_of_here _ _)). congruence.
    + rewrite IH. split.
      * intros H w [->|Hin]%elem_of_cons; auto.
      * intros H w Hin. apply H. by apply list_elem_of_further.
    + split; [discriminate|]. intros H.
      specialize (H word (list_elem_of_here _ _)). congruence.
Qed.

(** [_check_violation] in terms of the loop: an exception becomes
    [False] and two log entries. *)
Lemma check_violation_run (content : string) (m : manager) :
  _check_violation re_search content m =
  match search_words re_search content (violation_words m) with
  | Ret b => (Ret b, m)
  | Raise e =>
      (Ret false,
       set_logger ((logger m ++ [(ERROR, MsgCheckFailed e)]) ++ [(DEBUG, Traceback)]) m)
  end.
Proof.
  destruct m as [words users cq bq vq file lg cs].
  unfold _check_violation, log_exception, log. run_monad.
  destruct (search_words re_search content words) as [b|e]; reflexivity.
Qed.
End Matcher.

(** ** Harvest of the nested replies *)

Ltac grows_leaf :=
  intros; cbn;
  first [ by eexists
        | by (exists []; rewrite app_nil_r)
        | split; [done|]; first [by eexists | by (exists []; rewrite app_nil_r)] ].

Section Harvest.
Variable get_sub_comments_pages : Z -> list (outcome (list reply)).

(** One sequence: everything fetched before the end or the failure has
    been put on the check queue, in order; on a failure the list collected
    so far is lost with the exception. *)
Lemma sub_loop_run (rpid : Z) (pages : list (outcome (list reply)))
    (all : list sub_reply) (s : manager) :
  (sub_loop rpid pages all s).1 =
    match (fetched pages).2 with
    | Some e => Raise e
    | None => Ret (all ++ map (mk_sub rpid) (fetched pages).1)
    end /\
  violation_check_queue (exec (sub_loop rpid pages all) s) =
    violation_check_queue s ++ sub_items rpid (fetched pages).1 /\
  logger (exec (sub_loop rpid pages all) s) = logger s.
Proof.
  revert all s. induction pages as [|p pages IH]; intros all s.
  - cbn. rewrite !app_nil_r. done.
  - cbn [sub_loop fetched next_page]. unfold exec in *. cbv [mbind St_bind lift_outcome].
    destruct p as [[|d data]|e].
    + cbn. rewrite !app_nil_r. done.
    + unfold put_all. cbv [modify].
      destruct (length (d :: data) =? 20)%nat.
      * destruct (IH (all ++ map (mk_sub rpid) (d :: data))
                    (set_violation_check_queue
                       (violation_check_queue s ++
                        map (fun r => ItemSub (mk_sub rpid r)) (d :: data)) s))
          as (Hr & Hq & Hl).
        destruct (fetched pages) as [more err]. cbn [fst snd] in *.
        rewrite Hr, Hq, Hl. destruct s; cbn. unfold sub_items.
        rewrite !map_app, <- !app_assoc. by destruct err.
      * cbn. destruct s; cbn. done.
    + cbn. rewrite app_nil_r. done.
Qed.

Lemma get_single_sub_comment_run (rpid : Z) (s : manager) :
  let s' := exec (_get_single_sub_comment get_sub_comments_pages rpid) s in
  violation_check_queue s' =
    violation_check_queue s ++ sub_items rpid (fetched (get_sub_comments_pages rpid)).1 /\
  match (fetched (get_sub_comments_pages rpid)).2 with
  | Some e =>
      (_get_single_sub_comment get_sub_comments_pages rpid s).1 = Raise e /\
      logger s' = logger s ++ [(ERROR, MsgSubFailed rpid e); (DEBUG, Traceback)]
  | None =>
      (_get_single_sub_comment get_sub_comments_pages rpid s).1 =
        Ret (map (mk_sub rpid) (fetched (get_sub_comments_pages rpid)).1)
  end.
Proof.
  destruct (sub_loop_run rpid (get_sub_comments_pages rpid) [] s) as (Hr & Hq & Hl).
  unfold exec, _get_single_sub_comment, log_exception, log in *. run_monad.
  destruct (sub_loop rpid (get_sub_comments_pages rpid) [] s) as [r s1].
  cbn [fst snd] in *. subst r.
  destruct (fetched (get_sub_comments_pages rpid)).2 as [e|]; cbn.
  - split; [done|]. split; [done|]. destruct s1; cbn in *. by rewrite Hl, <- app_assoc.
  - split; [|done]. destruct s1; cbn in *. done.
Qed.

(** The sequences of a pass, one per comment with replies: the loop never
    raises; the replies a sequence fetched are on the check queue whether
    or not that sequence or any other failed; a failure is logged. *)
Lemma gather_run (comments : list reply) (acc : list sub_reply) (s : manager) :
  let s' := exec (gather_sub_comments get_sub_comments_pages comments acc) s in
  (exists subs, (gather_sub_comments get_sub_comments_pages comments acc s).1 = Ret subs) /\
  (forall cmt r, cmt ∈ comments -> replies cmt = true ->
     r ∈ (fetched (get_sub_comments_pages (rpid cmt))).1 ->
     ItemSub (mk_sub (rpid cmt) r) ∈ violation_check_queue s') /\
  (forall cmt e, cmt ∈ comments -> replies cmt = true ->
     (fetched (get_sub_comments_pages (rpid cmt))).2 = Some e ->
     (ERROR, MsgSubFailed (rpid cmt) e) ∈ logger s').
Proof.
  revert acc s. induction comments as [|cmt comments IH]; intros acc s; cbn zeta.
  - split; [by exists acc|]. split; intros ? ? H; by apply elem_of_nil in H.
  - cbn [gather_sub_comments]. destruct (replies cmt) eqn:Hrep.
    + set (one := try_except
                    (_get_single_sub_comment get_sub_comments_pages (rpid cmt))
                    (fun e => log_exception (MsgSubFailed (rpid cmt) e) ;; mret [])).
      assert (exists sub_list s1, one s = (Ret sub_list, s1) /\
                violation_check_queue s1 = violation_check_queue s ++
                  sub_items (rpid cmt) (fetched (get_sub_comments_pages (rpid cmt))).1 /\
                forall e, (fetched (get_sub_comments_pages (rpid cmt))).2 = Some e ->
                          (ERROR, MsgSubFailed (rpid cmt) e) ∈ logger s1)
        as (sub_list & s1 & Hone & Hq1 & Hl1).
      { pose proof (get_single_sub_comment_run (rpid cmt) s) as [Hq Hres].
        unfold one, exec, try_except, log_exception, log in *.
        destruct (_get_single_sub_comment get_sub_comments_pages (rpid cmt) s) as [r s0].
        cbn [fst snd] in *.
        destruct (fetched (get_sub_comments_pages (rpid cmt))).2 as [e|].
        - destruct Hres as [-> Hlog]. run_monad. eexists _, _. split; [done|].
          split; [by destruct s0|]. intros e' [= <-]. destruct s0; cbn in *.
          rewrite Hlog, !elem_of_app, !elem_of_cons. tauto.
        - subst r. eexists _, _. split; [done|]. split; [done|]. discriminate. }
      rewrite (exec_bind one _ s s1 sub_list Hone). unfold exec.
      rewrite (exec_bind one _ s s1 sub_list Hone).
      destruct (IH (acc ++ sub_list) s1) as (Hret & Hitems & Hlogs).
      pose proof (fp_gather check_queue_grows get_sub_comments_pages
                    ltac:(grows_leaf) ltac:(grows_leaf) comments (acc ++ sub_list) s1)
        as [newq Hnewq].
      pose proof (fp_gather log_grows get_sub_comments_pages
                    ltac:(grows_leaf) ltac:(grows_leaf) comments (acc ++ sub_list) s1)
        as [newl Hnewl].
      unfold exec in *. split; [done|]. split.
      * intros c r [->|Hin]%elem_of_cons Hc Hr; [|by apply Hitems].
        rewrite Hnewq, Hq1. apply elem_of_app. left. apply elem_of_app. right.
        unfold sub_items. apply list_elem_of_In.
        apply (in_map (fun r => ItemSub (mk_sub (rpid cmt) r))).
        by apply list_elem_of_In.
      * intros c e [->|Hin]%elem_of_cons Hc He; [|by eapply Hlogs].
        rewrite Hnewl. apply elem_of_app. left. by apply Hl1.
    + destruct (IH acc s) as (Hret & Hitems & Hlogs). split; [done|]. split.
      * intros c r [->|Hin]%elem_of_cons Hc Hr; [congruence|by apply Hitems].
      * intros c e [->|Hin]%elem_of_cons Hc He; [congruence|by eapply Hlogs].
Qed.
End Harvest.

(** ** Detection and removal of what was harvested *)

Ltac calls_leaf :=
  intros;
  first [ by (exists []; split; [by rewrite app_nil_r | apply not_elem_of_nil])
        | (eexists [_]; split; [done|];
           apply not_elem_of_cons; split;
           [first [discriminate | congruence] | apply not_elem_of_nil]) ].

Section Detection.
Variable re_search : string -> string -> outcome bool.
Variables delete modify_relation : Z -> outcome unit.
Variable get_comments_pages : list (outcome (list reply)).
Variable get_sub_comments_pages : Z -> list (outcome (list reply)).
Variable json_dump : list dict -> string.
Variable open_w : outcome unit.
Variable write_text : string -> outcome unit * string.

(** A matching entry: the detector returns and the reply id is at the end
    of the removal queue, whatever the ledger update did. *)
Lemma process_item_enqueues (it : item) (content : string) (id : Z) (m : manager) :
  item_content it = Some content ->
  item_rpid it = Some id ->
  search_words re_search content (violation_words m) = Ret true ->
  (process_item re_search it m).1 = Ret tt /\
  comment_queue (exec (process_item re_search it) m) = comment_queue m ++ [id].
Proof.
  intros Hc Hid Hmatch.
  assert (_check_violation re_search content m = (Ret true, m)) as Hrun
    by (by rewrite check_violation_run, Hmatch).
  assert (forall t username uid,
    (check_item re_search t content username uid id m).1 = Ret tt /\
    comment_queue (exec (check_item re_search t content username uid id) m)
      = comment_queue m ++ [id]) as Hitem.
  { intros t username uid. unfold exec, check_item. cbv [mbind St_bind].
    rewrite Hrun. unfold log. cbv [modify]. cbn [fst snd].
    pose proof (update_returns username uid id content
                  (set_logger (logger m ++ [(INFO, MsgViolation t username uid content)]) m))
      as Hret.
    pose proof (update_ledger_frame username uid id content
                  (set_logger (logger m ++ [(INFO, MsgViolation t username uid content)]) m))
      as (_ & Hcq & _).
    unfold exec in Hcq.
    destruct (_update_violation_user username uid id content _) as [r s2].
    cbn [fst snd] in *. subst r. cbn. split; [done|]. by rewrite Hcq. }
  destruct it as [data|data|]; cbn in Hc, Hid; simplify_eq; cbn [process_item]; apply Hitem.
Qed.

Lemma process_items_enqueue (q : list item) (s : manager)
    (it : item) (content : string) (id : Z) :
  it ∈ q ->
  item_content it = Some content ->
  item_rpid it = Some id ->
  search_words re_search content (violation_words s) = Ret true ->
  id ∈ comment_queue (exec (process_items re_search q) s).
Proof.
  revert s. induction q as [|it0 q IH]; intros s Hin Hc Hid Hmatch.
  - by apply elem_of_nil in Hin.
  - cbn [process_items]. unfold exec.
    rewrite (exec_bind (modify (set_violation_check_queue q)) _ s
               (set_violation_check_queue q s) tt eq_refl).
    set (sa := set_violation_check_queue q s).
    destruct (returns_exec (process_item re_search it0) sa
                (returns_process_item re_search it0)) as [[] Hrun].
    rewrite (exec_bind _ _ sa _ tt Hrun).
    set (sb := exec (process_item re_search it0) sa) in *.
    pose proof (fp_process_item removals_grow re_search
                  ltac:(grows_leaf) ltac:(grows_leaf) ltac:(grows_leaf)
                  ltac:(grows_leaf) it0 sa) as [Hwords _].
    fold sb in Hwords.
    apply elem_of_cons in Hin as [->|Hin].
    + pose proof (fp_process_items removals_grow re_search
                    ltac:(grows_leaf) ltac:(grows_leaf) ltac:(grows_leaf)
                    ltac:(grows_leaf) ltac:(grows_leaf) q sb) as [_ [new Hnew]].
      unfold exec in Hnew. rewrite Hnew.
      destruct (process_item_enqueues it0 content id sa Hc Hid) as [_ Hq];
        [by destruct s|].
      fold sb in Hq. rewrite Hq, !elem_of_app, list_elem_of_singleton. by left; right.
    + apply IH; try done. rewrite Hwords. by destruct s.
Qed.

Lemma delete_comment_calls (id : Z) (s : manager) :
  calls (exec (delete_comment delete id) s) = calls s ++ [CallDelete id].
Proof.
  destruct s. unfold exec, delete_comment, issue, log_exception, log. run_monad.
  destruct (delete id) as [[]|e]; reflexivity.
Qed.

Lemma delete_all_calls (q : list Z) (s : manager) (id : Z) :
  id ∈ q -> CallDelete id ∈ calls (exec (delete_all delete q) s).
Proof.
  revert s. induction q as [|r q IH]; intros s Hin.
  - by apply elem_of_nil in Hin.
  - cbn [delete_all]. unfold exec.
    rewrite (exec_bind (modify (set_comment_queue q)) _ s
               (set_comment_queue q s) tt eq_refl).
    set (sa := set_comment_queue q s).
    destruct (returns_exec (delete_comment delete r) sa
                (returns_delete_comment delete r)) as [[] Hrun].
    rewrite (exec_bind _ _ sa _ tt Hrun).
    apply elem_of_cons in Hin as [->|Hin]; [|by apply IH].
    pose proof (fp_delete_all (never_blocks 621240130) delete
                  ltac:(calls_leaf) ltac:(calls_leaf) ltac:(calls_leaf)
                  q (exec (delete_comment delete r) sa)) as (new & Hnew & _).
    pose proof (delete_comment_calls r sa) as Hc.
    unfold exec in *. rewrite Hnew, Hc, !elem_of_app, list_elem_of_singleton.
    by left; right.
Qed.

(** After the harvest: every matching entry of the check queue gets its
    removal call, and the log only grows. *)
Lemma after_harvest_run (s : manager) (it : item) (content : string) (id : Z) :
  let s' := exec (after_harvest re_search delete modify_relation
                    json_dump open_w write_text) s in
  log_grows s s' /\
  (it ∈ violation_check_queue s ->
   item_content it = Some content ->
   item_rpid it = Some id ->
   search_words re_search content (violation_words s) = Ret true ->
   CallDelete id ∈ calls s').
Proof.
  cbn zeta. split.
  - assert (preserves log_grows
              (after_harvest re_search delete modify_relation
                 json_dump open_w write_text)) as H; [|apply H].
    unfold after_harvest.
    p_bind; [apply (fp_process_violations log_grows); grows_leaf|intros _].
    p_bind; [apply (fp_save log_grows); grows_leaf|intros _].
    p_bind; [p_bind; [p_get|intros s0; apply (fp_delete_all log_grows); grows_leaf]
            |intros _].
    p_bind; [p_get|intros s0; apply (fp_blacklist_all log_grows); grows_leaf].
  - intros Hin Hc Hid Hmatch. unfold after_harvest, exec.
    (* detection *)
    destruct (returns_exec (_process_violations re_search) s
                (returns_process_violations re_search)) as [[] Hpv].
    rewrite (exec_bind _ _ s _ tt Hpv).
    set (s2 := exec (_process_violations re_search) s) in *.
    assert (id ∈ comment_queue s2) as Hq2.
    { subst s2. unfold exec, _process_violations, try_except. cbv [mbind St_bind get_state].
      destruct (returns_exec (process_items re_search (violation_check_queue s)) s
                  (returns_process_items re_search _)) as [[] Hpi].
      rewrite Hpi. cbn [snd]. by eapply process_items_enqueue. }
    (* persistence *)
    destruct (returns_exec (_save_violation_users json_dump open_w write_text) s2
                (returns_save json_dump open_w write_text)) as [[] Hsave].
    rewrite (exec_bind _ _ s2 _ tt Hsave).
    set (s3 := exec (_save_violation_users json_dump open_w write_text) s2) in *.
    assert (id ∈ comment_queue s3) as Hq3.
    { pose proof (fp_save removals_grow json_dump open_w write_text
                    ltac:(grows_leaf) ltac:(grows_leaf) s2) as [_ [new Hnew]].
      fold s3 in Hnew. rewrite Hnew, elem_of_app. by left. }
    (* removals *)
    set (del := get_state ≫= fun s0 : manager => delete_all delete (comment_queue s0)).
    assert (del s3 = (Ret tt, exec (delete_all delete (comment_queue s3)) s3)) as Hdel.
    { unfold del. cbv [mbind St_bind get_state].
      destruct (returns_exec (delete_all delete (comment_queue s3)) s3
                  (returns_delete_all delete _)) as [[] Hd]. by rewrite Hd. }
    rewrite (exec_bind del _ s3 _ tt Hdel).
    set (s4 := exec (delete_all delete (comment_queue s3)) s3) in *.
    assert (CallDelete id ∈ calls s4) as Hc4 by (by apply delete_all_calls).
    (* blocks *)
    cbv [mbind St_bind get_state].
    pose proof (fp_blacklist_all (never_blocks 621240130) modify_relation
                  ltac:(calls_leaf) ltac:(calls_leaf) ltac:(calls_leaf) ltac:(calls_leaf)
                  (blacklist_queue s4) s4) as (new & Hnew & _).
    unfold exec in Hnew. rewrite Hnew, elem_of_app. by left.
Qed.
End Detection.

(** ** One pass *)

Section Pass.
Variable re_search : string -> string -> outcome bool.
Variables delete modify_relation : Z -> outcome unit.
Variable get_comments_pages : list (outcome (list reply)).
Variable get_sub_comments_pages : Z -> list (outcome (list reply)).
Variable json_dump : list dict -> string.
Variable open_w : outcome unit.
Variable write_text : string -> outcome unit * string.

(** When the top-level pages are fetched without error the harvest
    returns; the replies fetched by every sequence are on the check queue
    and the failures are in the log; the pattern list is untouched. *)
Lemma harvest_run (max_pages : Z) (m : manager) (comments : list reply) :
  (get_comments get_comments_pages max_pages m).1 = Ret comments ->
  let s1 := exec (harvest get_comments_pages get_sub_comments_pages max_pages) m in
  harvest get_comments_pages get_sub_comments_pages max_pages m = (Ret tt, s1) /\
  violation_words s1 = violation_words m /\
  (forall cmt r, cmt ∈ comments -> replies cmt = true ->
     r ∈ (fetched (get_sub_comments_pages (rpid cmt))).1 ->
     ItemSub (mk_sub (rpid cmt) r) ∈ violation_check_queue s1) /\
  (forall cmt e, cmt ∈ comments -> replies cmt = true ->
     (fetched (get_sub_comments_pages (rpid cmt))).2 = Some e ->
     (ERROR, MsgSubFailed (rpid cmt) e) ∈ logger s1).
Proof.
  intros Hget s1.
  pose proof (fp_harvest removals_grow get_comments_pages get_sub_comments_pages
                ltac:(grows_leaf) ltac:(grows_leaf) max_pages m) as [Hwords _].
  fold s1 in Hwords. subst s1. unfold exec, harvest in *.
  cbv [mbind St_bind] in *. unfold log in *. cbv [modify] in *.
  destruct (get_comments get_comments_pages max_pages m) as [r s0]. cbn in Hget. subst r.
  set (sa := set_logger (logger s0 ++ [(INFO, MsgCommentsTotal (length comments))]) s0) in *.
  destruct (gather_run get_sub_comments_pages comments [] sa) as ([subs Hret] & Hitems & Hlogs).
  unfold exec in *.
  destruct (gather_sub_comments get_sub_comments_pages comments [] sa) as [rg sg].
  cbn [fst snd] in *. subst rg. cbn [fst snd] in *.
  split; [done|]. split; [done|]. split.
  - intros cmt r Hin Hrep Hr. specialize (Hitems cmt r Hin Hrep Hr). by destruct sg.
  - intros cmt e Hin Hrep He. specialize (Hlogs cmt e Hin Hrep He).
    destruct sg; cbn in *. apply elem_of_app. by left.
Qed.

(** A pass is its harvest followed by the rest, inside one [try]. *)
Lemma pass_split (max_pages : Z) :
  process_all_comments re_search delete modify_relation
    get_comments_pages get_sub_comments_pages json_dump open_w write_text max_pages =
  try_except
    (harvest get_comments_pages get_sub_comments_pages max_pages ;;
     after_harvest re_search delete modify_relation json_dump open_w write_text)
    (fun e => log_exception (MsgPassFailed e)).
Proof. reflexivity. Qed.

End Pass.
(** * The properties of the specification *)

(** ** Escalation *)





(** ** Recording a violation *)

(** The ledger after [_update_violation_user], on any ledger: what the
    lookup loop left, plus the new record when the loop found nothing. *)
Lemma update_users (username : string) (uid rpid : Z) (content : string) (m : manager) :
  violation_users (exec (_update_violation_user username uid rpid content) m) =
  match find_user uid rpid content 0 (violation_users m) with
  | (Ret None, l') => l' ++ [new_record username uid rpid content]
  | (_, l') => l'
  end.
Proof.
  destruct m as [words users cq bq vq file lg cs].
  unfold _update_violation_user, users_item, log_exception, log. run_monad.
  destruct (find_user uid rpid content 0 users) as [[[j|]|e] l']; cbn;
    repeat case_match; simplify_eq; reflexivity.
Qed.

(** C2, as the code has it.  For every call and on every ledger,
    [_update_violation_user username uid rpid content] changes at most one
    record: it leaves the ledger as it was, or, when the user has no
    record, appends a new record with count 1, the single id and body and
    the given username, or replaces the user's record by one that differs
    from it in the count and the two lists only; every other key of that
    record, [username] included, and every other record are as they were.
    On a ledger whose records have the shape the program writes the call
    does all of it: the new record is appended, or the count is incremented
    by 1 and the id and the body are appended to the two lists. *)
Theorem record_violation_creates_or_increments
    (username : string) (uid rpid : Z) (content : string) (m : manager) :
  let l := violation_users m in
  let l' := violation_users (exec (_update_violation_user username uid rpid content) m) in
  (l' = l \/
   (user_record uid l = None /\ l' = l ++ [new_record username uid rpid content]) \/
   (exists j u r, user_record uid l = Some (j, u) /\ l' = <[j := r]> l /\
      forall k, k <> "violation_count" -> k <> "comment_rpids" ->
                k <> "comment_contents" -> r !! k = u !! k)) /\
  (wf_ledger l = true ->
   match user_record uid l with
   | None =>
       exists r, l' = l ++ [r] /\
         r !! "username" = Some (VStr username) /\
         r !! "uid" = Some (VInt uid) /\
         r !! "violation_count" = Some (VInt 1) /\
         r !! "comment_rpids" = Some (VList [VInt rpid]) /\
         r !! "comment_contents" = Some (VList [VStr content])
   | Some (j, u) =>
       exists r c ids bodies, l' = <[j := r]> l /\
         u !! "violation_count" = Some (VInt c) /\
         u !! "comment_rpids" = Some (VList ids) /\
         u !! "comment_contents" = Some (VList bodies) /\
         r !! "violation_count" = Some (VInt (c + 1)) /\
         r !! "comment_rpids" = Some (VList (ids ++ [VInt rpid])) /\
         r !! "comment_contents" = Some (VList (bodies ++ [VStr content])) /\
         r !! "username" = u !! "username" /\
         r !! "uid" = u !! "uid"
   end).
Proof.
  cbn zeta. split.
  - rewrite update_users.
    destruct (find_user_shape uid rpid content 0 (violation_users m)) as [Hshape Hnone].
    destruct (find_user uid rpid content 0 (violation_users m)) as [[[k|]|e] l1];
      cbn [fst snd] in *.
    + destruct Hshape as [->|(j & u & Hrec & ->)]; [by left|].
      right; right. exists j, u, (bumped rpid content u).
      split_and!; [done..|]. intros key ? ? ?. by apply bump_record_other.
    + destruct (Hnone eq_refl) as [-> Hno]. right; left. done.
    + destruct Hshape as [->|(j & u & Hrec & ->)]; [by left|].
      right; right. exists j, u, (bumped rpid content u).
      split_and!; [done..|]. intros k ? ? ?. by apply bump_record_other.
  - intros Hwf.
    destruct (update_wf username uid rpid content m Hwf) as (m1 & Hrun & Husers & _).
    unfold exec. rewrite Hrun. cbn [snd]. rewrite Husers.
    unfold recorded.
    destruct (user_record uid (violation_users m)) as [[j u]|] eqn:Hf.
    + destruct (user_record_lookup _ _ _ _ Hf) as [Hj _].
      pose proof (wf_ledger_lookup _ _ _ Hwf Hj) as Hwu.
      destruct (wf_record_fields u Hwu) as (k & c & ids & bodies & _ & Hc & Hi & Hb).
      exists (bumped rpid content u), c, ids, bodies.
      split_and!; try done.
      * rewrite (bumped_wf rpid content u c ids bodies) by assumption.
        by rewrite lookup_insert_ne, lookup_insert_ne, lookup_insert_eq.
      * rewrite (bumped_wf rpid content u c ids bodies) by assumption.
        by rewrite lookup_insert_ne, lookup_insert_eq.
      * rewrite (bumped_wf rpid content u c ids bodies) by assumption.
        by rewrite lookup_insert_eq.
      * by apply bump_record_other.
      * by apply bump_record_other.
    + exists (new_record username uid rpid content).
      split; [done|]. apply new_record_fields.
Qed.

Lemma record_violation_creates_or_increments_witness :
  wf_ledger (violation_users two_strikes) = true /\
  let l := violation_users two_strikes in
  let l' := violation_users (exec (_update_violation_user "robert" 7 103 "spam c") two_strikes) in
  match user_record 7 l with
  | None =>
      exists r, l' = l ++ [r] /\
        r !! "username" = Some (VStr "robert") /\
        r !! "uid" = Some (VInt 7) /\
        r !! "violation_count" = Some (VInt 1) /\
        r !! "comment_rpids" = Some (VList [VInt 103]) /\
        r !! "comment_contents" = Some (VList [VStr "spam c"])
  | Some (j, u) =>
      exists r c ids bodies, l' = <[j := r]> l /\
        u !! "violation_count" = Some (VInt c) /\
        u !! "comment_rpids" = Some (VList ids) /\
        u !! "comment_contents" = Some (VList bodies) /\
        r !! "violation_count" = Some (VInt (c + 1)) /\
        r !! "comment_rpids" = Some (VList (ids ++ [VInt 103])) /\
        r !! "comment_contents" = Some (VList (bodies ++ [VStr "spam c"])) /\
        r !! "username" = u !! "username" /\
        r !! "uid" = u !! "uid"
  end.
Proof.
  split; [vm_compute; reflexivity|].
  apply (record_violation_creates_or_increments "robert" 7 103 "spam c" two_strikes).
  vm_compute; reflexivity.
Defined.

(** C2, as stated, fails: a second violation under another name leaves the
    name first recorded. *)
Lemma username_not_overwritten :
  let l' := violation_users (exec (_update_violation_user "robert" 7 103 "spam c") two_strikes) in
  username_of 7 l' = Some (VStr "bob") /\
  username_of 7 l' <> Some (VStr "robert").
Proof.
  assert (username_of 7 (violation_users
            (exec (_update_violation_user "robert" 7 103 "spam c") two_strikes))
          = Some (VStr "bob")) as H by (vm_compute; reflexivity).
  cbv zeta. rewrite H. split; [reflexivity | discriminate].
Qed.

(** ** Counting and the sentinel *)

Lemma mark_blocked_wf (uid : Z) (l : list dict) :
  wf_ledger l = true -> mark_blocked uid l = (Ret tt, marked uid l).
Proof.
  unfold marked. induction l as [|u l IH]; intros Hwf; [reflexivity|].
  cbn in Hwf. apply andb_prop in Hwf as [Hu Hl].
  destruct (wf_record_fields u Hu) as (k & c & ids & bodies & Hk & _).
  rewrite user_record_cons. cbn [mark_blocked]. unfold has_uid. rewrite Hk.
  destruct (eq_int (VInt k) uid); [reflexivity|].
  rewrite (IH Hl). by destruct (user_record uid l) as [[j v]|].
Qed.

Lemma wf_record_marked (u : dict) :
  wf_record u = true -> wf_record (<["violation_count" := VInt 999]> u) = true.
Proof.
  intros H. destruct (wf_record_fields u H) as (k & c & ids & bodies & Hu & Hc & Hi & Hb).
  unfold wf_record.
  rewrite lookup_insert_ne, Hu by done.
  rewrite lookup_insert_eq.
  rewrite lookup_insert_ne, Hi by done.
  rewrite lookup_insert_ne, Hb by done.
  reflexivity.
Qed.

Lemma marked_wf (uid : Z) (l : list dict) :
  wf_ledger l = true -> wf_ledger (marked uid l) = true.
Proof.
  intros Hwf. unfold marked.
  destruct (user_record uid l) as [[j u]|] eqn:Hf; [|done].
  apply user_record_lookup in Hf as [Hj _].
  apply wf_ledger_insert; [done|].
  apply wf_record_marked. by eapply wf_ledger_lookup.
Qed.

Lemma marked_count (uid : Z) (l : list dict) (c : Z) :
  violation_count_of uid l = Some c ->
  violation_count_of uid (marked uid l) = Some 999.
Proof.
  unfold violation_count_of, marked.
  destruct (user_record uid l) as [[j u]|] eqn:Hf; [|done]. intros _.
  destruct (user_record_lookup _ _ _ _ Hf) as [_ Hu].
  rewrite (user_record_insert uid l j u _ Hf).
  - unfold int_field. by rewrite lookup_insert_eq.
  - unfold has_uid in *. by rewrite lookup_insert_ne.
Qed.

(** A block call the platform accepts, for a user that is not on the
    allow-list, marks the record and touches nothing else but the log and
    the list of calls. *)
Lemma blacklist_user_ok (modify_relation : Z -> outcome unit) (uid : Z) (m : manager) :
  wf_ledger (violation_users m) = true ->
  uid <> 621240130 ->
  modify_relation uid = Ret tt ->
  exists m',
    blacklist_user modify_relation uid m = (Ret tt, m') /\
    violation_users m' = marked uid (violation_users m) /\
    blacklist_queue m' = blacklist_queue m /\
    comment_queue m' = comment_queue m /\
    calls m' = calls m ++ [CallBlock uid].
Proof.
  intros Hwf Hne Hok. destruct m as [words users cq bq vq file lg cs]. cbn in *.
  unfold blacklist_user, issue, log. run_monad.
  rewrite bool_decide_eq_false_2 by (rewrite list_elem_of_singleton; done).
  cbn. rewrite Hok. cbn. rewrite (mark_blocked_wf uid users Hwf). cbn.
  eexists. split; [reflexivity|]. cbn. done.
Qed.

(** A run of violations of one user on a well-formed ledger: the count
    moves from [c0] (0 without a record) to [c0 + N], and the user is
    enqueued for blocking once if the count passes through 3. *)
Lemma record_all_wf (uid : Z) (vs : list (string * Z * string)) (m : manager) :
  wf_ledger (violation_users m) = true ->
  exists m',
    record_all uid vs m = (Ret tt, m') /\
    wf_ledger (violation_users m') = true /\
    violation_count_of uid (violation_users m') =
      match vs with
      | [] => violation_count_of uid (violation_users m)
      | _ :: _ => Some (default 0 (violation_count_of uid (violation_users m))
                        + Z.of_nat (length vs))
      end /\
    blacklist_queue m' =
      blacklist_queue m ++
      (if decide (default 0 (violation_count_of uid (violation_users m)) <= 2
                  < default 0 (violation_count_of uid (violation_users m))
                    + Z.of_nat (length vs))
       then [uid] else []).
Proof.
  revert m. induction vs as [|[[username rpid] content] vs IH]; intros m Hwf.
  - exists m. split_and!; [done..|].
    rewrite decide_False; [by rewrite app_nil_r|]. cbn [length]. lia.
  - destruct (update_wf username uid rpid content m Hwf)
      as (m1 & Hrun & Husers & Hbq & _).
    pose proof (recorded_count username uid rpid content _ Hwf) as Hcount.
    rewrite <- Husers in Hcount.
    assert (wf_ledger (violation_users m1) = true) as Hwf1
      by (rewrite Husers; by apply recorded_wf).
    destruct (IH m1 Hwf1) as (m2 & Hrun2 & Hwf2 & Hcount2 & Hbq2).
    exists m2. split_and!.
    + cbn [record_all]. cbv [mbind St_bind]. rewrite Hrun. exact Hrun2.
    + done.
    + rewrite Hcount2, Hcount.
      destruct (violation_count_of uid (violation_users m)) as [c|];
        destruct vs; unfold default; cbn [from_option length]; unfold id; f_equal; lia.
    + rewrite Hbq2, Hbq, Hcount. clear Hbq2 Hbq Hcount2 IH.
      destruct (violation_count_of uid (violation_users m)) as [c|];
        unfold default; cbn [from_option length]; unfold id;
        repeat case_decide; simplify_eq;
        rewrite <- ?app_assoc, ?app_nil_r; cbn; try done; exfalso;
        try match goal with
            | H : Some ?c <> Some 2 |- _ => assert (c <> 2) by (intros ->; by apply H)
            end;
        lia.
Qed.

(** C3, as the code has it: for a user without a record on a well-formed
    ledger, after N >= 1 recorded violations the count is N, and the user
    has been enqueued for blocking once if N >= 3 and not at all
    otherwise.  When the block call then succeeds ([blacklist_user], for a
    user that is not allow-listed) the count is the sentinel 999.  Each
    further recorded violation still increments it: after K more the count
    is 999 + K, and none of them enqueues a block action. *)
Theorem count_tracks_violations_then_sentinel
    (modify_relation : Z -> outcome unit) (uid : Z)
    (vs ws : list (string * Z * string)) (m : manager) :
  wf_ledger (violation_users m) = true ->
  violation_count_of uid (violation_users m) = None ->
  vs <> [] ->
  uid <> 621240130 ->
  modify_relation uid = Ret tt ->
  let m1 := exec (record_all uid vs) m in
  let m2 := exec (blacklist_user modify_relation uid) m1 in
  let m3 := exec (record_all uid ws) m2 in
  violation_count_of uid (violation_users m1) = Some (Z.of_nat (length vs)) /\
  blacklist_queue m1 =
    blacklist_queue m ++ (if decide (3 <= length vs)%nat then [uid] else []) /\
  violation_count_of uid (violation_users m2) = Some 999 /\
  violation_count_of uid (violation_users m3) = Some (999 + Z.of_nat (length ws)) /\
  blacklist_queue m3 = blacklist_queue m2.
Proof.
  intros Hwf Hnone Hvs Hne Hok m1 m2 m3.
  destruct (record_all_wf uid vs m Hwf) as (s1 & Hrun1 & Hwf1 & Hc1 & Hbq1).
  assert (m1 = s1) as Hm1 by (unfold m1, exec; by rewrite Hrun1).
  destruct (blacklist_user_ok modify_relation uid s1 Hwf1 Hne Hok)
    as (s2 & Hrun2 & Hu2 & Hbq2 & _).
  assert (m2 = s2) as Hm2 by (unfold m2, exec; by rewrite Hm1, Hrun2).
  assert (wf_ledger (violation_users s2) = true) as Hwf2
    by (rewrite Hu2; by apply marked_wf).
  destruct (record_all_wf uid ws s2 Hwf2) as (s3 & Hrun3 & Hwf3 & Hc3 & Hbq3).
  assert (m3 = s3) as Hm3 by (unfold m3, exec; by rewrite Hm2, Hrun3).
  rewrite Hm1, Hm2, Hm3. clear m1 m2 m3 Hm1 Hm2 Hm3 Hrun1 Hrun2 Hrun3.
  rewrite Hnone in *. destruct vs as [|v vs]; [done|]. cbn [default] in *.
  assert (violation_count_of uid (violation_users s2) = Some 999) as Hc2.
  { rewrite Hu2. by eapply marked_count. }
  rewrite Hc2 in *. unfold default in *. cbn [from_option] in *. unfold id in *.
  split_and!.
  - rewrite Hc1. f_equal; lia.
  - rewrite Hbq1. repeat case_decide; try done; exfalso; cbn [length] in *; lia.
  - done.
  - rewrite Hc3. destruct ws; f_equal; cbn [length]; lia.
  - rewrite Hbq3. rewrite decide_False by lia. by rewrite app_nil_r.
Qed.

Lemma count_tracks_violations_then_sentinel_witness :
  wf_ledger (violation_users (idle_manager ["spam"] [])) = true /\
  violation_count_of 7 (violation_users (idle_manager ["spam"] [])) = None /\
  three_violations <> [] /\
  7 <> 621240130 /\
  always_ok 7 = Ret tt /\
  let m1 := exec (record_all 7 three_violations) (idle_manager ["spam"] []) in
  let m2 := exec (blacklist_user always_ok 7) m1 in
  let m3 := exec (record_all 7 [("bob", 104, "spam d")]) m2 in
  violation_count_of 7 (violation_users m1) = Some (Z.of_nat (length three_violations)) /\
  blacklist_queue m1 =
    blacklist_queue (idle_manager ["spam"] []) ++
    (if decide (3 <= length three_violations)%nat then [7] else []) /\
  violation_count_of 7 (violation_users m2) = Some 999 /\
  violation_count_of 7 (violation_users m3)
    = Some (999 + Z.of_nat (length [("bob", 104, "spam d")])) /\
  blacklist_queue m3 = blacklist_queue m2.
Proof.
  split_and!; [reflexivity | reflexivity | discriminate | lia | reflexivity |].
  apply (count_tracks_violations_then_sentinel always_ok 7 three_violations
           [("bob", 104, "spam d")] (idle_manager ["spam"] []));
    [reflexivity | reflexivity | discriminate | lia | reflexivity].
Defined.

(** C3, as stated, fails: a violation recorded after the user has been
    blocked moves the count from the sentinel 999 to 1000. *)
Lemma sentinel_not_fixed :
  let m1 := exec (record_all 7 three_violations) (idle_manager ["spam"] []) in
  let m2 := exec (blacklist_user always_ok 7) m1 in
  let m3 := exec (_update_violation_user "bob" 7 104 "spam d") m2 in
  violation_count_of 7 (violation_users m1) = Some 3 /\
  calls m2 = [CallBlock 7] /\
  violation_count_of 7 (violation_users m2) = Some 999 /\
  violation_count_of 7 (violation_users m3) = Some 1000 /\
  violation_count_of 7 (violation_users m3) <> Some 999.
Proof.
  cbv zeta.
  assert (violation_count_of 7 (violation_users
            (exec (_update_violation_user "bob" 7 104 "spam d")
               (exec (blacklist_user always_ok 7)
                  (exec (record_all 7 three_violations) (idle_manager ["spam"] [])))))
          = Some 1000) as H by (vm_compute; reflexivity).
  rewrite H.
  split_and!; [vm_compute; reflexivity | vm_compute; reflexivity
              | vm_compute; reflexivity | reflexivity | discriminate].
Qed.

(** ** The allow-listed user *)



(** ** Uniqueness of the user identifier *)

Lemma uids_cons (u : dict) (l : list dict) :
  uids (u :: l) = match u !! "uid" with Some v => v :: uids l | None => uids l end.
Proof. reflexivity. Qed.

Lemma uids_find_user (uid rpid : Z) (content : string) (i : nat) (l : list dict) :
  uids (find_user uid rpid content i l).2 = uids l.
Proof.
  revert i. induction l as [|u l IH]; intros i; [reflexivity|].
  cbn [find_user]. destruct (u !! "uid") as [v|] eqn:Hv; [|reflexivity].
  destruct (eq_int v uid).
  - pose proof (bump_record_other rpid content u "uid") as Hb.
    destruct (bump_record rpid content u) as [[[]|e] u']; cbn [snd] in *;
      rewrite !uids_cons, Hb, Hv by done; reflexivity.
  - specialize (IH (S i)).
    destruct (find_user uid rpid content (S i) l) as [r l']. cbn [snd] in *.
    by rewrite !uids_cons, Hv, IH.
Qed.

(** When the lookup loop runs to its end, no record carries [uid]. *)
Lemma find_user_none (uid rpid : Z) (content : string) (i : nat) (l : list dict) :
  (find_user uid rpid content i l).1 = Ret None -> VInt uid ∉ uids l.
Proof.
  revert i. induction l as [|u l IH]; intros i; [intros _; apply not_elem_of_nil|].
  cbn [find_user]. rewrite uids_cons.
  destruct (u !! "uid") as [v|] eqn:Hv; [|discriminate].
  destruct (eq_int v uid) eqn:Heq.
  - destruct (bump_record rpid content u) as [[[]|e] u']; discriminate.
  - specialize (IH (S i)).
    destruct (find_user uid rpid content (S i) l) as [r l']. cbn [fst] in *.
    intros Hr. apply not_elem_of_cons. split; [|by apply IH].
    intros <-. cbn in Heq. by rewrite Z.eqb_refl in Heq.
Qed.

Lemma uids_mark_blocked (uid : Z) (l : list dict) :
  uids (mark_blocked uid l).2 = uids l.
Proof.
  induction l as [|u l IH]; [reflexivity|].
  cbn [mark_blocked]. destruct (u !! "uid") as [v|] eqn:Hv; [|reflexivity].
  destruct (eq_int v uid).
  - cbn [snd]. by rewrite !uids_cons, lookup_insert_ne, Hv.
  - destruct (mark_blocked uid l) as [r l']. cbn [snd] in *.
    by rewrite !uids_cons, Hv, IH.
Qed.

Lemma uids_snoc_new (username : string) (uid rpid : Z) (content : string) (l : list dict) :
  uids (l ++ [new_record username uid rpid content]) = uids l ++ [VInt uid].
Proof.
  unfold uids. rewrite omap_app. cbn.
  destruct (new_record_fields username uid rpid content) as (_ & -> & _).
  reflexivity.
Qed.

(** The ledger after [blacklist_user], on any ledger. *)
Lemma blacklist_user_users (modify_relation : Z -> outcome unit) (uid : Z) (m : manager) :
  violation_users (exec (blacklist_user modify_relation uid) m) =
  if bool_decide (uid ∈ [621240130]) then violation_users m
  else match modify_relation uid with
       | Ret _ => (mark_blocked uid (violation_users m)).2
       | Raise _ => violation_users m
       end.
Proof.
  destruct m as [words users cq bq vq file lg cs].
  unfold blacklist_user, issue, log_exception, log. run_monad.
  destruct (bool_decide (uid ∈ [621240130])); cbn; [reflexivity|].
  destruct (modify_relation uid) as [[]|e]; cbn; [|reflexivity].
  destruct (mark_blocked uid users) as [[[]|e] l']; reflexivity.
Qed.

(** C5: if the ledger holds at most one record per userId, it still does
    after [_update_violation_user] (RecordViolation) and after
    [blacklist_user] (the block call followed by MarkBlocked), on every
    ledger and whatever the platform answers. *)
Theorem ledger_operations_keep_uid_unique
    (modify_relation : Z -> outcome unit)
    (username : string) (uid rpid : Z) (content : string) (m : manager) :
  unique_by_uid (violation_users m) ->
  unique_by_uid
    (violation_users (exec (_update_violation_user username uid rpid content) m)) /\
  unique_by_uid (violation_users (exec (blacklist_user modify_relation uid) m)).
Proof.
  unfold unique_by_uid. intros Hnd. split.
  - rewrite update_users.
    pose proof (uids_find_user uid rpid content 0 (violation_users m)) as Hu.
    pose proof (find_user_none uid rpid content 0 (violation_users m)) as Hn.
    destruct (find_user uid rpid content 0 (violation_users m)) as [[[j|]|e] l'];
      cbn [fst snd] in *; try (by rewrite Hu).
    rewrite uids_snoc_new, Hu. apply NoDup_app. split_and!; [done| |apply NoDup_singleton].
    intros v Hv ->%list_elem_of_singleton. by apply Hn.
  - rewrite blacklist_user_users. case_bool_decide; [done|].
    destruct (modify_relation uid); [|done]. by rewrite uids_mark_blocked.
Qed.

Lemma ledger_operations_keep_uid_unique_witness :
  unique_by_uid (violation_users two_strikes) /\
  unique_by_uid
    (violation_users (exec (_update_violation_user "bob" 7 103 "spam c") two_strikes)) /\
  unique_by_uid (violation_users (exec (blacklist_user always_ok 7) two_strikes)).
Proof.
  assert (unique_by_uid (violation_users two_strikes)) as H.
  { unfold unique_by_uid. vm_compute. apply NoDup_singleton. }
  split; [exact H|].
  apply (ledger_operations_keep_uid_unique always_ok "bob" 7 103 "spam c" two_strikes H).
Defined.

(** ** Pattern matcher *)

(** C6, as the code has it: [_check_violation] never raises.  It returns
    [True] exactly when some pattern's search succeeds and every pattern
    before it in the list was searched without error and without a match
    (the first hit is a match).  It returns [False], leaving the state as
    it is, when no pattern matches or raises; and it returns [False] and
    logs the error when the first hit is a pattern whose evaluation
    raises, whatever the patterns after it would give. *)
Theorem check_violation_first_hit
    (re_search : string -> string -> outcome bool) (content : string) (m : manager) :
  exists b m',
    _check_violation re_search content m = (Ret b, m') /\
    (b = true <-> exists i, first_hit re_search content (violation_words m) (Ret true) i) /\
    ((forall word, word ∈ violation_words m -> re_search word content = Ret false) ->
     b = false /\ m' = m) /\
    (forall e i, first_hit re_search content (violation_words m) (Raise e) i ->
                 b = false /\
                 logger m' = logger m ++ [(ERROR, MsgCheckFailed e); (DEBUG, Traceback)]).
Proof.
  rewrite check_violation_run.
  pose proof (search_words_true re_search content (violation_words m)) as Ht.
  pose proof (search_words_false re_search content (violation_words m)) as Hf.
  pose proof (search_words_raise re_search content (violation_words m)) as Hr.
  destruct (search_words re_search content (violation_words m)) as [b|e].
  - exists b, m. split_and!; [done| | |].
    + rewrite <- Ht. split; congruence.
    + intros H. apply Hf in H. split; congruence.
    + intros e i Hi. assert (Ret b = Raise e) by (apply Hr; eauto). discriminate.
  - eexists false, _. split_and!; [done| | |].
    + rewrite <- Ht. split; discriminate.
    + intros H. apply Hf in H. discriminate.
    + intros e' i Hi. assert (Raise e = Raise e') as [= ->] by (apply Hr; eauto).
      split; [done|]. destruct m; cbn. by rewrite <- app_assoc.
Qed.

(** C6, as stated, fails: with the patterns ["("; "spam"] the search of
    "spam" succeeds on the body, yet the malformed pattern before it makes
    [_check_violation] return [False]. *)
Lemma malformed_pattern_masks_later_match :
  let m := idle_manager ["("; "spam"] [] in
  "spam" ∈ violation_words m /\
  literal_search "spam" "buy spam now" = Ret true /\
  (_check_violation literal_search "buy spam now" m).1 = Ret false.
Proof.
  cbv zeta. split_and!.
  - cbn. apply list_elem_of_further, list_elem_of_here.
  - vm_compute. reflexivity.
  - vm_compute. reflexivity.
Qed.

(** ** Persistence *)



(** ** Detector *)

(** C9: for a check-queue entry whose body matches ([_check_violation]
    returns [True]), the detector returns normally and appends the entry's
    reply id to the removal queue, on every ledger: whatever happens inside
    [_update_violation_user], an internal error included, is caught there
    and does not reach the enqueue that follows. *)
Theorem removal_enqueued_even_if_update_fails
    (re_search : string -> string -> outcome bool)
    (it : item) (content : string) (id : Z) (m : manager) :
  item_content it = Some content ->
  item_rpid it = Some id ->
  (_check_violation re_search content m).1 = Ret true ->
  (process_item re_search it m).1 = Ret tt /\
  comment_queue (exec (process_item re_search it) m) = comment_queue m ++ [id].
Proof.
  intros Hc Hid Hmatch. apply (process_item_enqueues re_search it content id m Hc Hid).
  rewrite check_violation_run in Hmatch.
  destruct (search_words re_search content (violation_words m)) as [[]|e];
    cbn in Hmatch; by simplify_eq.
Qed.

Lemma removal_enqueued_even_if_update_fails_witness :
  item_content (ItemComment spam_reply) = Some "more spam" /\
  item_rpid (ItemComment spam_reply) = Some 102 /\
  (_check_violation literal_search "more spam" other_shape).1 = Ret true /\
  (process_item literal_search (ItemComment spam_reply) other_shape).1 = Ret tt /\
  comment_queue (exec (process_item literal_search (ItemComment spam_reply)) other_shape)
    = comment_queue other_shape ++ [102].
Proof.
  split_and!; [reflexivity | reflexivity | vm_compute; reflexivity | |];
    apply (removal_enqueued_even_if_update_fails literal_search
             (ItemComment spam_reply) "more spam" 102 other_shape);
    first [reflexivity | vm_compute; reflexivity].
Defined.

(** On the ledger written in the other shape the update does fail
    internally: the count has been incremented, the [KeyError] is logged,
    no block action is considered, and the removal is enqueued all the
    same. *)
Example update_fails_removal_enqueued :
  let m' := exec (process_item literal_search (ItemComment spam_reply)) other_shape in
  logger m' = [(INFO, MsgViolation comment "bob" 7 "more spam");
               (ERROR, MsgUpdateFailed (KeyError "comment_rpids"));
               (DEBUG, Traceback)] /\
  violation_count_of 7 (violation_users m') = Some 2 /\
  comment_queue m' = [102].
Proof. vm_compute. split_and!; reflexivity. Qed.

(** ** Block executor *)

(** C10: when the block call raises, [blacklist_user] returns normally and
    the ledger is exactly as before: no record has been given the
    sentinel.  The two queues are untouched as well; the attempt and the
    failure are logged.  (For the allow-listed user no call is issued, so
    none can raise: only the announcement is logged.) *)
Theorem failed_block_leaves_ledger
    (modify_relation : Z -> outcome unit) (uid : Z) (e : exn) (m : manager) :
  modify_relation uid = Raise e ->
  let m' := exec (blacklist_user modify_relation uid) m in
  (blacklist_user modify_relation uid m).1 = Ret tt /\
  violation_users m' = violation_users m /\
  comment_queue m' = comment_queue m /\
  blacklist_queue m' = blacklist_queue m /\
  calls m' = calls m ++ (if bool_decide (uid ∈ [621240130]) then [] else [CallBlock uid]) /\
  logger m' = logger m ++
    (if bool_decide (uid ∈ [621240130]) then [(INFO, MsgBlocking uid)]
     else [(INFO, MsgBlocking uid); (ERROR, MsgBlockFailed uid e); (DEBUG, Traceback)]).
Proof.
  intros Hfail m'. subst m'. destruct m as [words users cq bq vq file lg cs].
  unfold blacklist_user, issue, log_exception, log. run_monad.
  case_bool_decide as Hin; cbn.
  - split_and!; try done. by rewrite app_nil_r.
  - rewrite Hfail. cbn. split_and!; try done. by rewrite <- !app_assoc.
Qed.

Lemma failed_block_leaves_ledger_witness :
  always_fails 7 = Raise ApiError /\
  let m' := exec (blacklist_user always_fails 7) two_strikes in
  (blacklist_user always_fails 7 two_strikes).1 = Ret tt /\
  violation_users m' = violation_users two_strikes /\
  comment_queue m' = comment_queue two_strikes /\
  blacklist_queue m' = blacklist_queue two_strikes /\
  calls m' = calls two_strikes ++ (if bool_decide (7 ∈ [621240130]) then [] else [CallBlock 7]) /\
  logger m' = logger two_strikes ++
    (if bool_decide (7 ∈ [621240130]) then [(INFO, MsgBlocking 7)]
     else [(INFO, MsgBlocking 7); (ERROR, MsgBlockFailed 7 ApiError); (DEBUG, Traceback)]).
Proof.
  split; [reflexivity|].
  apply (failed_block_leaves_ledger always_fails 7 ApiError two_strikes).
  reflexivity.
Defined.

(** ** Failure of one nested-reply sequence *)

(** C8, as the code has it: in a pass whose top-level pages are fetched
    without error, for every top-level comment that has replies, a fetch
    error in its nested-reply sequence is logged, and every reply that
    sequence fetched (all of them when it did not fail, those of the pages
    before the error when it did) goes through detection: when its body
    matches, its removal call is issued.  This holds whatever happens in
    the sequences of the other comments.  The replies fetched before an
    error are therefore not discarded: each page is put on the check queue
    as soon as it arrives. *)
Theorem nested_fetch_failure_is_contained
    (re_search : string -> string -> outcome bool)
    (delete modify_relation : Z -> outcome unit)
    (get_comments_pages : list (outcome (list reply)))
    (get_sub_comments_pages : Z -> list (outcome (list reply)))
    (json_dump : list dict -> string) (open_w : outcome unit)
    (write_text : string -> outcome unit * string)
    (max_pages : Z) (m : manager) (comments : list reply) (cmt : reply) :
  (get_comments get_comments_pages max_pages m).1 = Ret comments ->
  cmt ∈ comments ->
  replies cmt = true ->
  let m' := exec (process_all_comments re_search delete modify_relation
                    get_comments_pages get_sub_comments_pages
                    json_dump open_w write_text max_pages) m in
  (forall e, (fetched (get_sub_comments_pages (rpid cmt))).2 = Some e ->
             (ERROR, MsgSubFailed (rpid cmt) e) ∈ logger m') /\
  (forall r, r ∈ (fetched (get_sub_comments_pages (rpid cmt))).1 ->
             search_words re_search (msg r) (violation_words m) = Ret true ->
             CallDelete (rpid r) ∈ calls m').
Proof.
  intros Hget Hin Hrep m'.
  destruct (harvest_run get_comments_pages get_sub_comments_pages max_pages m comments Hget)
    as (Hrun & Hwords & Hitems & Hlogs).
  set (s1 := exec (harvest get_comments_pages get_sub_comments_pages max_pages) m) in *.
  set (rest := after_harvest re_search delete modify_relation json_dump open_w write_text).
  assert (log_grows (exec rest s1) m' /\ calls m' = calls (exec rest s1)) as [[newl Hl] Hc].
  { subst m'.
    rewrite (pass_split re_search delete modify_relation get_comments_pages
               get_sub_comments_pages json_dump open_w write_text max_pages).
    unfold exec, try_except. fold rest.
    rewrite (exec_bind _ _ m s1 tt Hrun).
    destruct (rest s1) as [[[]|e] s5]; cbn [snd].
    - split; [|done]. exists []. by rewrite app_nil_r.
    - unfold log_exception, log. run_monad. destruct s5; cbn. split; [|done].
      eexists. by rewrite <- app_assoc. }
  split.
  - intros e He.
    destruct (after_harvest_run re_search delete modify_relation json_dump open_w
                write_text s1 ItemOther "" 0) as [[new Hnew] _].
    fold rest in Hnew. rewrite Hl, Hnew, !elem_of_app. left. left. by eapply Hlogs.
  - intros r Hr Hmatch.
    destruct (after_harvest_run re_search delete modify_relation json_dump open_w
                write_text s1 (ItemSub (mk_sub (rpid cmt) r)) (msg r) (rpid r))
      as [_ Hdel].
    fold rest in Hdel. rewrite Hc. apply Hdel; try done.
    + by apply Hitems.
    + by rewrite Hwords.
Qed.

Lemma nested_fetch_failure_is_contained_witness :
  let m := idle_manager ["spam"] [] in
  let c100 := {| rpid := 100; mid := 11; uname := "ann"; msg := "first"; replies := true |} in
  let c200 := {| rpid := 200; mid := 12; uname := "ben"; msg := "second"; replies := true |} in
  (get_comments two_threads 5 m).1 = Ret [c100; c200] /\
  c200 ∈ [c100; c200] /\
  replies c200 = true /\
  let m' := exec failing_pass m in
  (forall e, (fetched (failing_thread (rpid c200))).2 = Some e ->
             (ERROR, MsgSubFailed (rpid c200) e) ∈ logger m') /\
  (forall r, r ∈ (fetched (failing_thread (rpid c200))).1 ->
             search_words literal_search (msg r) (violation_words m) = Ret true ->
             CallDelete (rpid r) ∈ calls m').
Proof.
  cbv zeta.
  assert ((get_comments two_threads 5 (idle_manager ["spam"] [])).1
          = Ret [ {| rpid := 100; mid := 11; uname := "ann"; msg := "first"; replies := true |};
                  {| rpid := 200; mid := 12; uname := "ben"; msg := "second"; replies := true |} ])
    as Hget by (vm_compute; reflexivity).
  split; [exact Hget|].
  split; [apply list_elem_of_further, list_elem_of_here|].
  split; [reflexivity|].
  apply (nested_fetch_failure_is_contained literal_search always_ok always_ok
           two_threads failing_thread dump_empty (Ret tt) write_all 5
           (idle_manager ["spam"] []) _ _ Hget);
    [apply list_elem_of_further, list_elem_of_here | reflexivity].
Defined.

(** C8, as stated, fails: the sequence of comment 100 fails on its second
    page, yet the replies of its first page are on the check queue when
    the harvest ends, and the spam among them (reply 1002) is detected and
    removed in the same pass, like the spam reply 2001 of the other
    comment. *)
Lemma partial_results_not_discarded :
  let m := idle_manager ["spam"] [] in
  (fetched (failing_thread 100)).2 = Some ApiError /\
  violation_check_queue (exec (harvest two_threads failing_thread 5) m) !! 3%nat
    = Some (ItemSub {| sub_rpid := 1002; sub_mid := 52; sub_user := "user";
                       sub_content := "cheap spam here"; parent_rpid := 100 |}) /\
  calls (exec failing_pass m) = [CallDelete 1002; CallDelete 2001].
Proof. cbv zeta. split_and!; vm_compute; reflexivity. Qed.

(** * Further properties of the code *)

#[local] Instance executor_frame_preorder : PreOrder executor_frame.
Proof.
  split.
  - intros s. unfold executor_frame. done.
  - intros s1 s2 s3 (?&?&?&?&?&?) (?&?&?&?&?&?). unfold executor_frame.
    split_and!; congruence.
Qed.

#[local] Instance block_frame_preorder : PreOrder block_frame.
Proof.
  split.
  - intros s. unfold block_frame. done.
  - intros s1 s2 s3 (?&?&?&?&?) (?&?&?&?&?). unfold block_frame.
    split_and!; congruence.
Qed.

#[local] Instance harvest_frame_preorder : PreOrder harvest_frame.
Proof.
  split.
  - intros s. unfold harvest_frame. done.
  - intros s1 s2 s3 (?&?&?&?&?&?) (?&?&?&?&?&?). unfold harvest_frame.
    split_and!; congruence.
Qed.

Ltac frame_leaf := intros [] ?; done.

(** Running past a step that returns, for the final state and for the
    outcome. *)
Lemma exec_seq {A B} (c : M A) (k : A -> M B) (s : manager) (a : A) :
  (c s).1 = Ret a ->
  exec (c ≫= k) s = exec (k a) (exec c s) /\
  ((c ≫= k) s).1 = (k a (exec c s)).1.
Proof.
  intros H. unfold exec. cbv [mbind St_bind].
  destruct (c s) as [r s1]. cbn in *. by subst.
Qed.

(** ** The removal executor *)

Lemma delete_comment_run (delete : Z -> outcome unit) (id : Z) (s : manager) :
  (delete_comment delete id s).1 = Ret tt /\
  calls (exec (delete_comment delete id) s) = calls s ++ [CallDelete id] /\
  executor_frame s (exec (delete_comment delete id) s).
Proof.
  split_and!.
  - destruct (returns_delete_comment delete id s) as [[] H]. exact H.
  - apply delete_comment_calls.
  - apply (fp_delete_comment executor_frame); frame_leaf.
Qed.

Lemma delete_all_run (delete : Z -> outcome unit) (q : list Z) (s : manager) :
  let s' := exec (delete_all delete q) s in
  (delete_all delete q s).1 = Ret tt /\
  calls s' = calls s ++ map CallDelete q /\
  comment_queue s' = match q with [] => comment_queue s | _ :: _ => [] end /\
  violation_users s' = violation_users s /\
  blacklist_queue s' = blacklist_queue s /\
  violation_users_file s' = violation_users_file s /\
  violation_check_queue s' = violation_check_queue s.
Proof.
  revert s. induction q as [|id q IH]; intros s; cbn zeta.
  - cbn. by rewrite app_nil_r.
  - cbn [delete_all].
    destruct (exec_seq (modify (set_comment_queue q))
                (fun _ => delete_comment delete id ≫= fun _ => delete_all delete q)
                s tt eq_refl) as [-> ->].
    set (sa := exec (modify (set_comment_queue q)) s).
    destruct (delete_comment_run delete id sa) as (Hret & Hcalls & Hframe).
    destruct (exec_seq (delete_comment delete id) (fun _ => delete_all delete q)
                sa tt Hret) as [-> ->].
    set (sb := exec (delete_comment delete id) sa) in *.
    destruct (IH sb) as (Hr & Hc & Hq & Hu & Hb & Hf & Hv).
    destruct Hframe as (_ & Hu1 & Hq1 & Hb1 & Hv1 & Hf1).
    split_and!.
    + done.
    + rewrite Hc, Hcalls. subst sa. destruct s; cbn. by rewrite <- app_assoc.
    + rewrite Hq. destruct q; [|done]. rewrite Hq1. subst sa. by destruct s.
    + rewrite Hu, Hu1. subst sa. by destruct s.
    + rewrite Hb, Hb1. subst sa. by destruct s.
    + rewrite Hf, Hf1. subst sa. by destruct s.
    + rewrite Hv, Hv1. subst sa. by destruct s.
Qed.

(** X1: the removal loop of a pass takes the whole removal queue in FIFO
    order and issues exactly one delete call per queued id, whether the
    platform accepts the calls or not; the loop returns normally, leaves
    the removal queue empty and touches neither the ledger, nor the block
    queue, nor the store file. *)
Theorem removals_drain_fifo (delete : Z -> outcome unit) (s : manager) :
  let s' := exec (delete_all delete (comment_queue s)) s in
  (delete_all delete (comment_queue s) s).1 = Ret tt /\
  calls s' = calls s ++ map CallDelete (comment_queue s) /\
  comment_queue s' = [] /\
  violation_users s' = violation_users s /\
  blacklist_queue s' = blacklist_queue s /\
  violation_users_file s' = violation_users_file s.
Proof.
  destruct (delete_all_run delete (comment_queue s) s)
    as (Hr & Hc & Hq & Hu & Hb & Hf & _).
  cbn zeta. split_and!; try done.
  rewrite Hq. by destruct (comment_queue s).
Qed.

(** ** The block executor *)

Lemma returns_blacklist_user (modify_relation : Z -> outcome unit) (uid : Z) :
  returns (blacklist_user modify_relation uid).
Proof.
  apply returns_bind; [apply returns_log|intros _].
  apply returns_try. intros e. apply returns_log_exception.
Qed.

Lemma blacklist_user_calls (modify_relation : Z -> outcome unit) (uid : Z) (s : manager) :
  calls (exec (blacklist_user modify_relation uid) s) =
  calls s ++ (if bool_decide (uid ∈ [621240130]) then [] else [CallBlock uid]).
Proof.
  destruct s as [words users cq bq vq file lg cs].
  unfold exec, blacklist_user, issue, log_exception, log. run_monad.
  case_bool_decide; cbn; [by rewrite app_nil_r|].
  destruct (modify_relation uid) as [[]|e]; cbn; [|done].
  destruct (mark_blocked uid users) as [[[]|e] l']; done.
Qed.

Lemma blacklist_user_run (modify_relation : Z -> outcome unit) (uid : Z) (s : manager) :
  let s' := exec (blacklist_user modify_relation uid) s in
  (blacklist_user modify_relation uid s).1 = Ret tt /\
  calls s' = calls s ++ (if bool_decide (uid ∈ [621240130]) then [] else [CallBlock uid]) /\
  uids (violation_users s') = uids (violation_users s) /\
  block_frame s s'.
Proof.
  cbn zeta. split_and!.
  - destruct (returns_blacklist_user modify_relation uid s) as [[] H]. exact H.
  - apply blacklist_user_calls.
  - rewrite blacklist_user_users. case_bool_decide; [done|].
    destruct (modify_relation uid); [|done]. apply uids_mark_blocked.
  - apply (fp_blacklist_user block_frame); frame_leaf.
Qed.

Lemma blacklist_all_run (modify_relation : Z -> outcome unit) (q : list Z) (s : manager) :
  let s' := exec (blacklist_all modify_relation q) s in
  (blacklist_all modify_relation q s).1 = Ret tt /\
  calls s' = calls s ++ map CallBlock (filter (fun u => u <> 621240130) q) /\
  blacklist_queue s' = match q with [] => blacklist_queue s | _ :: _ => [] end /\
  comment_queue s' = comment_queue s /\
  uids (violation_users s') = uids (violation_users s) /\
  violation_users_file s' = violation_users_file s /\
  violation_check_queue s' = violation_check_queue s.
Proof.
  revert s. induction q as [|uid q IH]; intros s; cbn zeta.
  - cbn. by rewrite app_nil_r.
  - cbn [blacklist_all].
    destruct (exec_seq (modify (set_blacklist_queue q))
                (fun _ => blacklist_user modify_relation uid ≫=
                          fun _ => blacklist_all modify_relation q)
                s tt eq_refl) as [-> ->].
    set (sa := exec (modify (set_blacklist_queue q)) s).
    destruct (blacklist_user_run modify_relation uid sa) as (Hret & Hcalls & Hids & Hframe).
    destruct (exec_seq (blacklist_user modify_relation uid)
                (fun _ => blacklist_all modify_relation q) sa tt Hret) as [-> ->].
    set (sb := exec (blacklist_user modify_relation uid) sa) in *.
    destruct (IH sb) as (Hr & Hc & Hq & Hcq & Hu & Hf & Hv).
    destruct Hframe as (_ & Hcq1 & Hb1 & Hv1 & Hf1).
    split_and!.
    + done.
    + rewrite Hc, Hcalls. subst sa. destruct s; cbn. rewrite <- app_assoc. f_equal.
      case_bool_decide as Hin; rewrite list_elem_of_singleton in Hin.
      * by rewrite decide_False by (intros H; by apply H).
      * by rewrite decide_True.
    + rewrite Hq. destruct q; [|done]. rewrite Hb1. subst sa. by destruct s.
    + rewrite Hcq, Hcq1. subst sa. by destruct s.
    + rewrite Hu, Hids. subst sa. by destruct s.
    + rewrite Hf, Hf1. subst sa. by destruct s.
    + rewrite Hv, Hv1. subst sa. by destruct s.
Qed.

(** X2: the block loop of a pass takes the whole block queue in FIFO order
    and issues one block call per queued user, except for the allow-listed
    user, which is skipped; failures do not stop the loop.  The loop
    returns normally, leaves the block queue empty, neither adds nor
    removes a ledger record and touches neither the removal queue nor the
    store file. *)
Theorem blocks_drain_fifo (modify_relation : Z -> outcome unit) (s : manager) :
  let s' := exec (blacklist_all modify_relation (blacklist_queue s)) s in
  (blacklist_all modify_relation (blacklist_queue s) s).1 = Ret tt /\
  calls s' = calls s ++
    map CallBlock (filter (fun u => u <> 621240130) (blacklist_queue s)) /\
  blacklist_queue s' = [] /\
  comment_queue s' = comment_queue s /\
  uids (violation_users s') = uids (violation_users s) /\
  violation_users_file s' = violation_users_file s.
Proof.
  destruct (blacklist_all_run modify_relation (blacklist_queue s) s)
    as (Hr & Hc & Hq & Hcq & Hu & Hf & _).
  cbn zeta. split_and!; try done.
  rewrite Hq. by destruct (blacklist_queue s).
Qed.

(** ** The top-level harvest *)

Lemma comments_loop_run (max_pages : Z) (pages : list (outcome (list reply)))
    (page : Z) (acc : list reply) (s : manager) :
  (comments_loop max_pages pages page acc s).1 =
    match (fetched_pages max_pages pages page).2 with
    | Some e => Raise e
    | None => Ret (acc ++ (fetched_pages max_pages pages page).1)
    end /\
  violation_check_queue (exec (comments_loop max_pages pages page acc) s) =
    violation_check_queue s ++ map ItemComment (fetched_pages max_pages pages page).1.
Proof.
  revert page acc s. induction pages as [|p pages IH]; intros page acc s.
  - destruct s. cbn. by rewrite !app_nil_r.
  - cbn [comments_loop next_page fetched_pages]. unfold exec, log, put_all in *. run_monad.
    destruct p as [[|c cs]|e].
    + destruct s. cbn. by rewrite !app_nil_r.
    + destruct (page + 1 >? max_pages).
      * destruct s. cbn. done.
      * match goal with
        | |- context [comments_loop max_pages pages ?pg ?ac ?st] =>
            destruct (IH pg ac st) as (Hr & Hq)
        end.
        rewrite Hr, Hq.
        destruct (fetched_pages max_pages pages (page + 1)) as [more err].
        cbn [fst snd]. split.
        -- destruct err; [done|]. by rewrite <- app_assoc.
        -- destruct s; cbn. by rewrite map_app, <- app_assoc.
    + destruct s. cbn. by rewrite app_nil_r.
Qed.

(** X3: [get_comments] puts on the check queue exactly the comments of the
    pages it has read, in order, and nothing else: the pages up to the
    first empty page, the [max_pages]-th page or the first page request
    that raises.  When it returns, the list it returns is that same list.
    When a page request raises, the exception is logged and raised again,
    and the comments of the pages before it stay on the check queue.
    Ledger, action queues, store file and issued calls are untouched. *)
Theorem get_comments_emits_what_it_fetches
    (get_comments_pages : list (outcome (list reply))) (max_pages : Z) (m : manager) :
  let m' := exec (get_comments get_comments_pages max_pages) m in
  let got := (fetched_pages max_pages get_comments_pages 1).1 in
  violation_check_queue m' = violation_check_queue m ++ map ItemComment got /\
  harvest_frame m m' /\
  match (fetched_pages max_pages get_comments_pages 1).2 with
  | None => (get_comments get_comments_pages max_pages m).1 = Ret got
  | Some e =>
      (get_comments get_comments_pages max_pages m).1 = Raise e /\
      exists before, logger m' = before ++ [(ERROR, MsgFetchFailed e); (DEBUG, Traceback)]
  end.
Proof.
  cbn zeta.
  pose proof (fp_get_comments harvest_frame get_comments_pages
                ltac:(frame_leaf) ltac:(frame_leaf) max_pages m) as Hframe.
  destruct (comments_loop_run max_pages get_comments_pages 1 [] m) as (Hr & Hq).
  unfold exec, get_comments, try_except, log_exception, log in *.
  destruct (comments_loop max_pages get_comments_pages 1 [] m) as [r s'].
  cbn [fst snd] in *. subst r.
  destruct (fetched_pages max_pages get_comments_pages 1) as [got [e|]]; cbn [fst snd] in *.
  - run_monad. split_and!.
    + rewrite <- Hq. by destruct s'.
    + exact Hframe.
    + done.
    + exists (logger s'). destruct s'; cbn. by rewrite <- app_assoc.
  - split_and!; done.
Qed.

Lemma comments_loop_bound (max_pages : Z) (pages : list (outcome (list reply)))
    (page : Z) (acc : list reply) (s : manager) :
  comments_loop max_pages pages page acc s =
  comments_loop max_pages
    (take (Z.to_nat (Z.max 1 (max_pages - page + 1))) pages) page acc s.
Proof.
  revert page acc s. induction pages as [|p pages IH]; intros page acc s.
  - by rewrite take_nil.
  - assert (exists n, Z.to_nat (Z.max 1 (max_pages - page + 1)) = S n) as [n Hn]
      by (exists (Z.to_nat (Z.max 1 (max_pages - page + 1)) - 1)%nat; lia).
    rewrite Hn. cbn [take comments_loop next_page]. unfold log, put_all. run_monad.
    destruct p as [[|c cs]|e]; [done| |done].
    destruct (page + 1 >? max_pages) eqn:Hgt; [done|].
    rewrite Z.gtb_ltb in Hgt. apply Z.ltb_ge in Hgt.
    rewrite IH. repeat f_equal. lia.
Qed.

(** X4: [get_comments] reads at least the first page and at most
    [max(1, max_pages)] pages.  What it does is determined by the first
    [max(1, max_pages)] page answers; with [max_pages] at most 1, zero and
    negative values included, it returns the comments of the first page
    and puts them on the check queue; an error on the first page is raised
    whatever [max_pages] is. *)
Theorem get_comments_page_bound
    (get_comments_pages : list (outcome (list reply))) (max_pages : Z) (m : manager)
    (data : list reply) (rest : list (outcome (list reply))) (e : exn) :
  get_comments get_comments_pages max_pages m =
    get_comments (take (Z.to_nat (Z.max 1 max_pages)) get_comments_pages) max_pages m /\
  (get_comments (Ret data :: rest) (Z.min 1 max_pages) m).1 = Ret data /\
  violation_check_queue (exec (get_comments (Ret data :: rest) (Z.min 1 max_pages)) m) =
    violation_check_queue m ++ map ItemComment data /\
  (get_comments (Raise e :: rest) max_pages m).1 = Raise e.
Proof.
  split_and!.
  - unfold get_comments, try_except.
    rewrite (comments_loop_bound max_pages get_comments_pages 1 [] m).
    by replace (max_pages - 1 + 1) with max_pages by lia.
  - unfold get_comments, try_except. cbn [comments_loop next_page].
    unfold log, put_all. run_monad. destruct data as [|c cs]; [done|].
    destruct (1 + 1 >? Z.min 1 max_pages) eqn:Hgt; [done|].
    rewrite Z.gtb_ltb in Hgt. apply Z.ltb_ge in Hgt. lia.
  - unfold exec, get_comments, try_except. cbn [comments_loop next_page].
    unfold log, put_all. run_monad. destruct data as [|c cs].
    + destruct m; cbn. by rewrite app_nil_r.
    + destruct (1 + 1 >? Z.min 1 max_pages) eqn:Hgt; [by destruct m|].
      rewrite Z.gtb_ltb in Hgt. apply Z.ltb_ge in Hgt. lia.
  - unfold get_comments, try_except, log_exception, log. cbn [comments_loop next_page].
    unfold log. run_monad. done.
Qed.

(** ** The nested-reply sequences *)

(** X5: [_get_single_sub_comment] puts on the check queue exactly the
    replies of the pages it has read, in order, each tagged with the id of
    the comment it was asked for: the pages up to the first one that is
    empty or does not hold 20 replies, or up to the first page request
    that raises.  When it returns, the list it returns holds the same
    entries; when a page request raises, the exception is raised again and
    the replies of the pages before it stay on the check queue.  Ledger,
    action queues, store file and issued calls are untouched. *)
Theorem sub_comments_emitted_with_parent
    (get_sub_comments_pages : Z -> list (outcome (list reply))) (id : Z) (m : manager) :
  let m' := exec (_get_single_sub_comment get_sub_comments_pages id) m in
  let got := map (mk_sub id) (fetched (get_sub_comments_pages id)).1 in
  violation_check_queue m' = violation_check_queue m ++ map ItemSub got /\
  Forall (fun x => parent_rpid x = id) got /\
  harvest_frame m m' /\
  (_get_single_sub_comment get_sub_comments_pages id m).1 =
    match (fetched (get_sub_comments_pages id)).2 with
    | None => Ret got
    | Some e => Raise e
    end.
Proof.
  cbn zeta.
  destruct (get_single_sub_comment_run get_sub_comments_pages id m) as [Hq Hres].
  split_and!.
  - rewrite Hq. unfold sub_items. by rewrite map_map.
  - apply Forall_forall. intros x Hx. apply list_elem_of_In, in_map_iff in Hx.
    by destruct Hx as (r & <- & _).
  - apply (fp_get_single_sub_comment harvest_frame); frame_leaf.
  - destruct (fetched (get_sub_comments_pages id)).2 as [e|].
    + by destruct Hres as [-> _].
    + by rewrite Hres.
Qed.

(** X6: a page that does not hold exactly 20 replies is the last one
    [_get_single_sub_comment] requests: whatever the platform would answer
    on the following pages, an error included, plays no part. *)
Theorem short_page_ends_sequence
    (get_sub_comments_pages : Z -> list (outcome (list reply)))
    (id : Z) (data : list reply) (rest : list (outcome (list reply))) (m : manager) :
  get_sub_comments_pages id = Ret data :: rest ->
  length data <> 20%nat ->
  _get_single_sub_comment get_sub_comments_pages id m =
  _get_single_sub_comment (fun _ => [Ret data]) id m.
Proof.
  intros Hpages Hlen. unfold _get_single_sub_comment, try_except.
  rewrite Hpages. cbn [sub_loop next_page]. unfold put_all. run_monad.
  destruct data as [|d data]; [done|].
  apply Nat.eqb_neq in Hlen. cbn [length] in *. by rewrite Hlen.
Qed.

Lemma short_page_ends_sequence_witness :
  short_then_error 300 =
    [Ret [ {| rpid := 3001; mid := 70; uname := "dan"; msg := "hello"; replies := false |} ];
     Raise ApiError] /\
  length [ {| rpid := 3001; mid := 70; uname := "dan"; msg := "hello"; replies := false |} ]
    <> 20%nat /\
  _get_single_sub_comment short_then_error 300 (idle_manager [] []) =
  _get_single_sub_comment
    (fun _ => [Ret [ {| rpid := 3001; mid := 70; uname := "dan"; msg := "hello";
                        replies := false |} ]]) 300 (idle_manager [] []).
Proof.
  split; [reflexivity|]. split; [cbn; lia|].
  apply (short_page_ends_sequence short_then_error 300 _ [Raise ApiError]
           (idle_manager [] [])); [reflexivity | cbn; lia].
Defined.

(** ** The detector *)

Section Detector.
Variable re_search : string -> string -> outcome bool.

Lemma process_item_run (it : item) (s : manager) :
  let s' := exec (process_item re_search it) s in
  (process_item re_search it s).1 = Ret tt /\
  comment_queue s' =
    comment_queue s ++ option_list (violating re_search (violation_words s) it) /\
  violation_words s' = violation_words s /\
  violation_check_queue s' = violation_check_queue s /\
  violation_users_file s' = violation_users_file s /\
  calls s' = calls s /\
  (violating re_search (violation_words s) it = None ->
   violation_users s' = violation_users s /\ blacklist_queue s' = blacklist_queue s).
Proof.
  cbn zeta.
  destruct (returns_process_item re_search it s) as [[] Hret].
  pose proof (fp_process_item removals_grow re_search
                ltac:(grows_leaf) ltac:(grows_leaf) ltac:(grows_leaf)
                ltac:(grows_leaf) it s) as [Hwords _].
  assert (violation_check_queue (exec (process_item re_search it) s)
            = violation_check_queue s /\
          violation_users_file (exec (process_item re_search it) s)
            = violation_users_file s /\
          calls (exec (process_item re_search it) s) = calls s) as (Hvq & Hfile & Hcalls).
  { assert (preserves (fun a b => violation_check_queue b = violation_check_queue a /\
                                  violation_users_file b = violation_users_file a /\
                                  calls b = calls a)
              (process_item re_search it)) as H; [|apply H].
    assert (PreOrder (fun a b : manager =>
                        violation_check_queue b = violation_check_queue a /\
                        violation_users_file b = violation_users_file a /\
                        calls b = calls a)) as Hpre.
    { split; [done|]. intros a b c (?&?&?) (?&?&?). split_and!; congruence. }
    apply fp_process_item; [exact Hpre|..]; frame_leaf. }
  split_and!; try done.
  - unfold violating.
    destruct (item_content it) as [content|] eqn:Hc;
      destruct (item_rpid it) as [id|] eqn:Hid;
      try (destruct it; cbn in *; try discriminate; by rewrite app_nil_r).
    destruct (search_words re_search content (violation_words s)) as [[]|e] eqn:Hs.
    + by destruct (process_item_enqueues re_search it content id s Hc Hid Hs) as [_ ->].
    + cbn. rewrite app_nil_r.
      destruct it as [data|data|]; cbn in Hc, Hid; simplify_eq;
        unfold exec; cbn [process_item]; unfold check_item; cbv [mbind St_bind];
        rewrite check_violation_run, Hs; done.
    + cbn. rewrite app_nil_r.
      destruct it as [data|data|]; cbn in Hc, Hid; simplify_eq;
        unfold exec; cbn [process_item]; unfold check_item; cbv [mbind St_bind];
        rewrite check_violation_run, Hs; by destruct s.
  - unfold violating.
    destruct it as [data|data|]; cbn [item_content item_rpid]; [| |done];
      (destruct (search_words re_search _ (violation_words s)) as [[]|e] eqn:Hs;
       [discriminate| |]; intros _;
       unfold exec; cbn [process_item]; unfold check_item; cbv [mbind St_bind];
       rewrite check_violation_run, Hs; by destruct s).
Qed.

Lemma process_items_run (q : list item) (s : manager) :
  let s' := exec (process_items re_search q) s in
  (process_items re_search q s).1 = Ret tt /\
  comment_queue s' =
    comment_queue s ++ omap (violating re_search (violation_words s)) q /\
  violation_check_queue s' = match q with [] => violation_check_queue s | _ :: _ => [] end /\
  violation_words s' = violation_words s /\
  violation_users_file s' = violation_users_file s /\
  calls s' = calls s /\
  (Forall (fun it => violating re_search (violation_words s) it = None) q ->
   violation_users s' = violation_users s /\ blacklist_queue s' = blacklist_queue s).
Proof.
  revert s. induction q as [|it q IH]; intros s; cbn zeta.
  - cbn. by rewrite app_nil_r.
  - cbn [process_items].
    destruct (exec_seq (modify (set_violation_check_queue q))
                (fun _ => process_item re_search it ≫= fun _ => process_items re_search q)
                s tt eq_refl) as [-> ->].
    set (sa := exec (modify (set_violation_check_queue q)) s).
    destruct (process_item_run it sa) as (Hret & Hcq & Hw & Hvq & Hf & Hc & Hnone).
    destruct (exec_seq (process_item re_search it) (fun _ => process_items re_search q)
                sa tt Hret) as [-> ->].
    set (sb := exec (process_item re_search it) sa) in *.
    destruct (IH sb) as (Hr2 & Hcq2 & Hvq2 & Hw2 & Hf2 & Hc2 & Hnone2).
    assert (violation_words sa = violation_words s) as Hwa by (subst sa; by destruct s).
    rewrite Hw, Hwa in *.
    split_and!.
    + done.
    + rewrite Hcq2, Hcq. cbn [omap list_omap]. subst sa.
      destruct (violating re_search (violation_words s) it); destruct s; cbn;
        by rewrite <- ?app_assoc, ?app_nil_r.
    + rewrite Hvq2. destruct q; [|done]. rewrite Hvq. subst sa. by destruct s.
    + done.
    + rewrite Hf2, Hf. subst sa. by destruct s.
    + rewrite Hc2, Hc. subst sa. by destruct s.
    + intros [Hit Hq]%Forall_cons. destruct (Hnone Hit) as [Hu Hb].
      destruct (Hnone2 Hq) as [Hu2 Hb2]. rewrite Hu2, Hb2, Hu, Hb.
      subst sa. by destruct s.
Qed.

(** X7: the detector takes the whole check queue and returns normally;
    afterwards the check queue is empty and the removal queue has received,
    in FIFO order, exactly one reply id per entry whose body matches, and
    none for an entry that does not match, whose search raises or whose
    type is unknown.  The pattern list, the store file and the issued calls
    are untouched. *)
Theorem detector_enqueues_one_removal_per_match (s : manager) :
  let s' := exec (_process_violations re_search) s in
  (_process_violations re_search s).1 = Ret tt /\
  comment_queue s' =
    comment_queue s ++ omap (violating re_search (violation_words s)) (violation_check_queue s) /\
  violation_check_queue s' = [] /\
  violation_words s' = violation_words s /\
  violation_users_file s' = violation_users_file s /\
  calls s' = calls s.
Proof.
  cbn zeta.
  destruct (process_items_run (violation_check_queue s) s)
    as (Hr & Hcq & Hvq & Hw & Hf & Hc & _).
  unfold exec, _process_violations, try_except in *. cbv [mbind St_bind get_state].
  destruct (process_items re_search (violation_check_queue s) s) as [r s'].
  cbn [fst snd] in *. subst r. split_and!; try done.
  cbn [snd]. rewrite Hvq. by destruct (violation_check_queue s).
Qed.

(** X8: when no entry of the check queue matches, the detector changes
    neither the ledger nor the block queue nor the removal queue: records
    are created or updated for matching entries only. *)
Theorem detector_without_match_leaves_ledger (s : manager) :
  Forall (fun it => violating re_search (violation_words s) it = None)
         (violation_check_queue s) ->
  let s' := exec (_process_violations re_search) s in
  violation_users s' = violation_users s /\
  blacklist_queue s' = blacklist_queue s /\
  comment_queue s' = comment_queue s.
Proof.
  intros Hnone. cbn zeta.
  destruct (process_items_run (violation_check_queue s) s)
    as (Hr & Hcq & _ & _ & _ & _ & Hl).
  destruct (Hl Hnone) as [Hu Hb].
  unfold exec, _process_violations, try_except in *. cbv [mbind St_bind get_state].
  destruct (process_items re_search (violation_check_queue s) s) as [r s'].
  cbn [fst snd] in *. subst r. split_and!; try done.
  cbn [snd]. rewrite Hcq. clear -Hnone.
  induction Hnone as [|it q Hit _ IH]; cbn; [by rewrite app_nil_r|].
  rewrite Hit. exact IH.
Qed.
End Detector.

Lemma detector_without_match_leaves_ledger_witness :
  Forall (fun it => violating literal_search (violation_words quiet_queue) it = None)
         (violation_check_queue quiet_queue) /\
  let s' := exec (_process_violations literal_search) quiet_queue in
  violation_users s' = violation_users quiet_queue /\
  blacklist_queue s' = blacklist_queue quiet_queue /\
  comment_queue s' = comment_queue quiet_queue.
Proof.
  assert (Forall (fun it => violating literal_search (violation_words quiet_queue) it = None)
                 (violation_check_queue quiet_queue)) as H
    by (repeat constructor).
  split; [exact H|].
  exact (detector_without_match_leaves_ledger literal_search quiet_queue H).
Defined.

(** ** The stages of a pass *)

#[local] Instance save_frame_preorder : PreOrder save_frame.
Proof.
  split; [done|]. intros a b c (?&?&?&?&?&?) (?&?&?&?&?&?).
  unfold save_frame. split_and!; congruence.
Qed.

Section Stages.
Variable re_search : string -> string -> outcome bool.
Variables delete modify_relation : Z -> outcome unit.
Variable get_comments_pages : list (outcome (list reply)).
Variable get_sub_comments_pages : Z -> list (outcome (list reply)).
Variable json_dump : list dict -> string.
Variable open_w : outcome unit.
Variable write_text : string -> outcome unit * string.

(** After the harvest a pass runs its four stages to the end. *)
Lemma after_harvest_stages (s : manager) :
  after_harvest re_search delete modify_relation json_dump open_w write_text s =
  (Ret tt,
   after_blocks modify_relation
     (after_removals delete
        (after_save json_dump open_w write_text (after_detection re_search s)))).
Proof.
  unfold after_harvest, after_blocks, after_removals, after_save, after_detection.
  destruct (returns_exec (_process_violations re_search) s
              (returns_process_violations re_search)) as [[] Hpv].
  rewrite (exec_bind _ _ s _ tt Hpv).
  set (s2 := exec (_process_violations re_search) s).
  destruct (returns_exec (_save_violation_users json_dump open_w write_text) s2
              (returns_save json_dump open_w write_text)) as [[] Hsave].
  rewrite (exec_bind _ _ s2 _ tt Hsave).
  set (s3 := exec (_save_violation_users json_dump open_w write_text) s2).
  set (del := get_state ≫= fun s0 : manager => delete_all delete (comment_queue s0)).
  assert (del s3 = (Ret tt, exec (delete_all delete (comment_queue s3)) s3)) as Hdel.
  { unfold del. cbv [mbind St_bind get_state].
    destruct (returns_exec (delete_all delete (comment_queue s3)) s3
                (returns_delete_all delete _)) as [[] Hd]. by rewrite Hd. }
  rewrite (exec_bind del _ s3 _ tt Hdel).
  set (s4 := exec (delete_all delete (comment_queue s3)) s3).
  cbv [mbind St_bind get_state].
  destruct (blacklist_all_run modify_relation (blacklist_queue s4) s4) as [Hret _].
  unfold exec. destruct (blacklist_all modify_relation (blacklist_queue s4) s4) as [r s5].
  cbn in *. by subst.
Qed.

(** The harvest of a pass whose top-level fetch returns: every comment
    fetched is on the check queue, and nothing but the check queue and the
    log has changed. *)
Lemma harvest_queue (max_pages : Z) (m : manager) (comments : list reply) :
  (get_comments get_comments_pages max_pages m).1 = Ret comments ->
  let s1 := exec (harvest get_comments_pages get_sub_comments_pages max_pages) m in
  harvest get_comments_pages get_sub_comments_pages max_pages m = (Ret tt, s1) /\
  harvest_frame m s1 /\
  forall cmt, cmt ∈ comments -> ItemComment cmt ∈ violation_check_queue s1.
Proof.
  intros Hget s1.
  destruct (harvest_run get_comments_pages get_sub_comments_pages max_pages m comments Hget)
    as (Hrun & _).
  split; [exact Hrun|]. split.
  { apply (fp_harvest harvest_frame); frame_leaf. }
  intros cmt Hin. subst s1. unfold exec, harvest in *. clear Hrun.
  destruct (comments_loop_run max_pages get_comments_pages 1 [] m) as (Hr & Hq).
  assert (ItemComment cmt ∈
            violation_check_queue (exec (get_comments get_comments_pages max_pages) m)) as H0.
  { unfold exec, get_comments, try_except in *.
    destruct (comments_loop max_pages get_comments_pages 1 [] m) as [[r|e] s']; cbn in *.
    - destruct (fetched_pages max_pages get_comments_pages 1) as [got [e|]];
        cbn in *; simplify_eq.
      rewrite Hq, elem_of_app. right.
      by apply (list_elem_of_fmap_2 ItemComment).
    - revert Hget. unfold log_exception, log. run_monad. done. }
  unfold exec in H0. cbv [mbind St_bind].
  destruct (get_comments get_comments_pages max_pages m) as [r s0]. cbn in Hget. subst r.
  cbn [snd] in H0.
  assert (preserves check_queue_grows
            (log INFO (MsgCommentsTotal (length comments)) ≫= fun _ =>
             gather_sub_comments get_sub_comments_pages comments [] ≫= fun sub_comments =>
             log INFO (MsgSubTotal (length sub_comments)))) as Hgrow.
  { p_bind; [apply (fp_log check_queue_grows); grows_leaf|intros _].
    p_bind; [apply (fp_gather check_queue_grows); grows_leaf|intros subs].
    apply (fp_log check_queue_grows); grows_leaf. }
  destruct (Hgrow s0) as [new Hnew]. unfold exec in Hnew. cbv [mbind St_bind] in Hnew.
  rewrite Hnew, elem_of_app. by left.
Qed.

(** A pass whose top-level fetch returns is its harvest followed by the
    four stages. *)
Lemma pass_run (max_pages : Z) (m : manager) (comments : list reply) :
  (get_comments get_comments_pages max_pages m).1 = Ret comments ->
  process_all_comments re_search delete modify_relation
    get_comments_pages get_sub_comments_pages json_dump open_w write_text max_pages m =
  (Ret tt,
   after_blocks modify_relation
     (after_removals delete
        (after_save json_dump open_w write_text
           (after_detection re_search
              (exec (harvest get_comments_pages get_sub_comments_pages max_pages) m))))).
Proof.
  intros Hget.
  destruct (harvest_queue max_pages m comments Hget) as (Hrun & _).
  rewrite pass_split. unfold try_except.
  rewrite (exec_bind _ _ m _ tt Hrun), after_harvest_stages. done.
Qed.
End Stages.

(** ** From the third strike to the block call *)

Lemma user_record_insert_other (uid : Z) (l : list dict) (j : nat) (u u' : dict) :
  l !! j = Some u -> has_uid uid u = false -> has_uid uid u' = false ->
  user_record uid (<[j := u']> l) = user_record uid l.
Proof.
  revert j. induction l as [|x l IH]; intros [|j] Hj Hu Hu'; try done.
  - cbn in Hj. simplify_eq.
    change (user_record uid (u' :: l) = user_record uid (u :: l)).
    by rewrite !user_record_cons, Hu, Hu'.
  - cbn in Hj.
    change (user_record uid (x :: <[j := u']> l) = user_record uid (x :: l)).
    by rewrite !user_record_cons, (IH j).
Qed.

Lemma user_record_snoc_other (uid : Z) (l : list dict) (u : dict) :
  has_uid uid u = false -> user_record uid (l ++ [u]) = user_record uid l.
Proof.
  intros Hu. induction l as [|x l IH].
  - cbn [app]. by rewrite user_record_cons, Hu.
  - by rewrite <- app_comm_cons, !user_record_cons, IH.
Qed.

Lemma has_uid_other (u v : Z) (r : dict) :
  wf_record r = true -> has_uid v r = true -> u <> v -> has_uid u r = false.
Proof.
  intros Hwf Hv Hne. destruct (wf_record_fields r Hwf) as (k & ? & ? & ? & Hk & _).
  unfold has_uid in *. rewrite Hk in *. cbn in *.
  apply Z.eqb_eq in Hv. subst. apply Z.eqb_neq. congruence.
Qed.

(** Recording a violation of [v] leaves the count of every other user. *)
Lemma recorded_other (username : string) (u v rpid : Z) (content : string) (l : list dict) :
  wf_ledger l = true -> u <> v ->
  violation_count_of u (recorded username v rpid content l) = violation_count_of u l.
Proof.
  intros Hwf Hne. unfold violation_count_of, recorded.
  destruct (user_record v l) as [[j r]|] eqn:Hf.
  - destruct (user_record_lookup _ _ _ _ Hf) as [Hj Hr].
    pose proof (has_uid_other u v r (wf_ledger_lookup _ _ _ Hwf Hj) Hr Hne) as Hur.
    rewrite (user_record_insert_other u l j r); [done|done|done|].
    by rewrite has_uid_bumped.
  - rewrite user_record_snoc_other; [done|].
    unfold has_uid. destruct (new_record_fields username v rpid content) as (_ & -> & _).
    cbn. apply Z.eqb_neq. congruence.
Qed.

Section Escalation.
Variable re_search : string -> string -> outcome bool.

Lemma check_item_wf (t : item_type) (content username : string) (uid id : Z) (s : manager) :
  wf_ledger (violation_users s) = true ->
  search_words re_search content (violation_words s) = Ret true ->
  let s' := exec (check_item re_search t content username uid id) s in
  violation_users s' = recorded username uid id content (violation_users s) /\
  blacklist_queue s' =
    (if decide (violation_count_of uid (violation_users s) = Some 2)
     then blacklist_queue s ++ [uid] else blacklist_queue s).
Proof.
  intros Hwf Hs. cbn zeta. unfold exec, check_item. cbv [mbind St_bind].
  rewrite check_violation_run, Hs. unfold log. cbv [modify].
  match goal with
  | |- context [_update_violation_user username uid id content ?x] =>
      destruct (update_wf username uid id content x) as (m' & Hrun & Hu & Hb & _);
        [by destruct s|]
  end.
  rewrite Hrun. cbn. destruct s, m'. cbn in *. by subst.
Qed.

Lemma process_item_wf (it : item) (s : manager) :
  wf_ledger (violation_users s) = true ->
  let s' := exec (process_item re_search it) s in
  wf_ledger (violation_users s') = true /\
  match violating re_search (violation_words s) it, item_uid it with
  | Some _, Some v =>
      (forall u, u <> v -> violation_count_of u (violation_users s')
                           = violation_count_of u (violation_users s)) /\
      blacklist_queue s' =
        (if decide (violation_count_of v (violation_users s) = Some 2)
         then blacklist_queue s ++ [v] else blacklist_queue s)
  | _, _ =>
      violation_users s' = violation_users s /\ blacklist_queue s' = blacklist_queue s
  end.
Proof.
  intros Hwf. cbn zeta.
  destruct (process_item_run re_search it s) as (_ & _ & _ & _ & _ & _ & Hnone).
  destruct (violating re_search (violation_words s) it) as [id|] eqn:Hv.
  - unfold violating in Hv.
    destruct it as [data|data|]; cbn [item_content item_rpid item_uid] in *; [| |done];
      (destruct (search_words re_search _ (violation_words s)) as [[]|e] eqn:Hs;
       try discriminate;
       match goal with
       | |- context [process_item re_search ?i] =>
           cbn [process_item];
           match goal with
           | |- context [check_item re_search ?t ?c ?n ?u ?r] =>
               destruct (check_item_wf t c n u r s Hwf Hs) as [Hu Hb]
           end
       end;
       rewrite Hu; split; [by apply recorded_wf|];
       split; [intros u Hne; by apply recorded_other | exact Hb]).
  - destruct (Hnone eq_refl) as [Hu Hb]. rewrite Hu.
    split; [done|]. by destruct (item_uid it).
Qed.

Lemma process_items_blocks_grow (q : list item) (s : manager) :
  wf_ledger (violation_users s) = true ->
  exists more,
    blacklist_queue (exec (process_items re_search q) s) = blacklist_queue s ++ more.
Proof.
  revert s. induction q as [|it q IH]; intros s Hwf.
  - exists []. cbn. by rewrite app_nil_r.
  - cbn [process_items].
    destruct (exec_seq (modify (set_violation_check_queue q))
                (fun _ => process_item re_search it ≫= fun _ => process_items re_search q)
                s tt eq_refl) as [-> _].
    set (sa := exec (modify (set_violation_check_queue q)) s).
    assert (violation_users sa = violation_users s /\
            blacklist_queue sa = blacklist_queue s) as [Hua Hba]
      by (subst sa; by destruct s).
    destruct (process_item_run re_search it sa) as (Hret & _).
    destruct (exec_seq (process_item re_search it) (fun _ => process_items re_search q)
                sa tt Hret) as [-> _].
    destruct (process_item_wf it sa) as [Hwf' Hm]; [by rewrite Hua|].
    destruct (IH _ Hwf') as [more Hmore]. rewrite Hmore.
    destruct (violating re_search (violation_words sa) it), (item_uid it);
      try (destruct Hm as [_ ->]; rewrite Hba; by eexists).
    destruct Hm as [_ ->]. case_decide; rewrite Hba, <- ?app_assoc; by eexists.
Qed.

(** A user at count 2 with a matching entry somewhere in the check queue
    is on the block queue when the detector has emptied the check queue. *)
Lemma process_items_third_strike (q : list item) (s : manager) (u : Z) :
  wf_ledger (violation_users s) = true ->
  violation_count_of u (violation_users s) = Some 2 ->
  (exists it id, it ∈ q /\ violating re_search (violation_words s) it = Some id /\
                 item_uid it = Some u) ->
  u ∈ blacklist_queue (exec (process_items re_search q) s).
Proof.
  revert s. induction q as [|it0 q IH]; intros s Hwf Hc (it & id & Hin & Hv & Hu).
  - by apply elem_of_nil in Hin.
  - cbn [process_items].
    destruct (exec_seq (modify (set_violation_check_queue q))
                (fun _ => process_item re_search it0 ≫= fun _ => process_items re_search q)
                s tt eq_refl) as [-> _].
    set (sa := exec (modify (set_violation_check_queue q)) s).
    assert (violation_users sa = violation_users s /\
            violation_words sa = violation_words s) as [Hua Hwa]
      by (subst sa; by destruct s).
    destruct (process_item_run re_search it0 sa) as (Hret & _ & Hw & _).
    destruct (exec_seq (process_item re_search it0) (fun _ => process_items re_search q)
                sa tt Hret) as [-> _].
    destruct (process_item_wf it0 sa) as [Hwf' Hm]; [by rewrite Hua|].
    set (sb := exec (process_item re_search it0) sa) in *.
    rewrite Hwa, Hua in Hm. rewrite Hwa in Hw.
    assert (forall P : Prop,
              (violating re_search (violation_words s) it0 = Some id ->
               item_uid it0 = Some u -> P) ->
              (it ∈ q -> P) -> P) as Hcases.
    { intros P Hhere Hlater. apply elem_of_cons in Hin as [->|Hin]; auto. }
    destruct (violating re_search (violation_words s) it0) as [id0|] eqn:Hv0;
      [destruct (item_uid it0) as [v|] eqn:Hu0|].
    + destruct Hm as [Hothers Hbq]. destruct (decide (v = u)) as [->|Hne].
      * rewrite Hc, decide_True in Hbq by done.
        destruct (process_items_blocks_grow q sb Hwf') as [more ->].
        rewrite Hbq, !elem_of_app. left; right. by apply list_elem_of_singleton.
      * apply IH; [done|by rewrite Hothers|rewrite Hw].
        exists it, id. split_and!; [|done..].
        apply Hcases; [intros _ [=]; congruence | done].
    + destruct Hm as [Hsame _]. apply IH; [done|by rewrite Hsame|rewrite Hw].
      exists it, id. split_and!; [|done..].
      apply Hcases; [intros _ [=] | done].
    + destruct Hm as [Hsame _]. apply IH; [done|by rewrite Hsame|rewrite Hw].
      exists it, id. split_and!; [|done..].
      apply Hcases; [intros [=] | done].
Qed.
End Escalation.

(** ** Whole passes *)

Section PassProperties.
Variable re_search : string -> string -> outcome bool.
Variables delete modify_relation : Z -> outcome unit.
Variable get_comments_pages : list (outcome (list reply)).
Variable get_sub_comments_pages : Z -> list (outcome (list reply)).
Variable json_dump : list dict -> string.
Variable open_w : outcome unit.
Variable write_text : string -> outcome unit * string.

(** X9: when a pass fetches a top-level comment whose body matches, written
    by a user whose record stands at two violations on a ledger of the
    shape the program writes, and the user is not the allow-listed one, the
    platform's block call for that user is issued before the pass ends,
    whatever else is on the check queue and whether or not the store can
    be written or the removals succeed. *)
Theorem third_strike_blocked_in_same_pass
    (max_pages : Z) (m : manager) (comments : list reply) (cmt : reply) :
  (get_comments get_comments_pages max_pages m).1 = Ret comments ->
  cmt ∈ comments ->
  search_words re_search (msg cmt) (violation_words m) = Ret true ->
  wf_ledger (violation_users m) = true ->
  violation_count_of (mid cmt) (violation_users m) = Some 2 ->
  mid cmt <> 621240130 ->
  CallBlock (mid cmt) ∈
    calls (exec (process_all_comments re_search delete modify_relation
                   get_comments_pages get_sub_comments_pages
                   json_dump open_w write_text max_pages) m).
Proof.
  intros Hget Hin Hs Hwf Hc Hne.
  unfold exec at 1.
  rewrite (pass_run re_search delete modify_relation get_comments_pages
             get_sub_comments_pages json_dump open_w write_text max_pages m comments Hget).
  cbn [snd].
  destruct (harvest_queue get_comments_pages get_sub_comments_pages max_pages m comments Hget)
    as (_ & Hframe & Hq).
  set (s1 := exec (harvest get_comments_pages get_sub_comments_pages max_pages) m) in *.
  destruct Hframe as (Hw & Hu & _).
  assert (mid cmt ∈ blacklist_queue (after_detection re_search s1)) as H2.
  { unfold after_detection, exec, _process_violations, try_except.
    cbv [mbind St_bind get_state].
    destruct (process_items_run re_search (violation_check_queue s1) s1) as (Hr & _).
    pose proof (process_items_third_strike re_search
                  (violation_check_queue s1) s1 (mid cmt)) as H.
    unfold exec in H.
    destruct (process_items re_search (violation_check_queue s1) s1) as [r s2].
    cbn in Hr. subst r. cbn [snd]. apply H; [by rewrite Hu|by rewrite Hu|].
    exists (ItemComment cmt), (rpid cmt). split_and!; [by apply Hq| |done].
    unfold violating. cbn. by rewrite Hw, Hs. }
  set (s2 := after_detection re_search s1) in *.
  pose proof (fp_save save_frame json_dump open_w write_text
                ltac:(frame_leaf) ltac:(frame_leaf) s2) as (_ & _ & _ & H3 & _).
  fold (after_save json_dump open_w write_text s2) in H3.
  set (s3 := after_save json_dump open_w write_text s2) in *.
  destruct (delete_all_run delete (comment_queue s3) s3) as (_ & _ & _ & _ & H4 & _).
  fold (after_removals delete s3) in H4.
  set (s4 := after_removals delete s3) in *.
  destruct (blacklist_all_run modify_relation (blacklist_queue s4) s4) as (_ & H5 & _).
  unfold after_blocks. rewrite H5, elem_of_app. right.
  apply (list_elem_of_fmap_2 CallBlock), list_elem_of_filter.
  split; [done|]. by rewrite H4, H3.
Qed.

(** X10: a pass whose top-level fetch returns runs to its end and returns
    normally, whatever the platform and the store answer afterwards; when
    it ends, the check queue, the removal queue and the block queue are
    all empty. *)
Theorem completed_pass_leaves_queues_empty
    (max_pages : Z) (m : manager) (comments : list reply) :
  (get_comments get_comments_pages max_pages m).1 = Ret comments ->
  let pass := process_all_comments re_search delete modify_relation
                get_comments_pages get_sub_comments_pages
                json_dump open_w write_text max_pages in
  (pass m).1 = Ret tt /\
  violation_check_queue (exec pass m) = [] /\
  comment_queue (exec pass m) = [] /\
  blacklist_queue (exec pass m) = [].
Proof.
  intros Hget pass. subst pass. unfold exec.
  rewrite (pass_run re_search delete modify_relation get_comments_pages
             get_sub_comments_pages json_dump open_w write_text max_pages m comments Hget).
  cbn [fst snd]. split; [done|].
  set (s1 := exec (harvest get_comments_pages get_sub_comments_pages max_pages) m).
  assert (violation_check_queue (after_detection re_search s1) = []) as H2.
  { unfold after_detection, exec, _process_violations, try_except.
    cbv [mbind St_bind get_state].
    destruct (process_items_run re_search (violation_check_queue s1) s1)
      as (Hr & _ & Hvq & _).
    unfold exec in Hvq.
    destruct (process_items re_search (violation_check_queue s1) s1) as [r s2].
    cbn in Hr. subst r. cbn [snd] in *. rewrite Hvq.
    by destruct (violation_check_queue s1). }
  set (s2 := after_detection re_search s1) in *.
  pose proof (fp_save save_frame json_dump open_w write_text
                ltac:(frame_leaf) ltac:(frame_leaf) s2) as (_ & _ & _ & _ & H3 & _).
  fold (after_save json_dump open_w write_text s2) in H3.
  set (s3 := after_save json_dump open_w write_text s2) in *.
  destruct (delete_all_run delete (comment_queue s3) s3)
    as (_ & _ & H4c & _ & _ & _ & H4).
  fold (after_removals delete s3) in H4, H4c.
  set (s4 := after_removals delete s3) in *.
  destruct (blacklist_all_run modify_relation (blacklist_queue s4) s4)
    as (_ & _ & H5b & H5c & _ & _ & H5).
  fold (after_blocks modify_relation s4) in H5, H5b, H5c.
  split_and!.
  - by rewrite H5, H4, H3.
  - rewrite H5c, H4c. by destruct (comment_queue s3).
  - rewrite H5b. by destruct (blacklist_queue s4).
Qed.

(** X11: when the top-level fetch raises, the pass logs the failure and
    returns normally without reaching persistence or the executors: no
    removal or block call is issued and the store file is not written. *)
Theorem failed_fetch_ends_pass_without_actions
    (max_pages : Z) (m : manager) (e : exn) :
  (get_comments get_comments_pages max_pages m).1 = Raise e ->
  let pass := process_all_comments re_search delete modify_relation
                get_comments_pages get_sub_comments_pages
                json_dump open_w write_text max_pages in
  (pass m).1 = Ret tt /\
  calls (exec pass m) = calls m /\
  violation_users_file (exec pass m) = violation_users_file m /\
  exists before,
    logger (exec pass m) = before ++ [(ERROR, MsgPassFailed e); (DEBUG, Traceback)].
Proof.
  intros Hget pass. subst pass.
  pose proof (fp_get_comments harvest_frame get_comments_pages
                ltac:(frame_leaf) ltac:(frame_leaf) max_pages m)
    as (_ & _ & _ & _ & Hf & Hc).
  unfold exec in *. unfold process_all_comments, harvest, try_except.
  cbv [mbind St_bind].
  destruct (get_comments get_comments_pages max_pages m) as [r s0].
  cbn in Hget. subst r. cbn [snd] in *.
  unfold log_exception, log. run_monad.
  split_and!; [done|by destruct s0..|].
  exists (logger s0). destruct s0; cbn. by rewrite <- app_assoc.
Qed.

(** X12: in a pass whose top-level fetch returns, the store is written
    once, between detection and the executors: what the file holds at the
    end of the pass is the ledger as detection left it, written when no
    action call of the pass had been issued; the sentinel a block of this
    pass writes into the ledger is not in the file.  When the file cannot
    be opened it keeps what it held. *)
Theorem store_written_before_actions
    (max_pages : Z) (m : manager) (comments : list reply) :
  (get_comments get_comments_pages max_pages m).1 = Ret comments ->
  let pass := process_all_comments re_search delete modify_relation
                get_comments_pages get_sub_comments_pages
                json_dump open_w write_text max_pages in
  let detected :=
    after_detection re_search
      (exec (harvest get_comments_pages get_sub_comments_pages max_pages) m) in
  calls detected = calls m /\
  violation_users_file (exec pass m) =
    match open_w with
    | Ret _ => Some (write_text (json_dump (violation_users detected))).2
    | Raise _ => violation_users_file m
    end.
Proof.
  intros Hget. cbn zeta. unfold exec at 2.
  rewrite (pass_run re_search delete modify_relation get_comments_pages
             get_sub_comments_pages json_dump open_w write_text max_pages m comments Hget).
  cbn [snd].
  destruct (harvest_queue get_comments_pages get_sub_comments_pages max_pages m comments Hget)
    as (_ & Hframe & _).
  set (s1 := exec (harvest get_comments_pages get_sub_comments_pages max_pages) m) in *.
  set (detected := after_detection re_search s1).
  destruct Hframe as (_ & _ & _ & _ & Hf1 & Hc1).
  assert (calls detected = calls s1 /\
          violation_users_file detected = violation_users_file s1) as [Hc2 Hf2].
  { subst detected. unfold after_detection, exec, _process_violations, try_except.
    cbv [mbind St_bind get_state].
    destruct (process_items_run re_search (violation_check_queue s1) s1)
      as (Hr & _ & _ & _ & Hf & Hc & _).
    unfold exec in Hf, Hc.
    destruct (process_items re_search (violation_check_queue s1) s1) as [r s2].
    cbn in Hr. subst r. done. }
  split; [by rewrite Hc2|].
  set (s3 := after_save json_dump open_w write_text detected).
  destruct (delete_all_run delete (comment_queue s3) s3) as (_ & _ & _ & _ & _ & H4 & _).
  fold (after_removals delete s3) in H4.
  set (s4 := after_removals delete s3) in *.
  destruct (blacklist_all_run modify_relation (blacklist_queue s4) s4)
    as (_ & _ & _ & _ & _ & H5 & _).
  fold (after_blocks modify_relation s4) in H5.
  rewrite H5, H4. subst s3. rewrite <- Hf1, <- Hf2.
  unfold after_save, exec, _save_violation_users, open_for_writing, dump, log_exception, log.
  run_monad. destruct open_w as [[]|e]; cbn.
  - destruct (write_text (json_dump (violation_users detected))) as [[[]|e] written];
      by destruct detected.
  - by destruct detected.
Qed.

End PassProperties.

Lemma third_strike_blocked_in_same_pass_witness :
  (get_comments one_spam_page 5 two_strikes).1 = Ret [spam_reply] /\
  spam_reply ∈ [spam_reply] /\
  search_words literal_search (msg spam_reply) (violation_words two_strikes) = Ret true /\
  wf_ledger (violation_users two_strikes) = true /\
  violation_count_of (mid spam_reply) (violation_users two_strikes) = Some 2 /\
  mid spam_reply <> 621240130 /\
  CallBlock (mid spam_reply) ∈
    calls (exec (process_all_comments literal_search always_fails always_ok
                   one_spam_page no_threads dump_empty (Raise OSError) write_all 5)
             two_strikes).
Proof.
  assert ((get_comments one_spam_page 5 two_strikes).1 = Ret [spam_reply]) as H1
    by reflexivity.
  assert (spam_reply ∈ [spam_reply]) as H2 by (apply list_elem_of_singleton; reflexivity).
  assert (search_words literal_search (msg spam_reply) (violation_words two_strikes)
          = Ret true) as H3 by reflexivity.
  assert (wf_ledger (violation_users two_strikes) = true) as H4 by (vm_compute; reflexivity).
  assert (violation_count_of (mid spam_reply) (violation_users two_strikes) = Some 2) as H5
    by (vm_compute; reflexivity).
  assert (mid spam_reply <> 621240130) as H6 by (cbn; lia).
  split_and!; [done..|].
  exact (third_strike_blocked_in_same_pass literal_search always_fails always_ok
           one_spam_page no_threads dump_empty (Raise OSError) write_all
           5 two_strikes [spam_reply] spam_reply H1 H2 H3 H4 H5 H6).
Defined.

Lemma completed_pass_leaves_queues_empty_witness :
  (get_comments two_threads 5 (idle_manager ["spam"] [])).1
    = Ret [ {| rpid := 100; mid := 11; uname := "ann"; msg := "first"; replies := true |};
            {| rpid := 200; mid := 12; uname := "ben"; msg := "second"; replies := true |} ] /\
  (failing_pass (idle_manager ["spam"] [])).1 = Ret tt /\
  violation_check_queue (exec failing_pass (idle_manager ["spam"] [])) = [] /\
  comment_queue (exec failing_pass (idle_manager ["spam"] [])) = [] /\
  blacklist_queue (exec failing_pass (idle_manager ["spam"] [])) = [].
Proof.
  split; [reflexivity|].
  apply (completed_pass_leaves_queues_empty literal_search always_ok always_ok
           two_threads failing_thread dump_empty (Ret tt) write_all
           5 (idle_manager ["spam"] []) _ eq_refl).
Defined.

Lemma failed_fetch_ends_pass_without_actions_witness :
  (get_comments [Raise ApiError] 5 two_strikes).1 = Raise ApiError /\
  let pass := process_all_comments literal_search always_ok always_ok
                [Raise ApiError] no_threads dump_empty (Ret tt) write_all 5 in
  (pass two_strikes).1 = Ret tt /\
  calls (exec pass two_strikes) = calls two_strikes /\
  violation_users_file (exec pass two_strikes) = violation_users_file two_strikes /\
  exists before,
    logger (exec pass two_strikes)
      = before ++ [(ERROR, MsgPassFailed ApiError); (DEBUG, Traceback)].
Proof.
  split; [reflexivity|].
  apply (failed_fetch_ends_pass_without_actions literal_search always_ok always_ok
           [Raise ApiError] no_threads dump_empty (Ret tt) write_all
           5 two_strikes ApiError eq_refl).
Defined.

Lemma store_written_before_actions_witness :
  (get_comments one_spam_page 5 two_strikes).1 = Ret [spam_reply] /\
  let pass := process_all_comments literal_search always_ok always_ok
                one_spam_page no_threads dump_empty (Ret tt) write_all 5 in
  let detected :=
    after_detection literal_search (exec (harvest one_spam_page no_threads 5) two_strikes) in
  calls detected = calls two_strikes /\
  violation_users_file (exec pass two_strikes) =
    Some (write_all (dump_empty (violation_users detected))).2.
Proof.
  split; [reflexivity|].
  apply (store_written_before_actions literal_search always_ok always_ok
           one_spam_page no_threads dump_empty (Ret tt) write_all
           5 two_strikes [spam_reply] eq_refl).
Defined.

(** ** Persistence *)

(** X13: [_load_violation_users] never raises and never touches the
    in-memory state other than the log.  When the store file exists and
    can be opened and parsed it returns what [json.load] reads from it; in
    every other case it returns the empty ledger.  An existing file is left
    as it is; a missing one is created whenever it can be opened for
    writing. *)
Theorem load_defaults_to_empty_ledger
    (json_dump : list dict -> string) (json_load : string -> outcome (list dict))
    (open_r open_w : outcome unit) (write_text : string -> outcome unit * string)
    (m : manager) :
  let load := _load_violation_users json_dump json_load open_r open_w write_text in
  (load m).1 =
    match violation_users_file m, open_r with
    | Some text, Ret _ =>
        match json_load text with
        | Ret l => Ret l
        | Raise _ => Ret []
        end
    | _, _ => Ret []
    end /\
  save_frame m (exec load m) /\
  match violation_users_file m, open_w with
  | Some text, _ => violation_users_file (exec load m) = Some text
  | None, Ret _ => is_Some (violation_users_file (exec load m))
  | None, Raise _ => violation_users_file (exec load m) = None
  end.
Proof.
  cbn zeta. destruct m as [words users cq bq vq file lg cs].
  unfold exec, _load_violation_users, open_for_writing, dump, log_exception, log, save_frame.
  run_monad. destruct file as [text|].
  - destruct open_r as [[]|e]; cbn; [|done].
    by destruct (json_load text) as [l|e].
  - destruct open_w as [[]|e]; cbn.
    + destruct (write_text (json_dump [])) as [[[]|e] written]; cbn;
        by destruct open_r.
    + by destruct open_r.
Qed.

(** X14: [_save_violation_users] never raises and never touches the
    in-memory state other than the log.  When the file cannot be opened it
    keeps what it held; once it has been opened, it holds whatever the dump
    managed to write, also when the dump fails halfway: the previous
    content is gone.  Success and failure are logged. *)
Theorem save_is_best_effort
    (json_dump : list dict -> string) (open_w : outcome unit)
    (write_text : string -> outcome unit * string) (m : manager) :
  let save := _save_violation_users json_dump open_w write_text in
  let attempt := write_text (json_dump (violation_users m)) in
  (save m).1 = Ret tt /\
  save_frame m (exec save m) /\
  match open_w with
  | Raise e =>
      violation_users_file (exec save m) = violation_users_file m /\
      logger (exec save m) = logger m ++ [(ERROR, MsgSaveFailed e); (DEBUG, Traceback)]
  | Ret _ =>
      violation_users_file (exec save m) = Some attempt.2 /\
      logger (exec save m) =
        logger m ++ match attempt.1 with
                    | Ret _ => [(INFO, MsgSaved)]
                    | Raise e => [(ERROR, MsgSaveFailed e); (DEBUG, Traceback)]
                    end
  end.
Proof.
  cbn zeta. destruct m as [words users cq bq vq file lg cs].
  unfold exec, _save_violation_users, open_for_writing, dump, log_exception, log, save_frame.
  run_monad. destruct open_w as [[]|e]; cbn.
  - destruct (write_text (json_dump users)) as [[[]|e] written]; cbn;
      split_and!; try done. by rewrite <- app_assoc.
  - split_and!; try done. by rewrite <- app_assoc.
Qed.

(** ** Records of another shape *)

Lemma find_user_reaches (uid rpid : Z) (content : string) (l : list dict)
    (i j : nat) (r : dict) :
  l !! j = Some r ->
  has_uid uid r = true ->
  (forall k u, (k < j)%nat -> l !! k = Some u ->
               exists v, u !! "uid" = Some v /\ eq_int v uid = false) ->
  find_user uid rpid content i l =
  match bump_record rpid content r with
  | (Ret _, r') => (Ret (Some (i + j)%nat), <[j := r']> l)
  | (Raise e, r') => (Raise e, <[j := r']> l)
  end.
Proof.
  revert i j. induction l as [|x l IH]; intros i [|j] Hj Hr Hbefore; try done.
  - cbn in Hj. simplify_eq. cbn [find_user]. unfold has_uid in Hr.
    destruct (r !! "uid") as [v|]; [|done]. rewrite Hr.
    replace (i + 0)%nat with i by lia.
    by destruct (bump_record rpid content r) as [[[]|e] r'].
  - cbn in Hj. cbn [find_user].
    destruct (Hbefore 0%nat x ltac:(lia) eq_refl) as (v & -> & ->).
    rewrite (IH (S i) j Hj Hr).
    + replace (S i + j)%nat with (i + S j)%nat by lia.
      by destruct (bump_record rpid content r) as [[[]|e] r'].
    + intros k u Hk Hu. apply (Hbefore (S k) u); [lia|done].
Qed.

(** X15: when the user's record has an integer count but no
    [comment_rpids] key (a ledger written by new.py, which stores the ids
    under [comment_ids]), [_update_violation_user] still increments the
    count, then fails on the missing key: the error is logged, the call
    returns normally, the increment stays, and the user is not put on the
    block queue, even when the count has just become 3. *)
Theorem record_without_reply_ids_never_escalates
    (username : string) (uid rpid : Z) (content : string) (m : manager)
    (j : nat) (r : dict) (c : Z) :
  violation_users m !! j = Some r ->
  has_uid uid r = true ->
  (forall k u, (k < j)%nat -> violation_users m !! k = Some u ->
               exists v, u !! "uid" = Some v /\ eq_int v uid = false) ->
  r !! "violation_count" = Some (VInt c) ->
  r !! "comment_rpids" = None ->
  let m' := exec (_update_violation_user username uid rpid content) m in
  (_update_violation_user username uid rpid content m).1 = Ret tt /\
  violation_users m' = <[j := <["violation_count" := VInt (c + 1)]> r]> (violation_users m) /\
  blacklist_queue m' = blacklist_queue m /\
  logger m' = logger m ++ [(ERROR, MsgUpdateFailed (KeyError "comment_rpids"));
                           (DEBUG, Traceback)].
Proof.
  intros Hj Hr Hbefore Hc Hids. cbn zeta.
  destruct m as [words users cq bq vq file lg cs]. cbn in Hj, Hbefore.
  assert (bump_record rpid content r =
          (Raise (KeyError "comment_rpids"), <["violation_count" := VInt (c + 1)]> r)) as Hb.
  { unfold bump_record, iadd_item, append_item, getitem, setitem. run_monad.
    rewrite Hc. cbn. by rewrite lookup_insert_ne, Hids. }
  unfold exec, _update_violation_user, log_exception, log. run_monad.
  rewrite (find_user_reaches uid rpid content users 0 j r Hj Hr Hbefore), Hb. cbn.
  split_and!; try done. by rewrite <- app_assoc.
Qed.

Lemma record_without_reply_ids_never_escalates_witness :
  violation_users no_reply_ids_ledger !! 0%nat = Some no_reply_ids /\
  has_uid 7 no_reply_ids = true /\
  no_reply_ids !! "violation_count" = Some (VInt 2) /\
  no_reply_ids !! "comment_rpids" = None /\
  let m' := exec (_update_violation_user "bob" 7 103 "spam c") no_reply_ids_ledger in
  (_update_violation_user "bob" 7 103 "spam c" no_reply_ids_ledger).1 = Ret tt /\
  violation_users m' =
    <[0%nat := <["violation_count" := VInt (2 + 1)]> no_reply_ids]>
      (violation_users no_reply_ids_ledger) /\
  blacklist_queue m' = blacklist_queue no_reply_ids_ledger /\
  logger m' = logger no_reply_ids_ledger ++
                [(ERROR, MsgUpdateFailed (KeyError "comment_rpids")); (DEBUG, Traceback)].
Proof.
  assert (violation_users no_reply_ids_ledger !! 0%nat = Some no_reply_ids) as H1
    by reflexivity.
  assert (has_uid 7 no_reply_ids = true) as H2 by (vm_compute; reflexivity).
  assert (no_reply_ids !! "violation_count" = Some (VInt 2)) as H3
    by (vm_compute; reflexivity).
  assert (no_reply_ids !! "comment_rpids" = None) as H4 by (vm_compute; reflexivity).
  split_and!; [done..|].
  apply (record_without_reply_ids_never_escalates "bob" 7 103 "spam c"
           no_reply_ids_ledger 0 no_reply_ids 2 H1 H2); [|exact H3|exact H4].
  intros k u Hk. lia.
Defined.

(** ** What a block leaves in the ledger *)

#[local] Instance same_but_count_preorder : PreOrder same_but_count.
Proof.
  split; [done|]. intros a b c Hab Hbc k Hk. by rewrite Hbc, Hab.
Qed.

#[local] Instance evidence_kept_preorder : PreOrder evidence_kept.
Proof.
  split.
  - intros l. unfold evidence_kept. induction l; by constructor.
  - intros a b c Hab. revert c. unfold evidence_kept in *.
    induction Hab as [|x y l l' Hxy _ IH]; intros c Hbc; [done|].
    inversion Hbc as [|y' z l2 l3 Hyz Hrest]; subst.
    constructor; [by etrans|by apply IH].
Qed.

Lemma mark_blocked_keeps_evidence (uid : Z) (l : list dict) :
  evidence_kept l (mark_blocked uid l).2.
Proof.
  unfold evidence_kept. induction l as [|u l IH]; [constructor|].
  cbn [mark_blocked]. destruct (u !! "uid") as [v|]; [|reflexivity].
  destruct (eq_int v uid).
  - cbn [snd]. constructor; [|reflexivity].
    intros k Hk. by rewrite lookup_insert_ne.
  - destruct (mark_blocked uid l) as [r l']. cbn [snd] in *. by constructor.
Qed.

(** X16: the block loop changes nothing in the ledger but violation
    counts: whatever the platform answers, the ledger keeps the same
    records in the same order, and in every record every key other than
    [violation_count] (user id, username, reply ids, bodies) keeps its
    value. *)
Theorem blocks_keep_evidence (modify_relation : Z -> outcome unit) (q : list Z)
    (s : manager) :
  evidence_kept (violation_users s)
                (violation_users (exec (blacklist_all modify_relation q) s)).
Proof.
  revert s. induction q as [|uid q IH]; intros s; [reflexivity|].
  cbn [blacklist_all].
  destruct (exec_seq (modify (set_blacklist_queue q))
              (fun _ => blacklist_user modify_relation uid ≫=
                        fun _ => blacklist_all modify_relation q)
              s tt eq_refl) as [-> _].
  set (sa := exec (modify (set_blacklist_queue q)) s).
  destruct (blacklist_user_run modify_relation uid sa) as (Hret & _).
  destruct (exec_seq (blacklist_user modify_relation uid)
              (fun _ => blacklist_all modify_relation q) sa tt Hret) as [-> _].
  etrans; [|apply IH].
  rewrite blacklist_user_users.
  assert (violation_users sa = violation_users s) as -> by (subst sa; by destruct s).
  case_bool_decide; [reflexivity|].
  destruct (modify_relation uid); [|reflexivity].
  apply mark_blocked_keeps_evidence.
Qed.

(** ** Which nested-reply sequences a pass requests *)

(** X17: a pass requests the nested replies of the comments that carry
    embedded replies, and of no other comment: what the platform would
    answer for a comment without embedded replies, or for a comment that
    was not fetched, plays no part. *)
Theorem nested_replies_requested_only_where_flagged
    (pages_of pages_of' : Z -> list (outcome (list reply)))
    (comments : list reply) (sub_comments : list sub_reply) (s : manager) :
  Forall (fun cmt => replies cmt = true -> pages_of (rpid cmt) = pages_of' (rpid cmt))
         comments ->
  gather_sub_comments pages_of comments sub_comments s =
  gather_sub_comments pages_of' comments sub_comments s.
Proof.
  intros Hall. revert sub_comments s.
  induction Hall as [|cmt comments Hcmt _ IH]; intros sub_comments s; [done|].
  cbn [gather_sub_comments]. destruct (replies cmt); [|apply IH].
  unfold _get_single_sub_comment. rewrite (Hcmt eq_refl).
  cbv [mbind St_bind].
  match goal with |- context [try_except ?b ?h s] => destruct (try_except b h s) as [[l|e] s1] end;
    [apply IH|done].
Qed.

Lemma nested_replies_requested_only_where_flagged_witness :
  let unflagged :=
    {| rpid := 100; mid := 11; uname := "ann"; msg := "first"; replies := false |} in
  Forall (fun cmt => replies cmt = true -> failing_thread (rpid cmt) = no_threads (rpid cmt))
         [unflagged] /\
  gather_sub_comments failing_thread [unflagged] [] (idle_manager [] []) =
  gather_sub_comments no_threads [unflagged] [] (idle_manager [] []).
Proof.
  intros unflagged.
  assert (Forall (fun cmt => replies cmt = true ->
                             failing_thread (rpid cmt) = no_threads (rpid cmt))
                 [unflagged]) as H.
  { constructor; [|constructor]. cbn. discriminate. }
  split; [exact H|].
  exact (nested_replies_requested_only_where_flagged failing_thread no_threads
           [unflagged] [] (idle_manager [] []) H).
Defined.
